(** * PDF extraction pipeline: a shallow embedding of the page loop

    The development follows the TypeScript sources:

    - the type declarations App.tsx imports from [./types]: the records
      [PageExtraction] and [ProcessingState];
    - [services/geminiService.ts]     [extractContentFromPage];
    - [services/evaluatorService.tsx] [processAndEvaluate];
    - [App.tsx]                       [reset], [processFile] and the memoised
                                      [combinedContent].

    React's [setState(prev => ...)] calls are defunctionalised: every updater
    closure of the source is a constructor of [Update], and [applyUpdate]
    gives the function the closure denotes.  An [async] function is a
    computation in a writer/exception monad [M] that logs, in program order,
    each suspension on a collaborator ([Await]) and each state update
    ([SetState]).  The collaborators (pdf.js rendering, the Gemini client,
    [JSON.parse]) are fields of a record passed to the code. *)

From Stdlib Require Import String Ascii List Arith Bool Lia QArith.
Import ListNotations.
Local Open Scope string_scope.
Local Open Scope nat_scope.
Local Open Scope list_scope.
Set Warnings "-register-all".

(** ** Type declarations ([./types]) *)

Module PageExtraction.

Inductive Status : Type := pending | processing | completed | error.

Record t : Type := mk {
  pageNumber : nat;
  content : string;
  status : Status;
  imageUrl : option string
}.

Definition isCompleted (r : t) : bool :=
  match status r with completed => true | _ => false end.

Definition isTerminal (r : t) : bool :=
  match status r with completed | error => true | _ => false end.

End PageExtraction.

Module ProcessingState.

Inductive Status : Type := idle | loading | processing | completed | error.

Record t : Type := mk {
  status : Status;
  totalPages : nat;
  currentPage : nat;
  results : list PageExtraction.t;
  errorMessage : option string
}.

End ProcessingState.

Definition Page : Type := PageExtraction.t.
Definition State : Type := ProcessingState.t.

(** A browser [File] is opaque to the pipeline: only the collaborators look
    inside.  It is modelled by a handle. *)
Definition File : Type := string.

(** ** JavaScript values that cross the service boundary *)

(** What a rejected promise or a [throw] carries. *)
Inductive exn : Type :=
| Error (message : string)
| Rejection (reason : string).

Inductive outcome (A : Type) : Type :=
| Returned (a : A)
| Thrown (e : exn).
Arguments Returned {A} a.
Arguments Thrown {A} e.

(** Parts of a [generateContent] request. *)
Inductive Part : Type :=
| text_part (text : string)
| inlineData (data mimeType : string).

(** [Type.*] response schemas of @google/genai. *)
Inductive Schema : Type :=
| STRING
| NUMBER
| ARRAY (items : Schema)
| OBJECT (properties : list (string * Schema)) (required : list string).

Record Config : Type := {
  responseMimeType : string;
  responseSchema : Schema
}.

Record GenRequest : Type := {
  model : string;
  parts : list Part;
  config : option Config
}.

(** The only field of the response the code reads; [None] is [undefined]. *)
Record GenResponse : Type := { text : option string }.

(** Values produced by [JSON.parse]. *)
Inductive json : Type :=
| JNull
| JBool (b : bool)
| JNumber (q : Q)
| JString (s : string)
| JArray (elements : list json)
| JObject (members : list (string * json)).

(** ** Collaborators

    [getPageCount], [getPageAsDataUrl] and [getPageAsImage] are the exports
    of services/pdfProcessor.ts; each is a chain of pdf.js and canvas calls
    that either yields its value or rejects.  [API_KEY] is
    [process.env.API_KEY]; [generateContent] is [ai.models.generateContent]
    of a client built with the given key; [JSON_parse] is the runtime's
    [JSON.parse], [None] standing for a [SyntaxError]. *)
Record Collaborators : Type := {
  getPageCount : File -> outcome nat;
  getPageAsDataUrl : File -> nat -> outcome string;
  getPageAsImage : File -> nat -> outcome string;
  API_KEY : option string;
  generateContent : option string -> GenRequest -> outcome GenResponse;
  JSON_parse : string -> option json
}.

(** ** State updates of App.tsx *)

Inductive Update : Type :=
| SetLoading                                  (* App.tsx:399 *)
| Allocate (count : nat)                      (* App.tsx:402-412 *)
| MarkProcessing (i : nat) (pagePreview : string)  (* App.tsx:417-425 *)
| MarkCompleted (i : nat) (text : string)     (* App.tsx:431-438 *)
| MarkFailed (i : nat)                        (* App.tsx:440-447 *)
| SetCompleted                                (* App.tsx:451 *)
| SetError                                    (* App.tsx:453-457 *)
| Reset.                                      (* App.tsx:364-369 *)

Definition initialState : State :=
  {| ProcessingState.status := ProcessingState.idle;
     ProcessingState.totalPages := 0;
     ProcessingState.currentPage := 0;
     ProcessingState.results := [];
     ProcessingState.errorMessage := None |}.

(** [Array.from({ length: count }, (_, i) => ({ pageNumber: i + 1, ... }))] *)
Definition skeleton (count : nat) : list Page :=
  map (fun i => {| PageExtraction.pageNumber := i + 1;
                   PageExtraction.content := "";
                   PageExtraction.status := PageExtraction.pending;
                   PageExtraction.imageUrl := None |})
      (seq 0 count).

(** [prev.results.map(r => r.pageNumber === i ? f r : r)] *)
Definition mapPage (i : nat) (f : Page -> Page) (rs : list Page) : list Page :=
  map (fun r => if PageExtraction.pageNumber r =? i then f r else r) rs.

Definition withResults (prev : State) (rs : list Page) : State :=
  {| ProcessingState.status := ProcessingState.status prev;
     ProcessingState.totalPages := ProcessingState.totalPages prev;
     ProcessingState.currentPage := ProcessingState.currentPage prev;
     ProcessingState.results := rs;
     ProcessingState.errorMessage := ProcessingState.errorMessage prev |}.

Definition failureText : string := "Failed to extract content.".
Definition fatalMessage : string :=
  "Failed to process file. Make sure it is a valid PDF.".

Definition applyUpdate (u : Update) (prev : State) : State :=
  match u with
  | SetLoading =>
      {| ProcessingState.status := ProcessingState.loading;
         ProcessingState.totalPages := ProcessingState.totalPages prev;
         ProcessingState.currentPage := ProcessingState.currentPage prev;
         ProcessingState.results := ProcessingState.results prev;
         ProcessingState.errorMessage := None |}
  | Allocate count =>
      {| ProcessingState.status := ProcessingState.processing;
         ProcessingState.totalPages := count;
         ProcessingState.currentPage := 1;
         ProcessingState.results := skeleton count;
         ProcessingState.errorMessage := ProcessingState.errorMessage prev |}
  | MarkProcessing i pagePreview =>
      {| ProcessingState.status := ProcessingState.status prev;
         ProcessingState.totalPages := ProcessingState.totalPages prev;
         ProcessingState.currentPage := i;
         ProcessingState.results :=
           mapPage i (fun r =>
             {| PageExtraction.pageNumber := PageExtraction.pageNumber r;
                PageExtraction.content := PageExtraction.content r;
                PageExtraction.status := PageExtraction.processing;
                PageExtraction.imageUrl := Some pagePreview |})
             (ProcessingState.results prev);
         ProcessingState.errorMessage := ProcessingState.errorMessage prev |}
  | MarkCompleted i text =>
      withResults prev
        (mapPage i (fun r =>
           {| PageExtraction.pageNumber := PageExtraction.pageNumber r;
              PageExtraction.content := text;
              PageExtraction.status := PageExtraction.completed;
              PageExtraction.imageUrl := PageExtraction.imageUrl r |})
           (ProcessingState.results prev))
  | MarkFailed i =>
      withResults prev
        (mapPage i (fun r =>
           {| PageExtraction.pageNumber := PageExtraction.pageNumber r;
              PageExtraction.content := failureText;
              PageExtraction.status := PageExtraction.error;
              PageExtraction.imageUrl := PageExtraction.imageUrl r |})
           (ProcessingState.results prev))
  | SetCompleted =>
      {| ProcessingState.status := ProcessingState.completed;
         ProcessingState.totalPages := ProcessingState.totalPages prev;
         ProcessingState.currentPage := ProcessingState.currentPage prev;
         ProcessingState.results := ProcessingState.results prev;
         ProcessingState.errorMessage := ProcessingState.errorMessage prev |}
  | SetError =>
      {| ProcessingState.status := ProcessingState.error;
         ProcessingState.totalPages := ProcessingState.totalPages prev;
         ProcessingState.currentPage := ProcessingState.currentPage prev;
         ProcessingState.results := ProcessingState.results prev;
         ProcessingState.errorMessage := Some fatalMessage |}
  | Reset => initialState
  end.

(** ** The monad of an async function body *)

Inductive Call : Type :=
| call_getPageCount (file : File)
| call_getPageAsDataUrl (file : File) (pageNumber : nat)
| call_getPageAsImage (file : File) (pageNumber : nat)
| call_generateContent (request : GenRequest).

Inductive Event : Type :=
| Await (c : Call)
| SetState (u : Update).

Definition M (A : Type) : Type := (list Event * outcome A)%type.

Definition ret {A : Type} (a : A) : M A := ([], Returned a).

Definition throw {A : Type} (e : exn) : M A := ([], Thrown e).

Definition bind {A B : Type} (m : M A) (k : A -> M B) : M B :=
  match snd m with
  | Returned a => (fst m ++ fst (k a), snd (k a))
  | Thrown e => (fst m, Thrown e)
  end.

Definition try_catch {A : Type} (m : M A) (handler : exn -> M A) : M A :=
  match snd m with
  | Returned a => m
  | Thrown e => (fst m ++ fst (handler e), snd (handler e))
  end.

Definition await {A : Type} (c : Call) (result : outcome A) : M A :=
  ([Await c], result).

Definition setState (u : Update) : M unit := ([SetState u], Returned tt).

Declare Scope async_scope.
Delimit Scope async_scope with async.
Notation "x <- m ;; k" := (bind m (fun x => k))
  (at level 61, m at next level, right associativity) : async_scope.
Notation "m ;; k" := (bind m (fun _ => k))
  (at level 61, right associativity) : async_scope.
Notation "'try' m 'catch' h" := (try_catch m h)
  (at level 62, m at level 61, h at level 61) : async_scope.
Local Open Scope async_scope.

(** [for (let i = from; ...; i++) body(i)], [n] iterations remaining. *)
Fixpoint forLoop (n : nat) (i : nat) (body : nat -> M unit) : M unit :=
  match n with
  | 0 => ret tt
  | S n' => body i ;; forLoop n' (S i) body
  end.

(** ** services/geminiService.ts *)

(** [s || fallback] on an optional string: [undefined] and [""] are falsy. *)
Definition orElse (s : option string) (fallback : string) : string :=
  match s with
  | Some (String c rest) => String c rest
  | _ => fallback
  end.

Definition extractionPrompt : string :=
  "Extract all text and meaningful data from this document page. Use Markdown for formatting tables or headers if present. Be thorough and accurate.".

Definition noContentText : string := "No content extracted.".

Definition extractionRequest (base64Image : string) : GenRequest :=
  let prompt := extractionPrompt in
  let imagePart := inlineData base64Image "image/jpeg" in
  {| model := "gemini-3-flash-preview";
     parts := [imagePart; text_part prompt];
     config := None |}.

Definition extractContentFromPage (env : Collaborators) (base64Image : string)
  : M string :=
  match API_KEY env with
  | Some (String c rest) =>
      let apiKey := String c rest in
      let request := extractionRequest base64Image in
      try (response <- await (call_generateContent request)
                             (generateContent env (Some apiKey) request) ;;
           ret (orElse (text response) noContentText))
      catch (fun error => throw error)
  | _ => throw (Error "API Key is missing")
  end.

(** ** App.tsx: processFile *)

(** Lines 427-448: the inner [try]/[catch] around extraction of page [i]. *)
Definition extractPage (env : Collaborators) (uploadedFile : File) (i : nat)
  : M unit :=
  try (base64 <- await (call_getPageAsImage uploadedFile i)
                       (getPageAsImage env uploadedFile i) ;;
       text <- extractContentFromPage env base64 ;;
       setState (MarkCompleted i text))
  catch (fun err => setState (MarkFailed i)).

(** Lines 415-448: one iteration of the loop. *)
Definition pageBody (env : Collaborators) (uploadedFile : File) (i : nat)
  : M unit :=
  pagePreview <- await (call_getPageAsDataUrl uploadedFile i)
                       (getPageAsDataUrl env uploadedFile i) ;;
  setState (MarkProcessing i pagePreview) ;;
  extractPage env uploadedFile i.

Definition processFile (env : Collaborators) (uploadedFile : File) : M unit :=
  try (setState SetLoading ;;
       count <- await (call_getPageCount uploadedFile)
                      (getPageCount env uploadedFile) ;;
       setState (Allocate count) ;;
       forLoop count 1 (pageBody env uploadedFile) ;;
       setState SetCompleted)
  catch (fun error => setState SetError).

(** [reset], as far as the [state] hook is concerned; the other setters of
    lines 358-363 write hooks that [processFile] never touches. *)
Definition reset : M unit := setState Reset.

(** ** App.tsx: combinedContent *)

Definition blankLine : string := String "010" (String "010" EmptyString).

Definition combinedContent (state : State) : string :=
  String.concat blankLine
    (map PageExtraction.content
         (filter PageExtraction.isCompleted (ProcessingState.results state))).

(** ** services/evaluatorService.tsx *)

Record Payload : Type := { base64 : string; mimeType : string }.

Definition evaluationPrompt : string := "
    You are an expert exam evaluator. I am providing two documents (images or PDFs):
    1. A Student's Answer Script.
    2. An Official Model Answer Key.

    Your task is to:
    1. PREPROCESS: Extract the text from both documents.
    2. ALIGN: Match the student's handwritten or typed answers to the corresponding questions in the model answer key.
    3. EVALUATE: Grade each of the student's answers based on the model key. Be fair and provide constructive feedback.

    Please provide the output as a JSON object following the specified schema.
    Ensure you capture the student's answer exactly as written (handle handwriting extraction carefully from images or documents).
  ".

Definition itemSchema : Schema :=
  OBJECT
    [("id", STRING); ("questionNumber", STRING); ("questionText", STRING);
     ("modelAnswer", STRING); ("studentAnswer", STRING); ("score", NUMBER);
     ("maxScore", NUMBER); ("feedback", STRING)]
    ["id"; "questionNumber"; "questionText"; "modelAnswer"; "studentAnswer";
     "score"; "maxScore"; "feedback"].

Definition reportSchema : Schema :=
  OBJECT
    [("items", ARRAY itemSchema); ("totalScore", NUMBER);
     ("maxPossibleScore", NUMBER); ("summary", STRING);
     ("improvementAreas", ARRAY STRING)]
    ["items"; "totalScore"; "maxPossibleScore"; "summary"; "improvementAreas"].

Definition evaluationRequest (studentScript answerKey : Payload) : GenRequest :=
  {| model := "gemini-3-pro-preview";
     parts := [text_part evaluationPrompt;
               inlineData (base64 studentScript) (mimeType studentScript);
               inlineData (base64 answerKey) (mimeType answerKey)];
     config := Some {| responseMimeType := "application/json";
                       responseSchema := reportSchema |} |}.

Definition parseFailureMessage : string :=
  "Failed to process evaluation report.".

(** [new GoogleGenAI({ apiKey })]: the constructor of the SDK refuses a key
    that is undefined and otherwise yields a client holding the key.  In
    [extractContentFromPage] it is only reached with a non-empty key. *)
Definition newGoogleGenAI (apiKey : option string) : outcome (option string) :=
  match apiKey with
  | None => Thrown (Error "An API Key must be set when running in a browser")
  | Some key => Returned (Some key)
  end.

(** The client is built on line 9, before the request and outside the
    [try]; the [await] of line 25 is outside the [try] as well; [JSON.parse]
    is inside it, and [result as EvaluationReport] is a compile-time cast. *)
Definition processAndEvaluate (env : Collaborators)
    (studentScript answerKey : Payload) : M json :=
  ai <- ([], newGoogleGenAI (API_KEY env)) ;;
  let request := evaluationRequest studentScript answerKey in
  response <- await (call_generateContent request)
                    (generateContent env ai request) ;;
  (try (match JSON_parse env (orElse (text response) "{}") with
        | Some result => ret result
        | None => throw (Error "SyntaxError")
        end)
   catch (fun error => throw (Error parseFailureMessage))).








(** ** Observing a run *)

(** The [setState] calls of a trace, in order. *)
Fixpoint updatesOf (tr : list Event) : list Update :=
  match tr with
  | [] => []
  | Await _ :: tr' => updatesOf tr'
  | SetState u :: tr' => u :: updatesOf tr'
  end.

(** React applies queued updaters in call order. *)
Definition run (us : list Update) (s : State) : State :=
  fold_left (fun s u => applyUpdate u s) us s.

(** Every state an observer can see: the start state, then the state after
    each update. *)
Fixpoint snapshots (us : list Update) (s : State) : list State :=
  s :: match us with
       | [] => []
       | u :: us' => snapshots us' (applyUpdate u s)
       end.

Definition trace {A : Type} (m : M A) : list Event := fst m.

Definition updates {A : Type} (m : M A) : list Update := updatesOf (fst m).

(** The record an observer finds for page number [n]. *)
Definition pageAt (s : State) (n : nat) : option Page :=
  find (fun r => PageExtraction.pageNumber r =? n) (ProcessingState.results s).

(** [reset()] runs while [processFile] is suspended after its first [k]
    events; the rest of the run resolves afterwards. *)
Definition resetDuring (k : nat) (tr : list Event) : list Event :=
  firstn k tr ++ fst reset ++ skipn k tr.

(** The page an event is about, if any. *)
Definition eventPage (e : Event) : option nat :=
  match e with
  | Await (call_getPageAsDataUrl _ i) => Some i
  | Await (call_getPageAsImage _ i) => Some i
  | SetState (MarkProcessing i _) => Some i
  | SetState (MarkCompleted i _) => Some i
  | SetState (MarkFailed i) => Some i
  | _ => None
  end.

(** What the specification's transcript takes from page number [n]. *)
Definition completedText (o : option Page) : list string :=
  match o with
  | Some r => if PageExtraction.isCompleted r
              then [PageExtraction.content r] else []
  | None => []
  end.

(** The combined transcript in the words of the specification: going through
    the page numbers in increasing order, the content of each page whose
    status is completed, joined by a blank line. *)
Definition transcriptSpec (s : State) : string :=
  String.concat blankLine
    (flat_map (fun n => completedText (pageAt s n))
              (seq 1 (ProcessingState.totalPages s))).

(** ** Derived notions used by the statements *)

(** What the inner [try]/[catch] of page [i] ends up writing. *)
Definition pageResult (env : Collaborators) (uploadedFile : File) (i : nat)
  : Update :=
  match getPageAsImage env uploadedFile i with
  | Thrown _ => MarkFailed i
  | Returned base64 =>
      match snd (extractContentFromPage env base64) with
      | Returned text => MarkCompleted i text
      | Thrown _ => MarkFailed i
      end
  end.

(** The record [Allocate] creates for page [j]. *)
Definition pendingPage (j : nat) : Page :=
  {| PageExtraction.pageNumber := j;
     PageExtraction.content := "";
     PageExtraction.status := PageExtraction.pending;
     PageExtraction.imageUrl := None |}.

Definition previewUrl (env : Collaborators) (uploadedFile : File) (j : nat)
  : option string :=
  match getPageAsDataUrl env uploadedFile j with
  | Returned url => Some url
  | Thrown _ => None
  end.

(** The record of page [j] once its iteration is over. *)
Definition finishedPage (env : Collaborators) (uploadedFile : File) (j : nat)
  : Page :=
  match pageResult env uploadedFile j with
  | MarkCompleted _ text =>
      {| PageExtraction.pageNumber := j;
         PageExtraction.content := text;
         PageExtraction.status := PageExtraction.completed;
         PageExtraction.imageUrl := previewUrl env uploadedFile j |}
  | _ =>
      {| PageExtraction.pageNumber := j;
         PageExtraction.content := failureText;
         PageExtraction.status := PageExtraction.error;
         PageExtraction.imageUrl := previewUrl env uploadedFile j |}
  end.

(** The updates a run issues once its pages are allocated. *)
Definition afterAllocation (u : Update) : bool :=
  match u with
  | MarkProcessing _ _ | MarkCompleted _ _ | MarkFailed _
  | SetCompleted | SetError => true
  | SetLoading | Allocate _ | Reset => false
  end.

Definition lateEvent (e : Event) : bool :=
  match e with
  | Await _ => true
  | SetState u => afterAllocation u
  end.

(** Every step of a run relates the state before to the state after. *)
Fixpoint chain (R : State -> State -> Prop) (s : State) (us : list Update)
  : Prop :=
  match us with
  | [] => True
  | u :: us' => R s (applyUpdate u s) /\ chain R (applyUpdate u s) us'
  end.

(** The moves the page record of one page number may make between two
    consecutive published states. *)
Inductive pageStep : option Page -> option Page -> Prop :=
| step_same (o : option Page) : pageStep o o
| step_allocate (r : Page) :
    PageExtraction.status r = PageExtraction.pending ->
    PageExtraction.content r = "" ->
    pageStep None (Some r)
| step_start (r r' : Page) :
    PageExtraction.status r = PageExtraction.pending ->
    PageExtraction.status r' = PageExtraction.processing ->
    pageStep (Some r) (Some r')
| step_finish (r r' : Page) :
    PageExtraction.status r = PageExtraction.processing ->
    PageExtraction.isTerminal r' = true ->
    pageStep (Some r) (Some r').

(** [needle] occurs in [s]. *)
Definition occursIn (needle s : string) : Prop :=
  exists before after : string,
    s = String.append before (String.append needle after).

(** A suspension of the iteration of page [i]. *)
Definition awaitOn (i : nat) (e : Event) : Prop :=
  match e with
  | Await (call_getPageAsDataUrl _ j) => j = i
  | Await (call_getPageAsImage _ j) => j = i
  | Await _ => True
  | SetState _ => False
  end.

(** The traces of the loop of [processFile], [n] iterations from page [i]:
    the loop is over, or the preview of page [i] is rejected and the loop is
    left, or page [i] is shown, extracted and recorded and the loop goes
    on. *)
Inductive loopTrace (env : Collaborators) (uploadedFile : File)
  : nat -> nat -> list Event -> outcome unit -> Prop :=
| loop_done (i : nat) : loopTrace env uploadedFile 0 i [] (Returned tt)
| loop_abort (n i : nat) (e : exn) :
    getPageAsDataUrl env uploadedFile i = Thrown e ->
    loopTrace env uploadedFile (S n) i
      [Await (call_getPageAsDataUrl uploadedFile i)] (Thrown e)
| loop_page (n i : nat) (url : string) (aw tr : list Event)
    (o : outcome unit) :
    getPageAsDataUrl env uploadedFile i = Returned url ->
    Forall (awaitOn i) aw ->
    loopTrace env uploadedFile n (S i) tr o ->
    loopTrace env uploadedFile (S n) i
      (Await (call_getPageAsDataUrl uploadedFile i)
         :: SetState (MarkProcessing i url)
         :: aw ++ SetState (pageResult env uploadedFile i) :: tr) o.

(** The last update of a run whose page count is known. *)
Definition lastUpdate (o : outcome unit) : Update :=
  match o with
  | Returned _ => SetCompleted
  | Thrown _ => SetError
  end.

(** What an observer finds under page number [j] when a document of [count]
    pages is about to enter the iteration of page [i]. *)
Definition expectedPage (env : Collaborators) (uploadedFile : File)
    (count i j : nat) : option Page :=
  if (1 <=? j) && (j <=? count)
  then Some (if j <? i then finishedPage env uploadedFile j
             else pendingPage j)
  else None.

Definition loopInvariant (env : Collaborators) (uploadedFile : File)
    (count i : nat) (s : State) : Prop :=
  (forall j, pageAt s j = expectedPage env uploadedFile count i j)
  /\ ProcessingState.currentPage s <= i.

(** One published step: every page record moves legally and the current page
    does not go back. *)
Definition stepOK (s s' : State) : Prop :=
  (forall j, pageStep (pageAt s j) (pageAt s' j))
  /\ ProcessingState.currentPage s <= ProcessingState.currentPage s'.

(** The page list holds the pages 1..totalPages, in this order. *)
Definition numbered (s : State) : Prop :=
  map PageExtraction.pageNumber (ProcessingState.results s)
    = seq 1 (ProcessingState.totalPages s).

(** ** Sample documents and backends *)

Module Samples.

Definition digit (i : nat) : string :=
  String (ascii_of_nat (48 + i)) EmptyString.

Definition imageOf (i : nat) : string := String.append "jpeg-" (digit i).
Definition previewOf (i : nat) : string :=
  String.append "data:image/jpeg;base64," (digit i).
Definition textOf (data : string) : string :=
  String.append "text of " data.

Definition requestData (r : GenRequest) : string :=
  match parts r with
  | inlineData data _ :: _ => data
  | _ => ""
  end.

Definition sampleReport : json :=
  JObject
    [("items",
      JArray [JObject [("id", JString "q1"); ("questionNumber", JString "1(a)");
                       ("questionText", JString "Define a monad.");
                       ("modelAnswer", JString "A monoid of endofunctors.");
                       ("studentAnswer", JString "A burrito.");
                       ("score", JNumber (1 # 1)); ("maxScore", JNumber (5 # 1));
                       ("feedback", JString "Revise the definition.")]]);
     ("totalScore", JNumber (1 # 1)); ("maxPossibleScore", JNumber (5 # 1));
     ("summary", JString "Needs work.");
     ("improvementAreas", JArray [JString "Definitions"])].

(** [JSON.parse] on the three texts the examples feed it. *)
Definition parseSample (s : string) : option json :=
  if String.eqb s "{}" then Some (JObject [])
  else if String.eqb s "<report>" then Some sampleReport
  else if String.eqb s "42" then Some (JNumber (42 # 1))
  else None.

(** A document of [count] pages whose preview rendering fails on the pages
    in [badPreview], whose extraction-quality rendering fails on the pages
    in [badImage], and whose backend answers [answer]. *)
Definition document (count : outcome nat) (badPreview badImage : list nat)
    (answer : GenRequest -> outcome GenResponse) : Collaborators :=
  {| getPageCount := fun _ => count;
     getPageAsDataUrl := fun _ i =>
       if existsb (Nat.eqb i) badPreview
       then Thrown (Error "Could not create canvas context")
       else Returned (previewOf i);
     getPageAsImage := fun _ i =>
       if existsb (Nat.eqb i) badImage
       then Thrown (Error "Could not create canvas context")
       else Returned (imageOf i);
     API_KEY := Some "key";
     generateContent := fun _ r => answer r;
     JSON_parse := parseSample |}.

Definition answerAll (r : GenRequest) : outcome GenResponse :=
  Returned {| text := Some (textOf (requestData r)) |}.

(** The backend rejects the image of page 2. *)
Definition answerButSecond (r : GenRequest) : outcome GenResponse :=
  if String.eqb (requestData r) (imageOf 2)
  then Thrown (Rejection "503")
  else answerAll r.



Definition answerRejected (r : GenRequest) : outcome GenResponse :=
  Thrown (Rejection "503").

Definition answerReport (r : GenRequest) : outcome GenResponse :=
  Returned {| text := Some "<report>" |}.

Definition allGood := document (Returned 3) [] [] answerAll.
Definition secondExtractionFails := document (Returned 3) [] [] answerButSecond.
Definition firstImageFails := document (Returned 2) [] [1] answerAll.
Definition secondPreviewFails := document (Returned 3) [2] [] answerAll.
Definition unreadable :=
  document (Thrown (Rejection "InvalidPDFException")) [] [] answerAll.
Definition onePage := document (Returned 1) [] [] answerAll.
Definition gradingDown := document (Returned 1) [] [] answerRejected.
Definition grading := document (Returned 1) [] [] answerReport.

Definition student : Payload :=
  {| base64 := "c3R1ZGVudA=="; mimeType := "application/pdf" |}.
Definition key : Payload :=
  {| base64 := "a2V5"; mimeType := "application/pdf" |}.

End Samples.

(** ** Strings of the browser *)

(** [s.split(sep)] for a one-character separator. *)
Fixpoint splitOn (sep : ascii) (s : string) : list string :=
  match s with
  | EmptyString => [EmptyString]
  | String c rest =>
      if Ascii.eqb c sep then EmptyString :: splitOn sep rest
      else match splitOn sep rest with
           | piece :: pieces => String c piece :: pieces
           | [] => [String c EmptyString]
           end
  end.

(** A [data:] URL as [FileReader.readAsDataURL] and [canvas.toDataURL] build
    it: what stands before the separating comma, and the data after it. *)
Record DataUrl : Type := { header : string; payload : string }.

Definition dataUrlString (d : DataUrl) : string :=
  String.append (header d) (String "," (payload d)).

(** [url.split(',')[1]]; a [data:] URL always has a second piece. *)
Definition secondPiece (url : string) : string :=
  match splitOn "," url with
  | _ :: second :: _ => second
  | _ => EmptyString
  end.

Fixpoint hasComma (s : string) : bool :=
  match s with
  | EmptyString => false
  | String c rest => Ascii.eqb c "," || hasComma rest
  end.

(** ** services/pdfProcessor.ts *)

Record Viewport : Type := { width : Q; height : Q }.

Record PDFPageProxy : Type := {
  getViewport : Q -> Viewport;
  (** [page.render({ canvasContext, viewport }).promise], yielding what is
      drawn on the canvas. *)
  render : Viewport -> outcome string
}.

Record PDFDocumentProxy : Type := {
  numPages : nat;
  getPage : nat -> outcome PDFPageProxy
}.

Record Canvas : Type := {
  canvasHeight : Q;
  canvasWidth : Q;
  drawing : string
}.

(** The browser under pdfProcessor.ts and [toBase64]: [file.arrayBuffer()],
    [pdfjs.getDocument], whether [canvas.getContext('2d')] yields a context,
    [canvas.toDataURL(type, quality)], [file.type] and
    [FileReader.readAsDataURL] ([None]: [onerror] fires). *)
Record Browser : Type := {
  arrayBuffer : File -> outcome string;
  getDocument : string -> outcome PDFDocumentProxy;
  hasContext2d : bool;
  toDataURL : Canvas -> string -> Q -> DataUrl;
  fileType : File -> string;
  readAsDataURL : File -> option DataUrl
}.

Definition andThen {A B : Type} (o : outcome A) (k : A -> outcome B)
  : outcome B :=
  match o with
  | Returned a => k a
  | Thrown e => Thrown e
  end.

Definition canvasErrorMessage : string := "Could not create canvas context".

Definition pdf_getPageCount (b : Browser) (file : File) : outcome nat :=
  andThen (arrayBuffer b file) (fun buffer =>
  andThen (getDocument b buffer) (fun pdf =>
  Returned (numPages pdf))).

(** The common body of [getPageAsImage] and [getPageAsDataUrl]: render page
    [pageNumber] at [scale] and encode the canvas as JPEG at [quality]. *)
Definition renderPage (b : Browser) (file : File) (pageNumber : nat)
    (scale quality : Q) : outcome string :=
  andThen (arrayBuffer b file) (fun buffer =>
  andThen (getDocument b buffer) (fun pdf =>
  andThen (getPage pdf pageNumber) (fun page =>
  let viewport := getViewport page scale in
  if negb (hasContext2d b) then Thrown (Error canvasErrorMessage)
  else
    andThen (render page viewport) (fun drawn =>
    let canvas := {| canvasHeight := height viewport;
                     canvasWidth := width viewport;
                     drawing := drawn |} in
    Returned (dataUrlString (toDataURL b canvas "image/jpeg" quality)))))).

Definition pdf_getPageAsImage (b : Browser) (file : File) (pageNumber : nat)
  : outcome string :=
  andThen (renderPage b file pageNumber (15 # 10) (8 # 10)) (fun url =>
  Returned (secondPiece url)).

Definition pdf_getPageAsDataUrl (b : Browser) (file : File) (pageNumber : nat)
  : outcome string :=
  renderPage b file pageNumber (1 # 1) (6 # 10).

(** The collaborators of the page loop, with pdfProcessor.ts on a browser. *)
Definition onBrowser (b : Browser) (services : Collaborators) : Collaborators :=
  {| getPageCount := pdf_getPageCount b;
     getPageAsDataUrl := pdf_getPageAsDataUrl b;
     getPageAsImage := pdf_getPageAsImage b;
     API_KEY := API_KEY services;
     generateContent := generateContent services;
     JSON_parse := JSON_parse services |}.

(** ** App.tsx: the hooks of the component and the evaluation trigger *)

Module App.

Record Hooks : Type := {
  state : State;
  file : option File;
  copied : bool;
  answerKeyFile : option File;
  report : option json;
  evalLoading : bool;
  evalError : option string
}.

End App.

Inductive HookUpdate : Type :=
| setFile (f : option File)
| setAnswerKeyFile (f : option File)
| setReport (r : option json)
| setCopied (b : bool)
| setEvalError (e : option string)
| setEvalLoading (b : bool)
| setPipeline (u : Update).

Definition applyHook (u : HookUpdate) (a : App.Hooks) : App.Hooks :=
  match u with
  | setFile f =>
      {| App.state := App.state a; App.file := f; App.copied := App.copied a;
         App.answerKeyFile := App.answerKeyFile a; App.report := App.report a;
         App.evalLoading := App.evalLoading a;
         App.evalError := App.evalError a |}
  | setAnswerKeyFile f =>
      {| App.state := App.state a; App.file := App.file a;
         App.copied := App.copied a; App.answerKeyFile := f;
         App.report := App.report a; App.evalLoading := App.evalLoading a;
         App.evalError := App.evalError a |}
  | setReport r =>
      {| App.state := App.state a; App.file := App.file a;
         App.copied := App.copied a;
         App.answerKeyFile := App.answerKeyFile a; App.report := r;
         App.evalLoading := App.evalLoading a;
         App.evalError := App.evalError a |}
  | setCopied c =>
      {| App.state := App.state a; App.file := App.file a; App.copied := c;
         App.answerKeyFile := App.answerKeyFile a; App.report := App.report a;
         App.evalLoading := App.evalLoading a;
         App.evalError := App.evalError a |}
  | setEvalError e =>
      {| App.state := App.state a; App.file := App.file a;
         App.copied := App.copied a;
         App.answerKeyFile := App.answerKeyFile a; App.report := App.report a;
         App.evalLoading := App.evalLoading a; App.evalError := e |}
  | setEvalLoading l =>
      {| App.state := App.state a; App.file := App.file a;
         App.copied := App.copied a;
         App.answerKeyFile := App.answerKeyFile a; App.report := App.report a;
         App.evalLoading := l; App.evalError := App.evalError a |}
  | setPipeline u =>
      {| App.state := applyUpdate u (App.state a); App.file := App.file a;
         App.copied := App.copied a;
         App.answerKeyFile := App.answerKeyFile a; App.report := App.report a;
         App.evalLoading := App.evalLoading a;
         App.evalError := App.evalError a |}
  end.

(** The [useState] initial values of lines 342-353. *)
Definition initialHooks : App.Hooks :=
  {| App.state := initialState; App.file := None; App.copied := false;
     App.answerKeyFile := None; App.report := None;
     App.evalLoading := false; App.evalError := None |}.

(** What the handlers of the component log: a file read, a suspension of a
    service call, a hook setter. *)
Inductive AppEvent : Type :=
| AwaitRead (f : File)
| AwaitCall (c : Call)
| Hook (u : HookUpdate).

Definition Handler (A : Type) : Type := (list AppEvent * outcome A)%type.

Definition hret {A : Type} (a : A) : Handler A := ([], Returned a).

Definition hbind {A B : Type} (m : Handler A) (k : A -> Handler B)
  : Handler B :=
  match snd m with
  | Returned a => (fst m ++ fst (k a), snd (k a))
  | Thrown e => (fst m, Thrown e)
  end.

Definition hcatch {A : Type} (m : Handler A) (handler : exn -> Handler A)
  : Handler A :=
  match snd m with
  | Returned a => m
  | Thrown e => (fst m ++ fst (handler e), snd (handler e))
  end.

(** [try { m } finally { f }]: [f] runs either way; its own failure wins. *)
Definition hfinally {A : Type} (m : Handler A) (f : Handler unit)
  : Handler A :=
  (fst m ++ fst f,
   match snd f with
   | Returned _ => snd m
   | Thrown e => Thrown e
   end).

Definition hook (u : HookUpdate) : Handler unit := ([Hook u], Returned tt).

Definition liftEvent (e : Event) : AppEvent :=
  match e with
  | Await c => AwaitCall c
  | SetState u => Hook (setPipeline u)
  end.

(** A service or pipeline computation run from a handler. *)
Definition lift {A : Type} (m : M A) : Handler A :=
  (map liftEvent (fst m), snd m).

(** [toBase64]: the reader is started at once; [onload] resolves with the
    part of the result after the comma, [onerror] rejects with the event,
    which carries no message. *)
Definition toBase64 (b : Browser) (f : File) : Handler string :=
  ([AwaitRead f],
   match readAsDataURL b f with
   | Some result => Returned (secondPiece (dataUrlString result))
   | None => Thrown (Rejection "ProgressEvent")
   end).

(** [await Promise.all([p, q])] of two promises already started. *)
Definition promiseAll2 {A B : Type} (p : Handler A) (q : Handler B)
  : Handler (A * B) :=
  (fst p ++ fst q,
   match snd p, snd q with
   | Returned a, Returned b => Returned (a, b)
   | Thrown e, _ => Thrown e
   | _, Thrown e => Thrown e
   end).

(** [e?.message]. *)
Definition messageOf (e : exn) : option string :=
  match e with
  | Error message => Some message
  | Rejection _ => None
  end.

Definition evaluationFailedMessage : string :=
  "Evaluation failed. Please check your files and try again.".

Definition payloadOf (b : Browser) (f : File) (data : string) : Payload :=
  {| base64 := data;
     mimeType := orElse (Some (fileType b f)) "application/pdf" |}.

Local Open Scope async_scope.
Notation "x <-- m ;;; k" := (hbind m (fun x => k))
  (at level 61, m at next level, right associativity) : async_scope.
Notation "m ;;; k" := (hbind m (fun _ => k))
  (at level 61, right associativity) : async_scope.

(** Lines 372-395; [hooks] is the render the handler closes over. *)
Definition handleEvaluate (env : Collaborators) (b : Browser)
    (hooks : App.Hooks) : Handler unit :=
  match App.file hooks, App.answerKeyFile hooks with
  | Some file, Some answerKeyFile =>
      hfinally
        (hcatch
           (hook (setEvalLoading true) ;;;
            hook (setEvalError None) ;;;
            both <-- promiseAll2 (toBase64 b file)
                                 (toBase64 b answerKeyFile) ;;;
            evaluation <-- lift (processAndEvaluate env
                                   (payloadOf b file (fst both))
                                   (payloadOf b answerKeyFile (snd both))) ;;;
            hook (setReport (Some evaluation)))
           (fun e =>
              hook (setEvalError
                      (Some (orElse (messageOf e) evaluationFailedMessage)))))
        (hook (setEvalLoading false))
  | _, _ => hret tt
  end.

(** Lines 357-370, every setter of [reset] in order. *)
Definition resetApp : Handler unit :=
  hook (setFile None) ;;;
  hook (setAnswerKeyFile None) ;;;
  hook (setReport None) ;;;
  hook (setCopied false) ;;;
  hook (setEvalError None) ;;;
  hook (setEvalLoading false) ;;;
  lift reset.

(** Lines 461-467, for [e.target.files?.[0]] being [selected]. *)
Definition onFileChange (env : Collaborators) (selected : option File)
  : Handler unit :=
  match selected with
  | Some f => hook (setFile (Some f)) ;;; lift (processFile env f)
  | None => hret tt
  end.

Fixpoint hooksOf (tr : list AppEvent) : list HookUpdate :=
  match tr with
  | [] => []
  | Hook u :: tr' => u :: hooksOf tr'
  | _ :: tr' => hooksOf tr'
  end.

Definition runHooks (us : list HookUpdate) (a : App.Hooks) : App.Hooks :=
  fold_left (fun a u => applyHook u a) us a.

(** The hooks once every update of the handler is applied. *)
Definition after {A : Type} (h : Handler A) (a : App.Hooks) : App.Hooks :=
  runHooks (hooksOf (fst h)) a.

(** What the evaluation of two files comes to: both reads, then the
    service. *)
Definition evaluationOf (env : Collaborators) (b : Browser)
    (file answerKeyFile : File) : outcome json :=
  match snd (toBase64 b file), snd (toBase64 b answerKeyFile) with
  | Returned student, Returned key =>
      snd (processAndEvaluate env (payloadOf b file student)
                              (payloadOf b answerKeyFile key))
  | Thrown e, _ => Thrown e
  | _, Thrown e => Thrown e
  end.

(** [combinedContent || "No text was extracted."], line 684. *)
Definition shownTranscript (s : State) : string :=
  orElse (Some (combinedContent s)) "No text was extracted.".

(** The text a run extracts from page [j], if its extraction succeeds. *)
Definition extractedText (env : Collaborators) (uploadedFile : File) (j : nat)
  : list string :=
  match pageResult env uploadedFile j with
  | MarkCompleted _ t => [t]
  | _ => []
  end.

(** The page numbers of the events of a trace, in trace order. *)
Fixpoint pagesOf (tr : list Event) : list nat :=
  match tr with
  | [] => []
  | e :: tr' => match eventPage e with
                | Some j => j :: pagesOf tr'
                | None => pagesOf tr'
                end
  end.

Definition isBackendCall (e : Event) : bool :=
  match e with
  | Await (call_generateContent _) => true
  | _ => false
  end.

(** The pages whose preview rendering, respectively extraction-quality
    rendering, a trace requests, in trace order. *)
Definition previewRequest (e : Event) : list nat :=
  match e with
  | Await (call_getPageAsDataUrl _ j) => [j]
  | _ => []
  end.

Definition imageRequest (e : Event) : list nat :=
  match e with
  | Await (call_getPageAsImage _ j) => [j]
  | _ => []
  end.

(** The hook an evaluation outcome is stored in. *)
Definition verdict (o : outcome json) : HookUpdate :=
  match o with
  | Returned evaluation => setReport (Some evaluation)
  | Thrown e =>
      setEvalError (Some (orElse (messageOf e) evaluationFailedMessage))
  end.

(** The service call of an evaluation: made once both files are read, if
    the client can be built. *)
Definition evaluationCalls (env : Collaborators) (b : Browser)
    (file answerKeyFile : File) : list AppEvent :=
  match snd (toBase64 b file), snd (toBase64 b answerKeyFile) with
  | Returned student, Returned key =>
      map liftEvent
          (fst (processAndEvaluate env (payloadOf b file student)
                                   (payloadOf b answerKeyFile key)))
  | _, _ => []
  end.

(** [reset()] runs while a handler is suspended after its first [k]
    events. *)
Definition resetAppDuring (k : nat) (tr : list AppEvent) : list AppEvent :=
  firstn k tr ++ fst resetApp ++ skipn k tr.

(** What an observer may find under a page number: a pending record has
    no preview and no content yet, any other record has its preview. *)
Definition wellShown (s : State) : Prop :=
  forall j r,
    pageAt s j = Some r ->
    (PageExtraction.status r = PageExtraction.pending ->
     PageExtraction.imageUrl r = None /\ PageExtraction.content r = "")
    /\ (PageExtraction.status r <> PageExtraction.pending ->
        PageExtraction.imageUrl r <> None).

(** Whether an update is the allocation of a run's pages. *)
Definition allocates (u : Update) : bool :=
  match u with
  | Allocate _ => true
  | _ => false
  end.

(** Everything a run logs for page [j] when its preview is rendered: the
    preview request, the processing update and the extraction of lines
    427-448. *)
Definition pageSegment (env : Collaborators) (uploadedFile : File) (j : nat)
  : list Event :=
  match getPageAsDataUrl env uploadedFile j with
  | Returned url =>
      Await (call_getPageAsDataUrl uploadedFile j)
        :: SetState (MarkProcessing j url)
        :: fst (extractPage env uploadedFile j)
  | Thrown _ => []
  end.

(** ** More sample collaborators *)

Module Fixtures.

(** The three-page document of [Samples.allGood], with an empty API key. *)
Definition keyless : Collaborators :=
  {| getPageCount := getPageCount Samples.allGood;
     getPageAsDataUrl := getPageAsDataUrl Samples.allGood;
     getPageAsImage := getPageAsImage Samples.allGood;
     API_KEY := Some "";
     generateContent := generateContent Samples.allGood;
     JSON_parse := JSON_parse Samples.allGood |}.


Definition letterPage : PDFPageProxy :=
  {| getViewport := fun scale =>
       {| width := (612 # 1) * scale; height := (792 # 1) * scale |};
     render := fun _ => Returned "ink" |}.

Definition twoPages : PDFDocumentProxy :=
  {| numPages := 2;
     getPage := fun i =>
       if (1 <=? i) && (i <=? 2) then Returned letterPage
       else Thrown (Error "Invalid page request") |}.

(** A browser on which files whose name is in [unreadable] cannot be read
    by a [FileReader]. *)
Definition browser (context : bool) (unreadable : list File) : Browser :=
  {| arrayBuffer := fun f => Returned (String.append "bytes of " f);
     getDocument := fun _ => Returned twoPages;
     hasContext2d := context;
     toDataURL := fun _ type _ =>
       {| header := String.append "data:" (String.append type ";base64");
          payload := "/9j/4AAQ" |};
     fileType := fun f => if String.eqb f "key.png" then "image/png" else "";
     readAsDataURL := fun f =>
       if existsb (String.eqb f) unreadable then None
       else Some {| header := "data:application/pdf;base64";
                    payload := "JVBERi0x" |} |}.

Definition bothChosen (previous : option json) : App.Hooks :=
  {| App.state := applyUpdate SetCompleted initialState;
     App.file := Some "script.pdf"; App.copied := false;
     App.answerKeyFile := Some "key.png"; App.report := previous;
     App.evalLoading := false; App.evalError := None |}.

End Fixtures.

(** * Properties *)

(** ** The scenarios of the specification, run on the model *)

(** Scenario A: three pages, every extraction succeeds. *)
Example scenario_all_pages_extracted :
  let final := run (updates (processFile Samples.allGood "scan.pdf"))
                   initialState in
  ProcessingState.status final = ProcessingState.completed
  /\ map PageExtraction.status (ProcessingState.results final)
     = [PageExtraction.completed; PageExtraction.completed;
        PageExtraction.completed]
  /\ combinedContent final
     = String.concat blankLine
         ["text of jpeg-1"; "text of jpeg-2"; "text of jpeg-3"].
Proof. repeat split. Qed.

(** Scenario B: the extraction of page 2 fails. *)
Example scenario_second_page_fails :
  let final := run (updates (processFile Samples.secondExtractionFails
                                         "scan.pdf")) initialState in
  ProcessingState.status final = ProcessingState.completed
  /\ map PageExtraction.status (ProcessingState.results final)
     = [PageExtraction.completed; PageExtraction.error;
        PageExtraction.completed]
  /\ combinedContent final
     = String.concat blankLine ["text of jpeg-1"; "text of jpeg-3"].
Proof. repeat split. Qed.

(** Every extraction fails: the run still ends completed, and the combined
    transcript is empty. *)
Example scenario_every_page_fails :
  let final := run (updates (processFile
                               (Samples.document (Returned 3) [] []
                                                 Samples.answerRejected)
                               "scan.pdf")) initialState in
  ProcessingState.status final = ProcessingState.completed
  /\ map PageExtraction.status (ProcessingState.results final)
     = [PageExtraction.error; PageExtraction.error; PageExtraction.error]
  /\ map PageExtraction.content (ProcessingState.results final)
     = [failureText; failureText; failureText]
  /\ combinedContent final = "".
Proof. repeat split. Qed.

(** Scenario C: the page count cannot be determined. *)
Example scenario_unreadable :
  snapshots (updates (processFile Samples.unreadable "scan.pdf")) initialState
  = [initialState;
     applyUpdate SetLoading initialState;
     applyUpdate SetError (applyUpdate SetLoading initialState)].
Proof. reflexivity. Qed.

(** [||] on the response text. *)
Example orElse_cases :
  orElse None noContentText = "No content extracted."
  /\ orElse (Some "") noContentText = "No content extracted."
  /\ orElse (Some " ") noContentText = " ".
Proof. repeat split. Qed.

(** Boolean comparisons in the context become arithmetic facts. *)
Ltac reflect_comparisons :=
  repeat match goal with
         | H : (_ <=? _) = true |- _ => apply Nat.leb_le in H
         | H : (_ <=? _) = false |- _ => apply Nat.leb_gt in H
         | H : (_ <? _) = true |- _ => apply Nat.ltb_lt in H
         | H : (_ <? _) = false |- _ => apply Nat.ltb_ge in H
         | H : (_ =? _) = true |- _ => apply Nat.eqb_eq in H
         | H : (_ =? _) = false |- _ => apply Nat.eqb_neq in H
         end.

(** ** The monad *)

Lemma updatesOf_app (a b : list Event) :
  updatesOf (a ++ b) = updatesOf a ++ updatesOf b.
Proof.
  induction a as [|[c|u] a IH]; simpl; auto.
  now rewrite IH.
Qed.

Lemma bind_assoc {A B C : Type} (m : M A) (k : A -> M B) (h : B -> M C) :
  bind (bind m k) h = bind m (fun x => bind (k x) h).
Proof.
  unfold bind. destruct m as [tr [a|e]]; simpl; auto.
  destruct (k a) as [tr' [b|e]]; simpl; auto.
  now rewrite app_assoc.
Qed.

Lemma bind_returned {A B : Type} (m : M A) (k : A -> M B) (a : A) :
  snd m = Returned a ->
  bind m k = (fst m ++ fst (k a), snd (k a)).
Proof. unfold bind. now intros ->. Qed.

Lemma bind_thrown {A B : Type} (m : M A) (k : A -> M B) (e : exn) :
  snd m = Thrown e -> bind m k = (fst m, Thrown e).
Proof. unfold bind. now intros ->. Qed.

Lemma run_app (a b : list Update) (s : State) :
  run (a ++ b) s = run b (run a s).
Proof. unfold run. apply fold_left_app. Qed.

Lemma chain_app (R : State -> State -> Prop) (a b : list Update) (s : State) :
  chain R s (a ++ b) <-> chain R s a /\ chain R (run a s) b.
Proof.
  revert s. induction a as [|u a IH]; intros s; simpl.
  - tauto.
  - rewrite IH. unfold run at 2. simpl. fold (run a (applyUpdate u s)). tauto.
Qed.

Lemma chain_impl (R R' : State -> State -> Prop) (us : list Update) :
  (forall a b, R a b -> R' a b) ->
  forall s, chain R s us -> chain R' s us.
Proof.
  intros HR. induction us as [|u us IH]; simpl; auto.
  intros s [H1 H2]. split; auto.
Qed.

Lemma snapshots_length (us : list Update) (s : State) :
  length (snapshots us s) = S (length us).
Proof.
  revert s. induction us as [|u us IH]; intros s; simpl; auto.
Qed.

Lemma snapshots_nth (us : list Update) (s : State) (k : nat) :
  k <= length us ->
  nth_error (snapshots us s) k = Some (run (firstn k us) s).
Proof.
  revert s k. induction us as [|u us IH]; intros s [|k] Hk; simpl in *;
    try reflexivity; try lia.
  rewrite IH by lia. reflexivity.
Qed.

Lemma snapshots_nth_inv (us : list Update) (s a : State) (k : nat) :
  nth_error (snapshots us s) k = Some a ->
  k <= length us /\ a = run (firstn k us) s.
Proof.
  intros H.
  assert (Hk : k < length (snapshots us s))
    by (apply nth_error_Some; congruence).
  rewrite snapshots_length in Hk.
  split; [lia|].
  rewrite snapshots_nth in H by lia. congruence.
Qed.

Lemma chain_firstn (R : State -> State -> Prop) (us : list Update) (s : State)
    (k : nat) :
  chain R s us -> chain R s (firstn k us).
Proof.
  intros H. rewrite <- (firstn_skipn k us) in H.
  now apply chain_app in H.
Qed.

(** Consecutive snapshots of a chain are related. *)
Lemma chain_step (R : State -> State -> Prop) (us : list Update) (s : State) :
  chain R s us ->
  forall k a b,
    nth_error (snapshots us s) k = Some a ->
    nth_error (snapshots us s) (S k) = Some b ->
    R a b.
Proof.
  revert s. induction us as [|u us IH]; intros s Hc k a b Ha Hb.
  - destruct k; simpl in Hb; discriminate.
  - destruct Hc as [H1 H2]. destruct k as [|k].
    + simpl in Ha, Hb. destruct us; simpl in Hb; congruence.
    + simpl in Ha. change (nth_error (snapshots us (applyUpdate u s)) (S k) = Some b) in Hb.
      eapply IH; eauto.
Qed.

(** For a preorder, any two snapshots in order are related. *)
Lemma chain_le (R : State -> State -> Prop) (us : list Update) (s : State) :
  (forall a, R a a) ->
  (forall a b c, R a b -> R b c -> R a c) ->
  chain R s us ->
  forall j k a b,
    j <= k ->
    nth_error (snapshots us s) j = Some a ->
    nth_error (snapshots us s) k = Some b ->
    R a b.
Proof.
  intros Hrefl Htrans Hc j k a b Hjk Ha.
  revert b. induction Hjk as [|k Hjk IH]; intros b Hb.
  - assert (a = b) by congruence. subst. apply Hrefl.
  - destruct (nth_error (snapshots us s) k) as [c|] eqn:Hk.
    + eapply Htrans; [apply IH; reflexivity|].
      eapply chain_step; eauto.
    + apply nth_error_None in Hk.
      assert (S k < length (snapshots us s))
        by (apply nth_error_Some; congruence).
      lia.
Qed.

(** ** The page loop *)

Section Pipeline.

Variable env : Collaborators.
Variable uploadedFile : File.

Let body := pageBody env uploadedFile.

Lemma extractContentFromPage_awaits (base64Image : string) :
  Forall (fun e => exists r, e = Await (call_generateContent r))
         (fst (extractContentFromPage env base64Image)).
Proof.
  unfold extractContentFromPage.
  destruct (API_KEY env) as [[|c rest]|]; simpl; auto.
  unfold try_catch, bind, await. simpl.
  destruct (generateContent env _ _); simpl; repeat constructor; eauto.
Qed.

Lemma extractContentFromPage_nonempty (base64Image text : string) :
  snd (extractContentFromPage env base64Image) = Returned text ->
  text <> "".
Proof.
  unfold extractContentFromPage.
  destruct (API_KEY env) as [[|c rest]|]; simpl; try discriminate.
  unfold try_catch, bind, await. simpl.
  destruct (generateContent env _ _) as [[[[|c' t]|]]|e]; simpl;
    intros H; inversion H; discriminate.
Qed.

Lemma extractPage_returns (i : nat) :
  snd (extractPage env uploadedFile i) = Returned tt.
Proof.
  unfold extractPage, try_catch, bind, await, setState. simpl.
  destruct (getPageAsImage env uploadedFile i) as [b|e]; simpl; auto.
  destruct (snd (extractContentFromPage env b)); simpl; auto.
Qed.

Lemma extractPage_trace (i : nat) :
  exists aw,
    fst (extractPage env uploadedFile i)
      = aw ++ [SetState (pageResult env uploadedFile i)]
    /\ Forall (awaitOn i) aw.
Proof.
  unfold extractPage, pageResult, try_catch, bind, await, setState. simpl.
  destruct (getPageAsImage env uploadedFile i) as [b|e]; simpl.
  - pose proof (extractContentFromPage_awaits b) as Haw.
    exists (Await (call_getPageAsImage uploadedFile i)
              :: fst (extractContentFromPage env b)).
    split.
    + destruct (snd (extractContentFromPage env b)); simpl;
        now rewrite ?app_nil_r.
    + constructor; [reflexivity|].
      eapply Forall_impl; [|exact Haw].
      intros e [r ->]. exact I.
  - exists [Await (call_getPageAsImage uploadedFile i)].
    split; [reflexivity|]. repeat constructor.
Qed.

Lemma pageBody_rejected (i : nat) (e : exn) :
  getPageAsDataUrl env uploadedFile i = Thrown e ->
  body i = ([Await (call_getPageAsDataUrl uploadedFile i)], Thrown e).
Proof.
  intros H. unfold body, pageBody, bind, await. simpl. now rewrite H.
Qed.

Lemma pageBody_shown (i : nat) (url : string) :
  getPageAsDataUrl env uploadedFile i = Returned url ->
  exists aw,
    body i = (Await (call_getPageAsDataUrl uploadedFile i)
                :: SetState (MarkProcessing i url)
                :: aw ++ [SetState (pageResult env uploadedFile i)],
              Returned tt)
    /\ Forall (awaitOn i) aw.
Proof.
  intros H. destruct (extractPage_trace i) as (aw & Htr & Haw).
  exists aw. split; [|exact Haw].
  unfold body, pageBody, bind, await, setState. simpl. rewrite H. simpl.
  now rewrite extractPage_returns, Htr.
Qed.

Lemma forLoop_loopTrace (n i : nat) :
  loopTrace env uploadedFile n i
    (fst (forLoop n i body)) (snd (forLoop n i body)).
Proof.
  revert i. induction n as [|n IH]; intros i; simpl.
  - constructor.
  - destruct (getPageAsDataUrl env uploadedFile i) as [url|e] eqn:Hurl.
    + destruct (pageBody_shown i url Hurl) as (aw & Hb & Haw).
      rewrite (bind_returned _ _ tt) by now rewrite Hb.
      rewrite Hb. simpl. rewrite <- app_assoc. simpl.
      now apply loop_page.
    + rewrite (bind_thrown _ _ e) by now rewrite (pageBody_rejected i e).
      rewrite (pageBody_rejected i e Hurl). simpl.
      now apply loop_abort.
Qed.

(** *** Page records under the updates *)

Lemma find_mapPage (i j : nat) (g : Page -> Page) (rs : list Page) :
  (forall r, PageExtraction.pageNumber (g r) = PageExtraction.pageNumber r) ->
  find (fun r => PageExtraction.pageNumber r =? j) (mapPage i g rs)
    = if j =? i
      then option_map g (find (fun r => PageExtraction.pageNumber r =? j) rs)
      else find (fun r => PageExtraction.pageNumber r =? j) rs.
Proof.
  intros Hg. induction rs as [|r rs IH]; simpl.
  - now destruct (j =? i).
  - destruct (PageExtraction.pageNumber r =? i) eqn:Hri.
    + apply Nat.eqb_eq in Hri. rewrite Hg, Hri.
      rewrite (Nat.eqb_sym i j).
      destruct (j =? i) eqn:Hji; simpl; auto.
    + destruct (PageExtraction.pageNumber r =? j) eqn:Hrj.
      * apply Nat.eqb_eq in Hrj. rewrite Hrj in Hri. now rewrite Hri.
      * exact IH.
Qed.

Lemma find_skeleton (a n j : nat) :
  find (fun r => PageExtraction.pageNumber r =? j)
       (map (fun i => {| PageExtraction.pageNumber := i + 1;
                         PageExtraction.content := "";
                         PageExtraction.status := PageExtraction.pending;
                         PageExtraction.imageUrl := None |})
            (seq a n))
    = if (a + 1 <=? j) && (j <=? a + n) then Some (pendingPage j) else None.
Proof.
  revert a. induction n as [|n IH]; intros a; simpl.
  - destruct (a + 1 <=? j) eqn:H1; destruct (j <=? a + 0) eqn:H2; simpl; auto.
    apply Nat.leb_le in H1, H2. lia.
  - destruct (a + 1 =? j) eqn:Haj.
    + apply Nat.eqb_eq in Haj. subst j.
      rewrite Nat.leb_refl. simpl.
      replace (a + 1 <=? a + S n) with true
        by (symmetry; apply Nat.leb_le; lia).
      reflexivity.
    + apply Nat.eqb_neq in Haj. rewrite IH.
      destruct (a + 1 <=? j) eqn:H1; destruct (S a + 1 <=? j) eqn:H2;
        destruct (j <=? a + S n) eqn:H3; destruct (j <=? S a + n) eqn:H4;
        simpl; auto;
        reflect_comparisons; lia.
Qed.

Lemma pageAt_Allocate (count j : nat) (s : State) :
  pageAt (applyUpdate (Allocate count) s) j
    = expectedPage env uploadedFile count 1 j.
Proof.
  unfold pageAt, expectedPage.
  cbn [applyUpdate ProcessingState.results]. unfold skeleton.
  rewrite find_skeleton.
  destruct j as [|j]; reflexivity.
Qed.

Lemma pageAt_MarkProcessing (i j : nat) (url : string) (s : State) :
  pageAt (applyUpdate (MarkProcessing i url) s) j
    = if j =? i
      then option_map
             (fun r => {| PageExtraction.pageNumber := PageExtraction.pageNumber r;
                          PageExtraction.content := PageExtraction.content r;
                          PageExtraction.status := PageExtraction.processing;
                          PageExtraction.imageUrl := Some url |})
             (pageAt s j)
      else pageAt s j.
Proof. unfold pageAt. simpl. now apply find_mapPage. Qed.

Lemma pageAt_MarkCompleted (i j : nat) (t : string) (s : State) :
  pageAt (applyUpdate (MarkCompleted i t) s) j
    = if j =? i
      then option_map
             (fun r => {| PageExtraction.pageNumber := PageExtraction.pageNumber r;
                          PageExtraction.content := t;
                          PageExtraction.status := PageExtraction.completed;
                          PageExtraction.imageUrl := PageExtraction.imageUrl r |})
             (pageAt s j)
      else pageAt s j.
Proof. unfold pageAt. simpl. now apply find_mapPage. Qed.

Lemma pageAt_MarkFailed (i j : nat) (s : State) :
  pageAt (applyUpdate (MarkFailed i) s) j
    = if j =? i
      then option_map
             (fun r => {| PageExtraction.pageNumber := PageExtraction.pageNumber r;
                          PageExtraction.content := failureText;
                          PageExtraction.status := PageExtraction.error;
                          PageExtraction.imageUrl := PageExtraction.imageUrl r |})
             (pageAt s j)
      else pageAt s j.
Proof. unfold pageAt. simpl. now apply find_mapPage. Qed.

Lemma pageResult_cases (i : nat) :
  (exists t, pageResult env uploadedFile i = MarkCompleted i t /\ t <> "")
  \/ pageResult env uploadedFile i = MarkFailed i.
Proof.
  unfold pageResult.
  destruct (getPageAsImage env uploadedFile i) as [b|e]; auto.
  destruct (snd (extractContentFromPage env b)) as [t|e] eqn:Ht; auto.
  left. exists t. split; auto.
  now apply (extractContentFromPage_nonempty b).
Qed.

Lemma updatesOf_awaits (i : nat) (aw : list Event) :
  Forall (awaitOn i) aw -> updatesOf aw = [].
Proof.
  induction 1 as [|[c|u] aw Hx _ IH]; simpl; auto. destruct Hx.
Qed.

Lemma expectedPage_self (count i : nat) :
  expectedPage env uploadedFile count i i
    = if (1 <=? i) && (i <=? count) then Some (pendingPage i) else None.
Proof. unfold expectedPage. now rewrite Nat.ltb_irrefl. Qed.

Lemma expectedPage_other (count i j : nat) :
  j <> i ->
  expectedPage env uploadedFile count (S i) j
    = expectedPage env uploadedFile count i j.
Proof.
  intros Hne. unfold expectedPage.
  destruct ((1 <=? j) && (j <=? count)); auto.
  destruct (j <? S i) eqn:H1; destruct (j <? i) eqn:H2; auto;
    reflect_comparisons; lia.
Qed.

Lemma expectedPage_done (count i : nat) :
  expectedPage env uploadedFile count (S i) i
    = if (1 <=? i) && (i <=? count)
      then Some (finishedPage env uploadedFile i) else None.
Proof.
  unfold expectedPage.
  replace (i <? S i) with true by (symmetry; apply Nat.ltb_lt; lia).
  reflexivity.
Qed.

Lemma expectedPage_finished (count j : nat) :
  1 <= j <= count ->
  expectedPage env uploadedFile count (S count) j
    = Some (finishedPage env uploadedFile j).
Proof.
  intros Hj. unfold expectedPage.
  replace ((1 <=? j) && (j <=? count)) with true
    by (symmetry; apply andb_true_iff; split; apply Nat.leb_le; lia).
  replace (j <? S count) with true by (symmetry; apply Nat.ltb_lt; lia).
  reflexivity.
Qed.

Lemma expectedPage_pending (count i : nat) :
  1 <= i <= count ->
  expectedPage env uploadedFile count i i = Some (pendingPage i).
Proof.
  intros Hi. rewrite expectedPage_self.
  replace ((1 <=? i) && (i <=? count)) with true
    by (symmetry; apply andb_true_iff; split; apply Nat.leb_le; lia).
  reflexivity.
Qed.

(** One iteration whose preview is rendered: two legal steps, and the
    invariant moves to the next page. *)
Lemma page_iteration (count i : nat) (url : string) (s : State) :
  getPageAsDataUrl env uploadedFile i = Returned url ->
  loopInvariant env uploadedFile count i s ->
  stepOK s (applyUpdate (MarkProcessing i url) s)
  /\ stepOK (applyUpdate (MarkProcessing i url) s)
            (applyUpdate (pageResult env uploadedFile i)
               (applyUpdate (MarkProcessing i url) s))
  /\ loopInvariant env uploadedFile count (S i)
       (applyUpdate (pageResult env uploadedFile i)
          (applyUpdate (MarkProcessing i url) s)).
Proof.
  intros Hurl [Hpages Hcp].
  assert (Hprev : previewUrl env uploadedFile i = Some url)
    by (unfold previewUrl; now rewrite Hurl).
  assert (H1 : forall j,
             pageAt (applyUpdate (MarkProcessing i url) s) j
             = if j =? i
               then if (1 <=? i) && (i <=? count)
                    then Some {| PageExtraction.pageNumber := i;
                                 PageExtraction.content := "";
                                 PageExtraction.status := PageExtraction.processing;
                                 PageExtraction.imageUrl := Some url |}
                    else None
               else expectedPage env uploadedFile count i j).
  { intros j. rewrite pageAt_MarkProcessing, Hpages.
    destruct (j =? i) eqn:Hji; auto.
    apply Nat.eqb_eq in Hji. subst j. rewrite expectedPage_self.
    now destruct ((1 <=? i) && (i <=? count)). }
  split; [|split].
  - split; [|simpl; lia].
    intros j. rewrite H1, Hpages.
    destruct (j =? i) eqn:Hji; [|constructor].
    apply Nat.eqb_eq in Hji. subst j. rewrite expectedPage_self.
    destruct ((1 <=? i) && (i <=? count)); constructor; reflexivity.
  - split.
    + intros j.
      destruct (pageResult_cases i) as [(t & -> & _)| ->];
        rewrite ?pageAt_MarkCompleted, ?pageAt_MarkFailed, H1;
        (destruct (j =? i); [|constructor]);
        (destruct ((1 <=? i) && (i <=? count)); constructor; reflexivity).
    + destruct (pageResult_cases i) as [(t & -> & _)| ->]; simpl; lia.
  - split.
    + intros j.
      destruct (j =? i) eqn:Hji.
      * apply Nat.eqb_eq in Hji. subst j. rewrite expectedPage_done.
        unfold finishedPage. rewrite Hprev.
        destruct (pageResult_cases i) as [(t & -> & _)| ->];
          rewrite ?pageAt_MarkCompleted, ?pageAt_MarkFailed, H1,
            Nat.eqb_refl;
          now destruct ((1 <=? i) && (i <=? count)).
      * rewrite expectedPage_other by now apply Nat.eqb_neq.
        destruct (pageResult_cases i) as [(t & -> & _)| ->];
          now rewrite ?pageAt_MarkCompleted, ?pageAt_MarkFailed, H1, Hji.
    + destruct (pageResult_cases i) as [(t & -> & _)| ->]; simpl; lia.
Qed.

(** The loop keeps the invariant, takes only legal steps, and stops early
    exactly at the first page whose preview is rejected. *)
Lemma loop_run (count n i : nat) (tr : list Event) (o : outcome unit) :
  loopTrace env uploadedFile n i tr o ->
  forall s,
    loopInvariant env uploadedFile count i s ->
    chain stepOK s (updatesOf tr)
    /\ exists m,
         m <= n
         /\ loopInvariant env uploadedFile count (i + m)
              (run (updatesOf tr) s)
         /\ (forall j, i <= j < i + m ->
                       previewUrl env uploadedFile j <> None)
         /\ match o with
            | Returned _ => m = n
            | Thrown _ =>
                m < n /\ previewUrl env uploadedFile (i + m) = None
            end.
Proof.
  induction 1 as [i|n i e He|n i url aw tr o Hurl Haw Hloop IH];
    intros s Hinv.
  - split; [exact I|]. exists 0. rewrite Nat.add_0_r.
    split; [lia|]. split; [exact Hinv|]. split; [intros j Hj; lia|].
    reflexivity.
  - split; [exact I|]. exists 0. rewrite Nat.add_0_r.
    split; [lia|]. split; [exact Hinv|]. split; [intros j Hj; lia|].
    split; [lia|]. unfold previewUrl. now rewrite He.
  - destruct (page_iteration count i url s Hurl Hinv) as (S1 & S2 & Hinv').
    destruct (IH _ Hinv') as (Hchain & m & Hm & Hfin & Hok & Ho).
    cbn [updatesOf]. rewrite updatesOf_app, (updatesOf_awaits i aw Haw).
    cbn [updatesOf app].
    split; [simpl; auto|].
    exists (S m). split; [lia|]. split; [|split].
    + replace (i + S m) with (S i + m) by lia. exact Hfin.
    + intros j Hj. destruct (Nat.eq_dec j i) as [->|Hne].
      * unfold previewUrl. now rewrite Hurl.
      * apply Hok. lia.
    + destruct o; [lia|].
      replace (i + S m) with (S i + m) by lia. split; [lia|tauto].
Qed.

(** *** Which events a loop trace holds *)

Lemma loopTrace_updates (n i : nat) (tr : list Event) (o : outcome unit) :
  loopTrace env uploadedFile n i tr o ->
  forall u, In (SetState u) tr ->
    (exists j url, u = MarkProcessing j url)
    \/ (exists j, u = pageResult env uploadedFile j).
Proof.
  induction 1 as [i|n i e He|n i url aw tr o Hurl Haw Hloop IH];
    intros u Hin.
  - destruct Hin.
  - destruct Hin as [Hin|[]]. discriminate.
  - destruct Hin as [Hin|[Hin|Hin]]; [discriminate| |].
    + inversion Hin. eauto.
    + apply in_app_or in Hin. destruct Hin as [Hin|[Hin|Hin]].
      * rewrite Forall_forall in Haw. apply Haw in Hin. destruct Hin.
      * inversion Hin. eauto.
      * auto.
Qed.

(** An event about page [j] means the loop reached page [j]; a state
    update about page [j] means its preview was rendered. *)
Lemma loopTrace_reached (n i : nat) (tr : list Event) (o : outcome unit) :
  loopTrace env uploadedFile n i tr o ->
  forall ev j, In ev tr -> eventPage ev = Some j ->
    i <= j < i + n
    /\ (forall j', i <= j' < j -> previewUrl env uploadedFile j' <> None)
    /\ (ev <> Await (call_getPageAsDataUrl uploadedFile j) ->
        previewUrl env uploadedFile j <> None).
Proof.
  induction 1 as [i|n i e He|n i url aw tr o Hurl Haw Hloop IH];
    intros ev j Hin Hev.
  - destruct Hin.
  - destruct Hin as [<-|[]]. simpl in Hev. inversion Hev. subst j.
    repeat split; try lia. congruence.
  - assert (Hi : previewUrl env uploadedFile i <> None)
      by (unfold previewUrl; now rewrite Hurl).
    assert (Hhere : eventPage ev = Some i ->
                    i <= j < i + S n
                    /\ (forall j', i <= j' < j ->
                                   previewUrl env uploadedFile j' <> None)
                    /\ (ev <> Await (call_getPageAsDataUrl uploadedFile j) ->
                        previewUrl env uploadedFile j <> None)).
    { intros He. rewrite He in Hev. inversion Hev. subst j.
      split; [lia|]. split; [intros j' Hj'; lia|auto]. }
    destruct Hin as [<-|[<-|Hin]]; [now apply Hhere..|].
    apply in_app_or in Hin. destruct Hin as [Hin|[<-|Hin]].
    + rewrite Forall_forall in Haw. apply Haw in Hin.
      destruct ev as [[| |file k|]|]; simpl in Hev, Hin;
        try discriminate; try contradiction; subst; now apply Hhere.
    + apply Hhere.
      destruct (pageResult_cases i) as [(t & -> & _)| ->]; reflexivity.
    + destruct (IH ev j Hin Hev) as (H1 & H2 & H3).
      split; [lia|]. split; [|exact H3].
      intros j' Hj'. destruct (Nat.eq_dec j' i) as [->|Hne]; auto.
      apply H2. lia.
Qed.

(** Every page the loop reaches has its preview requested; if the preview
    is rendered the page is shown as processing and then recorded. *)
Lemma loopTrace_visits (n i : nat) (tr : list Event) (o : outcome unit) :
  loopTrace env uploadedFile n i tr o ->
  forall j, i <= j < i + n ->
    (forall j', i <= j' < j -> previewUrl env uploadedFile j' <> None) ->
    In (Await (call_getPageAsDataUrl uploadedFile j)) tr
    /\ (forall url, getPageAsDataUrl env uploadedFile j = Returned url ->
          In (SetState (MarkProcessing j url)) tr
          /\ In (SetState (pageResult env uploadedFile j)) tr).
Proof.
  induction 1 as [i|n i e He|n i url aw tr o Hurl Haw Hloop IH];
    intros j Hj Hbefore.
  - lia.
  - destruct (Nat.eq_dec j i) as [->|Hne].
    + split; [now left|]. intros url Hurl. congruence.
    + exfalso. apply (Hbefore i); [lia|].
      unfold previewUrl. now rewrite He.
  - destruct (Nat.eq_dec j i) as [->|Hne].
    + split; [now left|]. intros url' Hurl'.
      assert (url' = url) by congruence. subst url'.
      split; [right; now left|].
      right. right. apply in_or_app. right. now left.
    + destruct (IH j) as (H1 & H2); [lia|intros j' Hj'; apply Hbefore; lia|].
      split.
      * right. right. apply in_or_app. right. now right.
      * intros url' Hurl'. destruct (H2 url' Hurl') as [H3 H4].
        split; right; right; apply in_or_app; right; now right.
Qed.

Lemma pageResult_afterAllocation (i : nat) :
  afterAllocation (pageResult env uploadedFile i) = true.
Proof.
  destruct (pageResult_cases i) as [(t & -> & _)| ->]; reflexivity.
Qed.

Lemma loopTrace_late (n i : nat) (tr : list Event) (o : outcome unit) :
  loopTrace env uploadedFile n i tr o ->
  Forall (fun ev => lateEvent ev = true) tr.
Proof.
  intros H. apply Forall_forall. intros [c|u] Hin; [reflexivity|].
  simpl.
  destruct (loopTrace_updates _ _ _ _ H u Hin) as [(j & url & ->)|(j & ->)];
    [reflexivity|apply pageResult_afterAllocation].
Qed.

Lemma processFile_returns :
  snd (processFile env uploadedFile) = Returned tt.
Proof.
  unfold processFile, try_catch, bind, await, setState. simpl.
  destruct (getPageCount env uploadedFile) as [count|e]; simpl; auto.
  fold body.
  destruct (snd (forLoop count 1 body)) as [[]|e]; simpl; auto.
Qed.

Lemma processFile_trace_counted (count : nat) :
  getPageCount env uploadedFile = Returned count ->
  fst (processFile env uploadedFile)
    = [SetState SetLoading; Await (call_getPageCount uploadedFile);
       SetState (Allocate count)]
      ++ fst (forLoop count 1 body)
      ++ [SetState (lastUpdate (snd (forLoop count 1 body)))].
Proof.
  intros H.
  unfold processFile, try_catch, bind, await, setState. simpl.
  rewrite H. simpl. fold body.
  destruct (snd (forLoop count 1 body)) as [[]|e]; simpl; auto.
Qed.

Lemma processFile_trace_uncounted (e : exn) :
  getPageCount env uploadedFile = Thrown e ->
  fst (processFile env uploadedFile)
    = [SetState SetLoading; Await (call_getPageCount uploadedFile);
       SetState SetError].
Proof.
  intros H.
  unfold processFile, try_catch, bind, await, setState. simpl.
  now rewrite H.
Qed.

Lemma processFile_updates_counted (count : nat) :
  getPageCount env uploadedFile = Returned count ->
  updates (processFile env uploadedFile)
    = SetLoading :: Allocate count
        :: updatesOf (fst (forLoop count 1 body))
        ++ [lastUpdate (snd (forLoop count 1 body))].
Proof.
  intros H. unfold updates. rewrite (processFile_trace_counted count H).
  simpl. now rewrite updatesOf_app.
Qed.

Lemma processFile_updates_uncounted (e : exn) :
  getPageCount env uploadedFile = Thrown e ->
  updates (processFile env uploadedFile) = [SetLoading; SetError].
Proof.
  intros H. unfold updates. now rewrite (processFile_trace_uncounted e H).
Qed.

Lemma stepOK_lastUpdate (o : outcome unit) (s : State) :
  stepOK s (applyUpdate (lastUpdate o) s).
Proof.
  destruct o; split; simpl; auto; intros j; constructor.
Qed.

Lemma allocated_invariant (count : nat) (s : State) :
  loopInvariant env uploadedFile count 1 (applyUpdate (Allocate count) s).
Proof.
  split; [|simpl; lia]. intros j. apply pageAt_Allocate.
Qed.

(** A run whose page count is known: from the allocation on, every step is
    legal; the run ends in the invariant of the page it stopped at, with
    status completed if no preview was rejected and error otherwise. *)
Lemma run_counted (count : nat) (s0 : State) :
  getPageCount env uploadedFile = Returned count ->
  chain stepOK (applyUpdate (Allocate count) (applyUpdate SetLoading s0))
        (updatesOf (fst (forLoop count 1 body))
           ++ [lastUpdate (snd (forLoop count 1 body))])
  /\ exists m,
       m <= count
       /\ loopInvariant env uploadedFile count (1 + m)
            (run (updates (processFile env uploadedFile)) s0)
       /\ (forall j, 1 <= j < 1 + m ->
                     previewUrl env uploadedFile j <> None)
       /\ ((m = count
            /\ ProcessingState.status
                 (run (updates (processFile env uploadedFile)) s0)
               = ProcessingState.completed)
           \/ (m < count
               /\ previewUrl env uploadedFile (1 + m) = None
               /\ ProcessingState.status
                    (run (updates (processFile env uploadedFile)) s0)
                  = ProcessingState.error
               /\ ProcessingState.errorMessage
                    (run (updates (processFile env uploadedFile)) s0)
                  = Some fatalMessage)).
Proof.
  intros Hcount.
  rewrite (processFile_updates_counted count Hcount).
  set (s2 := applyUpdate (Allocate count) (applyUpdate SetLoading s0)).
  destruct (loop_run count _ _ _ _ (forLoop_loopTrace count 1) s2
              (allocated_invariant count _))
    as (Hchain & m & Hm & Hinv & Hok & Ho).
  split.
  - apply chain_app. split; [exact Hchain|].
    simpl. split; [apply stepOK_lastUpdate|exact I].
  - exists m. split; [exact Hm|].
    change (run (SetLoading :: Allocate count
                   :: updatesOf (fst (forLoop count 1 body))
                   ++ [lastUpdate (snd (forLoop count 1 body))]) s0)
      with (run (updatesOf (fst (forLoop count 1 body))
                   ++ [lastUpdate (snd (forLoop count 1 body))]) s2).
    rewrite run_app.
    set (s3 := run (updatesOf (fst (forLoop count 1 body))) s2) in *.
    destruct Hinv as [Hpages Hcp].
    destruct (snd (forLoop count 1 body)) as [[]|e]; simpl.
    + repeat split; auto.
    + repeat split; auto; try tauto.
Qed.

(** *** Whole runs *)

Lemma run_steps_pages (s0 : State) :
  ProcessingState.results s0 = [] ->
  chain (fun s s' => forall j, pageStep (pageAt s j) (pageAt s' j))
        s0 (updates (processFile env uploadedFile)).
Proof.
  intros Hempty.
  destruct (getPageCount env uploadedFile) as [count|e] eqn:Hcount.
  - destruct (run_counted count s0 Hcount) as [Hchain _].
    rewrite (processFile_updates_counted count Hcount).
    split; [intros j; constructor|].
    split.
    + intros j. rewrite pageAt_Allocate.
      unfold pageAt at 1. simpl. rewrite Hempty. simpl.
      unfold expectedPage.
      destruct j as [|j]; [constructor|].
      change (S j <? 1) with false.
      destruct ((1 <=? S j) && (S j <=? count)); constructor; reflexivity.
    + eapply chain_impl; [|exact Hchain]. intros a b [H _]. exact H.
  - rewrite (processFile_updates_uncounted e Hcount).
    simpl. repeat split; intros j; constructor.
Qed.

Lemma run_steps_currentPage (s0 : State) :
  ProcessingState.currentPage s0 <= 1 ->
  chain (fun s s' => ProcessingState.currentPage s
                     <= ProcessingState.currentPage s')
        s0 (updates (processFile env uploadedFile)).
Proof.
  intros Hcp.
  destruct (getPageCount env uploadedFile) as [count|e] eqn:Hcount.
  - destruct (run_counted count s0 Hcount) as [Hchain _].
    rewrite (processFile_updates_counted count Hcount).
    split; [simpl; lia|]. split; [simpl; lia|].
    eapply chain_impl; [|exact Hchain]. intros a b [_ H]. exact H.
  - rewrite (processFile_updates_uncounted e Hcount).
    simpl. repeat split; lia.
Qed.

End Pipeline.

(** ** Page records over a run *)

Lemma pageStep_terminal (o o' : option Page) (r : Page) :
  pageStep o o' ->
  o = Some r ->
  PageExtraction.isTerminal r = true ->
  o' = Some r.
Proof.
  intros Hstep Ho Hterm. destruct Hstep as [o|r0 H1 H2|r0 r' H1 H2|r0 r' H1 H2];
    auto; try discriminate;
    inversion Ho; subst r0; unfold PageExtraction.isTerminal in Hterm;
    rewrite H1 in Hterm; discriminate.
Qed.

Lemma pageStep_pending (o o' : option Page) (r r' : Page) :
  pageStep o o' ->
  o = Some r ->
  o' = Some r' ->
  PageExtraction.status r = PageExtraction.pending ->
  PageExtraction.isTerminal r' = false.
Proof.
  intros Hstep Ho Ho' Hpending.
  destruct Hstep as [o|r0 H1 H2|r0 r1 H1 H2|r0 r1 H1 H2]; try discriminate.
  - assert (r' = r) by congruence. subst r'.
    unfold PageExtraction.isTerminal. now rewrite Hpending.
  - inversion Ho'. subst r1.
    unfold PageExtraction.isTerminal. now rewrite H2.
  - inversion Ho. subst r0. congruence.
Qed.

(** C6. In a run started from a state without page records (the idle state),
    between two consecutive published states the record of every page
    number either stays as it is, appears as pending with empty content,
    moves from pending to processing, or moves from processing to completed
    or error; so no page goes from pending directly to completed or error,
    and a record that is completed or error is the same in every later
    published state of the run. *)
Theorem page_status_order (env : Collaborators) (uploadedFile : File)
    (s0 : State) :
  ProcessingState.results s0 = [] ->
  (forall k a b j,
      nth_error (snapshots (updates (processFile env uploadedFile)) s0) k
        = Some a ->
      nth_error (snapshots (updates (processFile env uploadedFile)) s0) (S k)
        = Some b ->
      pageStep (pageAt a j) (pageAt b j))
  /\ (forall k a b j r r',
        nth_error (snapshots (updates (processFile env uploadedFile)) s0) k
          = Some a ->
        nth_error (snapshots (updates (processFile env uploadedFile)) s0) (S k)
          = Some b ->
        pageAt a j = Some r ->
        pageAt b j = Some r' ->
        PageExtraction.status r = PageExtraction.pending ->
        PageExtraction.isTerminal r' = false)
  /\ (forall k k' a b j r,
        k <= k' ->
        nth_error (snapshots (updates (processFile env uploadedFile)) s0) k
          = Some a ->
        nth_error (snapshots (updates (processFile env uploadedFile)) s0) k'
          = Some b ->
        pageAt a j = Some r ->
        PageExtraction.isTerminal r = true ->
        pageAt b j = Some r).
Proof.
  intros Hempty.
  pose proof (run_steps_pages env uploadedFile s0 Hempty) as Hchain.
  assert (Hstep : forall k a b j,
             nth_error (snapshots (updates (processFile env uploadedFile)) s0) k
               = Some a ->
             nth_error (snapshots (updates (processFile env uploadedFile)) s0)
                       (S k) = Some b ->
             pageStep (pageAt a j) (pageAt b j)).
  { intros k a b j Ha Hb.
    exact (chain_step _ _ _ Hchain k a b Ha Hb j). }
  split; [exact Hstep|]. split.
  - intros k a b j r r' Ha Hb Hr Hr' Hpending.
    eapply pageStep_pending; eauto.
  - intros k k' a b j r Hle Ha Hb Hr Hterm.
    set (stable := fun s s' : State =>
                     forall j r, pageAt s j = Some r ->
                                 PageExtraction.isTerminal r = true ->
                                 pageAt s' j = Some r).
    assert (Hstable : chain stable s0 (updates (processFile env uploadedFile))).
    { eapply chain_impl; [|exact Hchain].
      intros x y Hxy j' r' Hx Ht. eapply pageStep_terminal; eauto. }
    refine (chain_le stable _ _ _ _ Hstable k k' a b Hle Ha Hb j r Hr Hterm).
    + intros x j' r' Hx _. exact Hx.
    + intros x y z Hxy Hyz j' r' Hx Ht. apply Hyz; auto.
Qed.

Lemma page_status_order_witness :
  ProcessingState.results initialState = []
  /\ pageAt (run (firstn 8 (updates (processFile Samples.secondExtractionFails
                                                 "scan.pdf")))
                 initialState) 2
     = Some {| PageExtraction.pageNumber := 2;
               PageExtraction.content := failureText;
               PageExtraction.status := PageExtraction.error;
               PageExtraction.imageUrl := Some (Samples.previewOf 2) |}.
Proof.
  split; [reflexivity|].
  refine (proj2 (proj2 (page_status_order Samples.secondExtractionFails
                          "scan.pdf" initialState eq_refl))
            6 8 _ _ 2 _ _ _ _ _ _).
  - lia.
  - vm_compute. reflexivity.
  - vm_compute. reflexivity.
  - vm_compute. reflexivity.
  - reflexivity.
Defined.

(** C9, as the code has it.  Within a run the current page never decreases
    from the allocation on, nor before it; the allocation itself sets it to
    1.  So from one published state to a later one the current page does
    not decrease when both lie before the allocation, when both lie at or
    after it, or when the run started from a state whose current page is at
    most 1, as it is (0) in the initial state and right after a reset. *)
Theorem currentPage_monotone (env : Collaborators) (uploadedFile : File)
    (s0 : State) (j k : nat) (a b : State) :
  ProcessingState.currentPage s0 <= 1 \/ 2 <= j \/ k <= 1 ->
  j <= k ->
  nth_error (snapshots (updates (processFile env uploadedFile)) s0) j = Some a ->
  nth_error (snapshots (updates (processFile env uploadedFile)) s0) k = Some b ->
  ProcessingState.currentPage a <= ProcessingState.currentPage b.
Proof.
  intros Hcase Hjk Ha Hb.
  set (R := fun s s' : State =>
              ProcessingState.currentPage s
              <= ProcessingState.currentPage s').
  assert (Hrefl : forall x, R x x) by (intros x; unfold R; lia).
  assert (Htrans : forall x y z, R x y -> R y z -> R x z)
    by (intros x y z; unfold R; lia).
  destruct (getPageCount env uploadedFile) as [count|e] eqn:Hcount.
  - destruct Hcase as [Hcp|[Hj|Hk]].
    + pose proof (run_steps_currentPage env uploadedFile s0 Hcp) as Hchain.
      exact (chain_le R _ _ Hrefl Htrans Hchain j k a b Hjk Ha Hb).
    + destruct (run_counted env uploadedFile count s0 Hcount) as [Hchain _].
      rewrite (processFile_updates_counted env uploadedFile count Hcount)
        in Ha, Hb.
      destruct j as [|[|j]]; try lia. destruct k as [|[|k]]; try lia.
      change (nth_error (snapshots (SetLoading :: Allocate count :: ?us) s0)
                        (S (S ?n)))
        with (nth_error (snapshots us (applyUpdate (Allocate count)
                                         (applyUpdate SetLoading s0))) n)
        in Ha, Hb.
      refine (chain_le R _ _ Hrefl Htrans _ j k a b _ Ha Hb); [|lia].
      eapply chain_impl; [|exact Hchain]. intros x y [_ H]. exact H.
    + rewrite (processFile_updates_counted env uploadedFile count Hcount)
        in Ha, Hb.
      destruct k as [|[|k]]; try lia; destruct j as [|[|j]]; try lia;
        simpl in Ha, Hb; inversion Ha; inversion Hb; subst; simpl; lia.
  - rewrite (processFile_updates_uncounted env uploadedFile e Hcount)
      in Ha, Hb.
    refine (chain_le R _ _ Hrefl Htrans _ j k a b Hjk Ha Hb).
    simpl. unfold R. simpl. repeat split; lia.
Qed.

Lemma currentPage_monotone_witness :
  ProcessingState.currentPage
    (run (firstn 2 (updates (processFile Samples.allGood "scan.pdf")))
         initialState)
  <= ProcessingState.currentPage
       (run (firstn 7 (updates (processFile Samples.allGood "scan.pdf")))
            initialState).
Proof.
  apply (currentPage_monotone Samples.allGood "scan.pdf" initialState 2 7).
  - left. simpl. lia.
  - lia.
  - vm_compute. reflexivity.
  - vm_compute. reflexivity.
Defined.

(** C9 fails as stated.  A three-page run is abandoned by [reset] while it
    waits for the preview of page 2; that preview then arrives and its
    update lands on the idle state, leaving status idle with current page
    2.  The upload input is shown, and the run started there publishes
    current page 2 while loading and 1 at its allocation, with no reset
    inside it. *)
Lemma allocation_lowers_currentPage :
  nth_error (trace (processFile Samples.allGood "first.pdf")) 8
    = Some (Await (call_getPageAsDataUrl "first.pdf" 2))
  /\ run (updatesOf
            (firstn 11 (resetDuring 9 (trace (processFile Samples.allGood
                                                          "first.pdf")))))
         initialState
     = {| ProcessingState.status := ProcessingState.idle;
          ProcessingState.totalPages := 0;
          ProcessingState.currentPage := 2;
          ProcessingState.results := [];
          ProcessingState.errorMessage := None |}
  /\ existsb (fun u => match u with Reset => true | _ => false end)
             (updates (processFile Samples.onePage "second.pdf")) = false
  /\ firstn 3
       (map ProcessingState.currentPage
            (snapshots (updates (processFile Samples.onePage "second.pdf"))
               {| ProcessingState.status := ProcessingState.idle;
                  ProcessingState.totalPages := 0;
                  ProcessingState.currentPage := 2;
                  ProcessingState.results := [];
                  ProcessingState.errorMessage := None |}))
     = [2; 2; 1]
  /\ ~ (forall a b,
          nth_error
            (snapshots (updates (processFile Samples.onePage "second.pdf"))
               {| ProcessingState.status := ProcessingState.idle;
                  ProcessingState.totalPages := 0;
                  ProcessingState.currentPage := 2;
                  ProcessingState.results := [];
                  ProcessingState.errorMessage := None |}) 1 = Some a ->
          nth_error
            (snapshots (updates (processFile Samples.onePage "second.pdf"))
               {| ProcessingState.status := ProcessingState.idle;
                  ProcessingState.totalPages := 0;
                  ProcessingState.currentPage := 2;
                  ProcessingState.results := [];
                  ProcessingState.errorMessage := None |}) 2 = Some b ->
          ProcessingState.currentPage a <= ProcessingState.currentPage b).
Proof.
  split; [reflexivity|]. split; [reflexivity|]. split; [reflexivity|].
  split; [reflexivity|].
  intros H.
  specialize (H _ _ eq_refl eq_refl). simpl in H. lia.
Qed.

(** ** What the updates after the allocation leave alone *)

Lemma afterAllocation_keeps (u : Update) (s : State) :
  afterAllocation u = true ->
  ProcessingState.totalPages (applyUpdate u s) = ProcessingState.totalPages s
  /\ length (ProcessingState.results (applyUpdate u s))
     = length (ProcessingState.results s)
  /\ (ProcessingState.results s = [] ->
      ProcessingState.results (applyUpdate u s) = []).
Proof.
  destruct u; simpl; try discriminate; intros _;
    unfold mapPage; rewrite ?length_map; repeat split; auto;
    intros ->; reflexivity.
Qed.

Lemma run_afterAllocation (us : list Update) (s : State) :
  Forall (fun u => afterAllocation u = true) us ->
  ProcessingState.totalPages (run us s) = ProcessingState.totalPages s
  /\ length (ProcessingState.results (run us s))
     = length (ProcessingState.results s)
  /\ (ProcessingState.results s = [] ->
      ProcessingState.results (run us s) = []).
Proof.
  intros H. revert s. induction H as [|u us Hu _ IH]; intros s.
  - simpl. auto.
  - change (run (u :: us) s) with (run us (applyUpdate u s)).
    destruct (IH (applyUpdate u s)) as (H1 & H2 & H3).
    destruct (afterAllocation_keeps u s Hu) as (K1 & K2 & K3).
    repeat split; try congruence. auto.
Qed.

Lemma updatesOf_late (tr : list Event) :
  Forall (fun ev => lateEvent ev = true) tr ->
  Forall (fun u => afterAllocation u = true) (updatesOf tr).
Proof.
  induction 1 as [|[c|u] tr Hev _ IH]; simpl; auto.
Qed.

Lemma Forall_firstn_of {A : Type} (P : A -> Prop) (k : nat) (l : list A) :
  Forall P l -> Forall P (firstn k l).
Proof.
  intros H. rewrite <- (firstn_skipn k l) in H.
  now apply Forall_app in H.
Qed.

Lemma Forall_skipn_of {A : Type} (P : A -> Prop) (k : nat) (l : list A) :
  Forall P l -> Forall P (skipn k l).
Proof.
  intros H. rewrite <- (firstn_skipn k l) in H.
  now apply Forall_app in H.
Qed.

Lemma processFile_late_counted (env : Collaborators) (uploadedFile : File)
    (count : nat) :
  Forall (fun ev => lateEvent ev = true)
         (fst (forLoop count 1 (pageBody env uploadedFile))
            ++ [SetState (lastUpdate
                            (snd (forLoop count 1 (pageBody env uploadedFile))))]).
Proof.
  apply Forall_app. split.
  - eapply loopTrace_late. apply forLoop_loopTrace.
  - constructor; [|constructor].
    now destruct (snd (forLoop count 1 (pageBody env uploadedFile))).
Qed.

(** Whatever a run does after its first three events (loading, the page
    count query, the allocation or the fatal error) is a late event. *)
Lemma processFile_late (env : Collaborators) (uploadedFile : File) (k : nat) :
  3 <= k ->
  Forall (fun ev => lateEvent ev = true)
         (skipn k (trace (processFile env uploadedFile))).
Proof.
  intros Hk. unfold trace.
  destruct (getPageCount env uploadedFile) as [count|e] eqn:Hcount.
  - rewrite (processFile_trace_counted env uploadedFile count Hcount).
    replace k with (3 + (k - 3)) by lia.
    cbn [app skipn Nat.add].
    apply Forall_skipn_of, processFile_late_counted.
  - rewrite (processFile_trace_uncounted env uploadedFile e Hcount).
    rewrite skipn_all2 by (simpl; lia). constructor.
Qed.

(** C7. When the page count query answers [count], the run issues nothing
    but the loading update and that query before the allocation; the
    allocation sets [totalPages] to [count] and, in the same update, the
    page list to [count] records numbered 1..count, all pending, with empty
    content and no preview; and from that published state on the page list
    has [totalPages = count] entries. *)
Theorem skeleton_allocated (env : Collaborators) (uploadedFile : File)
    (s0 : State) (count : nat) :
  getPageCount env uploadedFile = Returned count ->
  (exists rest,
      trace (processFile env uploadedFile)
        = SetState SetLoading :: Await (call_getPageCount uploadedFile)
            :: SetState (Allocate count) :: rest
      /\ Forall (fun ev => lateEvent ev = true) rest)
  /\ nth_error (snapshots (updates (processFile env uploadedFile)) s0) 1
     = Some (applyUpdate SetLoading s0)
  /\ ProcessingState.totalPages (applyUpdate SetLoading s0)
     = ProcessingState.totalPages s0
  /\ nth_error (snapshots (updates (processFile env uploadedFile)) s0) 2
     = Some (applyUpdate (Allocate count) (applyUpdate SetLoading s0))
  /\ ProcessingState.totalPages
       (applyUpdate (Allocate count) (applyUpdate SetLoading s0)) = count
  /\ map PageExtraction.pageNumber
         (ProcessingState.results
            (applyUpdate (Allocate count) (applyUpdate SetLoading s0)))
     = seq 1 count
  /\ Forall (fun r => PageExtraction.status r = PageExtraction.pending
                      /\ PageExtraction.content r = ""
                      /\ PageExtraction.imageUrl r = None)
            (ProcessingState.results
               (applyUpdate (Allocate count) (applyUpdate SetLoading s0)))
  /\ (forall k s,
        2 <= k ->
        nth_error (snapshots (updates (processFile env uploadedFile)) s0) k
          = Some s ->
        ProcessingState.totalPages s = count
        /\ length (ProcessingState.results s) = count).
Proof.
  intros Hcount.
  pose proof (processFile_late_counted env uploadedFile count) as Hlate.
  assert (Hlen : length (skeleton count) = count)
    by (unfold skeleton; now rewrite length_map, length_seq).
  split; [|split; [|split; [|split; [|split; [|split; [|split]]]]]].
  - eexists. split.
    + unfold trace.
      rewrite (processFile_trace_counted env uploadedFile count Hcount).
      reflexivity.
    + exact Hlate.
  - rewrite (processFile_updates_counted env uploadedFile count Hcount).
    reflexivity.
  - reflexivity.
  - rewrite (processFile_updates_counted env uploadedFile count Hcount).
    rewrite snapshots_nth by (simpl; lia). reflexivity.
  - reflexivity.
  - simpl. unfold skeleton. rewrite map_map. simpl.
    rewrite <- seq_shift. apply map_ext. intros i. lia.
  - simpl. unfold skeleton. apply Forall_forall. intros r Hr.
    apply in_map_iff in Hr. destruct Hr as (i & <- & _). auto.
  - intros k s Hk Hs.
    apply snapshots_nth_inv in Hs. destruct Hs as [_ ->].
    rewrite (processFile_updates_counted env uploadedFile count Hcount).
    replace k with (2 + (k - 2)) by lia. cbn [firstn Nat.add].
    change (run (SetLoading :: Allocate count :: ?us) s0)
      with (run us (applyUpdate (Allocate count) (applyUpdate SetLoading s0))).
    match goal with
    | |- context [run ?us ?s] =>
        destruct (run_afterAllocation us s) as (H1 & H2 & _)
    end.
    + apply Forall_firstn_of.
      apply updatesOf_late in Hlate.
      now rewrite updatesOf_app in Hlate.
    + rewrite H1, H2. simpl. auto.
Qed.

Lemma skeleton_allocated_witness :
  getPageCount Samples.allGood "scan.pdf" = Returned 3
  /\ ProcessingState.totalPages
       (run (firstn 5 (updates (processFile Samples.allGood "scan.pdf")))
            initialState) = 3
  /\ length (ProcessingState.results
               (run (firstn 5 (updates (processFile Samples.allGood
                                                    "scan.pdf")))
                    initialState)) = 3.
Proof.
  split; [reflexivity|].
  apply (proj2 (proj2 (proj2 (proj2 (proj2 (proj2 (proj2
           (skeleton_allocated Samples.allGood "scan.pdf" initialState 3
              eq_refl))))))) 5).
  - lia.
  - vm_compute. reflexivity.
Defined.

(** C8. When the page count query fails in a run started from a state
    without page records, the run consists of the loading update, the
    query and the error update and nothing else; it ends with status error,
    no page records and the user-facing message, and no published state of
    the run holds a page record. *)
Theorem unreadable_document (env : Collaborators) (uploadedFile : File)
    (s0 : State) (e : exn) :
  getPageCount env uploadedFile = Thrown e ->
  ProcessingState.results s0 = [] ->
  processFile env uploadedFile
    = ([SetState SetLoading; Await (call_getPageCount uploadedFile);
        SetState SetError], Returned tt)
  /\ ProcessingState.status (run (updates (processFile env uploadedFile)) s0)
     = ProcessingState.error
  /\ ProcessingState.results (run (updates (processFile env uploadedFile)) s0)
     = []
  /\ ProcessingState.errorMessage
       (run (updates (processFile env uploadedFile)) s0)
     = Some fatalMessage
  /\ (forall k s,
        nth_error (snapshots (updates (processFile env uploadedFile)) s0) k
          = Some s ->
        ProcessingState.results s = []).
Proof.
  intros Hcount Hempty.
  assert (Hrun : processFile env uploadedFile
                 = ([SetState SetLoading;
                     Await (call_getPageCount uploadedFile);
                     SetState SetError], Returned tt)).
  { rewrite (surjective_pairing (processFile env uploadedFile)).
    now rewrite (processFile_trace_uncounted env uploadedFile e Hcount),
      processFile_returns. }
  split; [exact Hrun|]. unfold updates. rewrite Hrun. simpl.
  repeat split; auto.
  intros k s Hs.
  destruct k as [|[|[|k]]]; simpl in Hs;
    [inversion Hs; subst; auto..|destruct k; discriminate].
Qed.

Lemma unreadable_document_witness :
  getPageCount Samples.unreadable "scan.pdf"
    = Thrown (Rejection "InvalidPDFException")
  /\ ProcessingState.results initialState = []
  /\ ProcessingState.status
       (run (updates (processFile Samples.unreadable "scan.pdf")) initialState)
     = ProcessingState.error
  /\ ProcessingState.results
       (run (updates (processFile Samples.unreadable "scan.pdf")) initialState)
     = [].
Proof.
  split; [reflexivity|]. split; [reflexivity|].
  pose proof (unreadable_document Samples.unreadable "scan.pdf" initialState
                (Rejection "InvalidPDFException") eq_refl eq_refl)
    as (_ & H1 & H2 & _).
  exact (conj H1 H2).
Defined.

(** ** reset() against a run in flight *)

Lemma updatesOf_resetDuring (k : nat) (tr : list Event) :
  updatesOf (resetDuring k tr)
    = updatesOf (firstn k tr) ++ Reset :: updatesOf (skipn k tr).
Proof.
  unfold resetDuring. now rewrite updatesOf_app.
Qed.

Lemma run_through_reset (before after : list Update) (s0 : State) (j : nat) :
  length before < j ->
  run (firstn j (before ++ Reset :: after)) s0
    = run (firstn (j - S (length before)) after) initialState.
Proof.
  intros Hj.
  rewrite firstn_app, firstn_all2 by lia.
  replace (j - length before) with (S (j - S (length before))) by lia.
  cbn [firstn]. rewrite run_app. reflexivity.
Qed.

Lemma late_updates_do_not_allocate (us : list Update) :
  Forall (fun u => afterAllocation u = true) us ->
  Forall (fun u => allocates u = false) us.
Proof.
  apply Forall_impl. intros u. now destruct u.
Qed.

Lemma unallocated_stays_empty (us : list Update) (s : State) :
  Forall (fun u => allocates u = false) us ->
  ProcessingState.results s = [] ->
  ProcessingState.totalPages s = 0 ->
  ProcessingState.results (run us s) = []
  /\ ProcessingState.totalPages (run us s) = 0.
Proof.
  intros H. revert s. induction H as [|u us Hu _ IH]; intros s Hres Htot; auto.
  change (run (u :: us) s) with (run us (applyUpdate u s)).
  apply IH; destruct u; simpl; try discriminate; auto;
    now rewrite Hres.
Qed.

(** C1, as the code has it.  [reset()] installs the idle state whatever the
    state was and wherever in the run it falls.  There is no generation
    token: the steps of the abandoned run that resolve later are applied to
    the state they find.  When the reset falls after the allocation of the
    abandoned run, none of those late steps allocates pages; and from the
    idle state, as long as no allocation (of another run) lands, every
    published state keeps [results = []] and [totalPages = 0], whatever
    else is applied; so it is with the late steps alone.  Once another run
    has allocated its pages, a late per-page step rewrites that run's record
    of the same page number. *)
Theorem reset_then_late_steps (env : Collaborators) (uploadedFile : File)
    (s0 : State) (k : nat) :
  (exists fresh,
      nth_error
        (snapshots
           (updatesOf (resetDuring k (trace (processFile env uploadedFile))))
           s0)
        (S (length (updatesOf
                      (firstn k (trace (processFile env uploadedFile))))))
        = Some fresh
      /\ ProcessingState.status fresh = ProcessingState.idle
      /\ ProcessingState.results fresh = []
      /\ ProcessingState.totalPages fresh = 0
      /\ ProcessingState.currentPage fresh = 0)
  /\ (3 <= k ->
      Forall (fun u => allocates u = false)
             (updatesOf (skipn k (trace (processFile env uploadedFile)))))
  /\ (forall us j s,
        Forall (fun u => allocates u = false) us ->
        nth_error (snapshots us initialState) j = Some s ->
        ProcessingState.results s = []
        /\ ProcessingState.totalPages s = 0)
  /\ (3 <= k ->
      forall j s,
        length (updatesOf (firstn k (trace (processFile env uploadedFile))))
          < j ->
        nth_error
          (snapshots
             (updatesOf (resetDuring k (trace (processFile env uploadedFile))))
             s0) j = Some s ->
        ProcessingState.results s = []
        /\ ProcessingState.totalPages s = 0)
  /\ (forall s count i t,
        1 <= i <= count ->
        pageAt (applyUpdate (MarkCompleted i t)
                  (applyUpdate (Allocate count) s)) i
        = Some {| PageExtraction.pageNumber := i;
                  PageExtraction.content := t;
                  PageExtraction.status := PageExtraction.completed;
                  PageExtraction.imageUrl := None |}
        /\ pageAt (applyUpdate (MarkFailed i)
                     (applyUpdate (Allocate count) s)) i
           = Some {| PageExtraction.pageNumber := i;
                     PageExtraction.content := failureText;
                     PageExtraction.status := PageExtraction.error;
                     PageExtraction.imageUrl := None |}).
Proof.
  assert (Hlate : 3 <= k ->
                  Forall (fun u => allocates u = false)
                    (updatesOf (skipn k (trace (processFile env
                                                             uploadedFile))))).
  { intros Hk.
    apply late_updates_do_not_allocate, updatesOf_late, processFile_late, Hk. }
  assert (Hstay : forall us j s,
             Forall (fun u => allocates u = false) us ->
             nth_error (snapshots us initialState) j = Some s ->
             ProcessingState.results s = []
             /\ ProcessingState.totalPages s = 0).
  { intros us j s Hus Hs.
    apply snapshots_nth_inv in Hs. destruct Hs as [_ ->].
    apply unallocated_stays_empty; auto. now apply Forall_firstn_of. }
  rewrite updatesOf_resetDuring.
  set (before := updatesOf (firstn k (trace (processFile env uploadedFile)))).
  set (late := updatesOf (skipn k (trace (processFile env uploadedFile)))).
  split; [|split; [exact Hlate|split; [exact Hstay|split]]].
  - exists initialState. split; [|repeat split].
    rewrite snapshots_nth by (rewrite length_app; simpl; lia).
    rewrite run_through_reset by lia.
    replace (S (length before) - S (length before)) with 0 by lia.
    reflexivity.
  - intros Hk j s Hj Hs.
    apply snapshots_nth_inv in Hs. destruct Hs as [_ ->].
    rewrite run_through_reset by lia.
    apply unallocated_stays_empty; auto.
    apply Forall_firstn_of, Hlate, Hk.
  - intros s count i t Hi.
    rewrite pageAt_MarkCompleted, pageAt_MarkFailed, Nat.eqb_refl.
    rewrite (pageAt_Allocate env uploadedFile count i s).
    unfold expectedPage.
    replace ((1 <=? i) && (i <=? count)) with true
      by (symmetry; apply andb_true_iff; split; apply Nat.leb_le; lia).
    replace (i <? 1) with false by (symmetry; apply Nat.ltb_ge; lia).
    split; reflexivity.
Qed.

Lemma reset_then_late_steps_witness :
  3 <= 6
  /\ ProcessingState.results
       (run (firstn 5 (updatesOf
                         (resetDuring 6 (trace (processFile Samples.onePage
                                                            "scan.pdf")))))
            initialState) = []
  /\ ProcessingState.totalPages
       (run (firstn 5 (updatesOf
                         (resetDuring 6 (trace (processFile Samples.onePage
                                                            "scan.pdf")))))
            initialState) = 0
  /\ pageAt (applyUpdate (MarkCompleted 2 "late text")
               (applyUpdate (Allocate 3) initialState)) 2
     = Some {| PageExtraction.pageNumber := 2;
               PageExtraction.content := "late text";
               PageExtraction.status := PageExtraction.completed;
               PageExtraction.imageUrl := None |}.
Proof.
  split; [lia|].
  destruct (reset_then_late_steps Samples.onePage "scan.pdf" initialState 6)
    as (_ & _ & _ & Hlate & Hnext).
  split; [|split].
  - apply (Hlate ltac:(lia) 5); [vm_compute; lia|vm_compute; reflexivity].
  - apply (Hlate ltac:(lia) 5); [vm_compute; lia|vm_compute; reflexivity].
  - apply (Hnext initialState 3 2 "late text"). lia.
Defined.

(** C1 fails as stated: a one-page document, [reset()] while the run is
    suspended on the extraction-quality rendering of page 1.  The reset
    yields the idle state; the abandoned run then resolves, its completion
    step is applied to the new state, and the status is completed. *)
Lemma reset_does_not_isolate :
  nth_error (trace (processFile Samples.onePage "scan.pdf")) 5
    = Some (Await (call_getPageAsImage "scan.pdf" 1))
  /\ nth_error
       (snapshots
          (updatesOf
             (resetDuring 6 (trace (processFile Samples.onePage "scan.pdf"))))
          initialState) 4
     = Some initialState
  /\ updatesOf (skipn 6 (trace (processFile Samples.onePage "scan.pdf")))
     = [MarkCompleted 1 "text of jpeg-1"; SetCompleted]
  /\ run (updatesOf
            (resetDuring 6 (trace (processFile Samples.onePage "scan.pdf"))))
         initialState
     = {| ProcessingState.status := ProcessingState.completed;
          ProcessingState.totalPages := 0;
          ProcessingState.currentPage := 0;
          ProcessingState.results := [];
          ProcessingState.errorMessage := None |}
  /\ run (updatesOf
            (resetDuring 6 (trace (processFile Samples.onePage "scan.pdf"))))
         initialState
     <> initialState.
Proof.
  repeat split; try (vm_compute; reflexivity).
  vm_compute. discriminate.
Qed.

(** ** How a run with a known page count ends *)

Section Endings.

Variable env : Collaborators.
Variable uploadedFile : File.
Variable count : nat.
Hypothesis counted : getPageCount env uploadedFile = Returned count.

Lemma in_trace_counted (ev : Event) :
  In ev (trace (processFile env uploadedFile)) <->
  In ev [SetState SetLoading; Await (call_getPageCount uploadedFile);
         SetState (Allocate count)]
  \/ In ev (fst (forLoop count 1 (pageBody env uploadedFile)))
  \/ ev = SetState (lastUpdate
                      (snd (forLoop count 1 (pageBody env uploadedFile)))).
Proof.
  unfold trace.
  rewrite (processFile_trace_counted env uploadedFile count counted).
  rewrite !in_app_iff. simpl. intuition congruence.
Qed.

(** Events about a page, and page updates, come from the loop. *)
Lemma in_loop_of_page (ev : Event) (j : nat) :
  In ev (trace (processFile env uploadedFile)) ->
  eventPage ev = Some j ->
  In ev (fst (forLoop count 1 (pageBody env uploadedFile))).
Proof.
  intros Hin Hev. apply in_trace_counted in Hin.
  destruct Hin as [Hin|[Hin| ->]]; auto.
  - simpl in Hin. destruct Hin as [<-|[<-|[<-|[]]]]; discriminate.
  - destruct (snd (forLoop count 1 (pageBody env uploadedFile)));
      discriminate.
Qed.

Lemma ends_completed (s0 : State) :
  (forall j, 1 <= j <= count -> previewUrl env uploadedFile j <> None) ->
  ProcessingState.status (run (updates (processFile env uploadedFile)) s0)
    = ProcessingState.completed
  /\ forall j,
       pageAt (run (updates (processFile env uploadedFile)) s0) j
         = expectedPage env uploadedFile count (S count) j.
Proof.
  intros Hall.
  destruct (run_counted env uploadedFile count s0 counted)
    as (_ & m & Hm & (Hpages & _) & Hok & [(Heq & Hst)|(Hlt & Hnone & _)]).
  - subst m. split; [exact Hst|]. exact Hpages.
  - exfalso. apply (Hall (1 + m)); [lia|exact Hnone].
Qed.

Lemma ends_error (s0 : State) (i : nat) :
  1 <= i <= count ->
  (forall j, 1 <= j < i -> previewUrl env uploadedFile j <> None) ->
  previewUrl env uploadedFile i = None ->
  ProcessingState.status (run (updates (processFile env uploadedFile)) s0)
    = ProcessingState.error
  /\ ProcessingState.errorMessage
       (run (updates (processFile env uploadedFile)) s0)
     = Some fatalMessage
  /\ forall j,
       pageAt (run (updates (processFile env uploadedFile)) s0) j
         = expectedPage env uploadedFile count i j.
Proof.
  intros Hi Hbefore Hnone.
  destruct (run_counted env uploadedFile count s0 counted)
    as (_ & m & Hm & (Hpages & _) & Hok
        & [(Heq & Hst)|(Hlt & Hnone' & Hst & Hmsg)]).
  - subst m. exfalso. apply (Hok i); [lia|exact Hnone].
  - assert (1 + m = i) as <-.
    { destruct (Nat.lt_trichotomy (1 + m) i) as [H|[H|H]]; auto.
      - exfalso. apply (Hbefore (1 + m)); [lia|exact Hnone'].
      - exfalso. apply (Hok i); [lia|exact Hnone]. }
    auto.
Qed.

End Endings.

(** C2, as the code has it.  For a page [i] the loop reaches: if the preview
    rendering of page [i] fails the run is over: status error with the
    user-facing message, page [i] still pending, nothing about a later page
    in the trace and no per-page error recorded for page [i].  If instead
    the extraction-quality rendering of page [i] fails, page [i] is recorded
    as a per-page error and the loop goes on with page [i+1]; with all
    previews rendered the run ends completed. *)
Theorem render_failures (env : Collaborators) (uploadedFile : File)
    (s0 : State) (count i : nat) (e : exn) :
  getPageCount env uploadedFile = Returned count ->
  1 <= i <= count ->
  (forall j, 1 <= j < i -> previewUrl env uploadedFile j <> None) ->
  (getPageAsDataUrl env uploadedFile i = Thrown e ->
   ProcessingState.status (run (updates (processFile env uploadedFile)) s0)
     = ProcessingState.error
   /\ ProcessingState.errorMessage
        (run (updates (processFile env uploadedFile)) s0)
      = Some fatalMessage
   /\ pageAt (run (updates (processFile env uploadedFile)) s0) i
      = Some (pendingPage i)
   /\ (forall ev j,
         In ev (trace (processFile env uploadedFile)) ->
         eventPage ev = Some j -> j <= i)
   /\ ~ In (SetState (MarkFailed i)) (trace (processFile env uploadedFile)))
  /\ (forall url,
        getPageAsDataUrl env uploadedFile i = Returned url ->
        getPageAsImage env uploadedFile i = Thrown e ->
        In (SetState (MarkFailed i)) (trace (processFile env uploadedFile))
        /\ (i < count ->
            In (Await (call_getPageAsDataUrl uploadedFile (S i)))
               (trace (processFile env uploadedFile)))
        /\ ((forall j, i < j <= count ->
                       previewUrl env uploadedFile j <> None) ->
            ProcessingState.status
              (run (updates (processFile env uploadedFile)) s0)
              = ProcessingState.completed
            /\ pageAt (run (updates (processFile env uploadedFile)) s0) i
               = Some {| PageExtraction.pageNumber := i;
                         PageExtraction.content := failureText;
                         PageExtraction.status := PageExtraction.error;
                         PageExtraction.imageUrl := Some url |})).
Proof.
  intros Hcount Hi Hbefore.
  pose proof (forLoop_loopTrace env uploadedFile count 1) as Hloop.
  split.
  - intros Hprev.
    assert (Hnone : previewUrl env uploadedFile i = None)
      by (unfold previewUrl; now rewrite Hprev).
    destruct (ends_error env uploadedFile count Hcount s0 i Hi Hbefore Hnone)
      as (Hst & Hmsg & Hpages).
    split; [exact Hst|]. split; [exact Hmsg|]. split; [|split].
    + rewrite Hpages. now apply expectedPage_pending.
    + intros ev j Hin Hev.
      pose proof (in_loop_of_page env uploadedFile count Hcount ev j Hin Hev)
        as Hin'.
      destruct (loopTrace_reached _ _ _ _ _ _ Hloop ev j Hin' Hev)
        as (_ & Hreach & _).
      destruct (Nat.le_gt_cases j i) as [H|H]; auto.
      exfalso. apply (Hreach i); [lia|exact Hnone].
    + intros Hin.
      pose proof (in_loop_of_page env uploadedFile count Hcount _ i Hin
                    eq_refl) as Hin'.
      destruct (loopTrace_reached _ _ _ _ _ _ Hloop _ i Hin' eq_refl)
        as (_ & _ & Hshown).
      apply Hshown; [discriminate|exact Hnone].
  - intros url Hurl Himage.
    assert (Hres : pageResult env uploadedFile i = MarkFailed i)
      by (unfold pageResult; now rewrite Himage).
    assert (Hsome : previewUrl env uploadedFile i = Some url)
      by (unfold previewUrl; now rewrite Hurl).
    split; [|split].
    + destruct (loopTrace_visits _ _ _ _ _ _ Hloop i) as (_ & Hvisit);
        [lia|intros j Hj; apply Hbefore; lia|].
      destruct (Hvisit url Hurl) as [_ Hin]. rewrite Hres in Hin.
      apply (in_trace_counted env uploadedFile count Hcount). auto.
    + intros Hlt.
      destruct (loopTrace_visits _ _ _ _ _ _ Hloop (S i)) as (Hin & _);
        [lia| |].
      * intros j Hj. destruct (Nat.eq_dec j i) as [->|Hne].
        -- congruence.
        -- apply Hbefore. lia.
      * apply (in_trace_counted env uploadedFile count Hcount). auto.
    + intros Hafter.
      destruct (ends_completed env uploadedFile count Hcount s0)
        as (Hst & Hpages).
      * intros j Hj. destruct (Nat.lt_trichotomy j i) as [H|[->|H]].
        -- apply Hbefore. lia.
        -- congruence.
        -- apply Hafter. lia.
      * split; [exact Hst|].
        rewrite Hpages, expectedPage_finished by lia.
        unfold finishedPage. now rewrite Hres, Hsome.
Qed.

Lemma render_failures_witness :
  (getPageCount Samples.secondPreviewFails "scan.pdf" = Returned 3
   /\ getPageAsDataUrl Samples.secondPreviewFails "scan.pdf" 2
      = Thrown (Error "Could not create canvas context")
   /\ ProcessingState.status
        (run (updates (processFile Samples.secondPreviewFails "scan.pdf"))
             initialState)
      = ProcessingState.error
   /\ pageAt (run (updates (processFile Samples.secondPreviewFails "scan.pdf"))
                  initialState) 2
      = Some (pendingPage 2))
  /\ (getPageCount Samples.firstImageFails "scan.pdf" = Returned 2
      /\ getPageAsImage Samples.firstImageFails "scan.pdf" 1
         = Thrown (Error "Could not create canvas context")
      /\ In (SetState (MarkFailed 1))
            (trace (processFile Samples.firstImageFails "scan.pdf"))
      /\ In (Await (call_getPageAsDataUrl "scan.pdf" 2))
            (trace (processFile Samples.firstImageFails "scan.pdf"))).
Proof.
  split.
  - split; [reflexivity|]. split; [reflexivity|].
    destruct (render_failures Samples.secondPreviewFails "scan.pdf"
                initialState 3 2 (Error "Could not create canvas context")
                eq_refl) as [H _].
    + lia.
    + intros j Hj. assert (j = 1) by lia. subst j. discriminate.
    + destruct (H eq_refl) as (H1 & _ & H3 & _). exact (conj H1 H3).
  - split; [reflexivity|]. split; [reflexivity|].
    destruct (render_failures Samples.firstImageFails "scan.pdf"
                initialState 2 1 (Error "Could not create canvas context")
                eq_refl) as [_ H].
    + lia.
    + intros j Hj. lia.
    + destruct (H (Samples.previewOf 1) eq_refl eq_refl) as (H1 & H2 & _).
      split; [exact H1|]. apply H2. lia.
Defined.

(** C2 fails as stated: a two-page document whose extraction-quality
    rendering of page 1 fails.  The failure is recorded on page 1 as a
    per-page error, page 2 is rendered and extracted, and the run ends
    completed, not error. *)
Lemma image_failure_is_not_fatal :
  getPageAsImage Samples.firstImageFails "scan.pdf" 1
    = Thrown (Error "Could not create canvas context")
  /\ firstn 9 (trace (processFile Samples.firstImageFails "scan.pdf"))
     = [SetState SetLoading; Await (call_getPageCount "scan.pdf");
        SetState (Allocate 2);
        Await (call_getPageAsDataUrl "scan.pdf" 1);
        SetState (MarkProcessing 1 (Samples.previewOf 1));
        Await (call_getPageAsImage "scan.pdf" 1);
        SetState (MarkFailed 1);
        Await (call_getPageAsDataUrl "scan.pdf" 2);
        SetState (MarkProcessing 2 (Samples.previewOf 2))]
  /\ run (updates (processFile Samples.firstImageFails "scan.pdf"))
         initialState
     = {| ProcessingState.status := ProcessingState.completed;
          ProcessingState.totalPages := 2;
          ProcessingState.currentPage := 2;
          ProcessingState.results :=
            [{| PageExtraction.pageNumber := 1;
                PageExtraction.content := "Failed to extract content.";
                PageExtraction.status := PageExtraction.error;
                PageExtraction.imageUrl := Some (Samples.previewOf 1) |};
             {| PageExtraction.pageNumber := 2;
                PageExtraction.content := "text of jpeg-2";
                PageExtraction.status := PageExtraction.completed;
                PageExtraction.imageUrl := Some (Samples.previewOf 2) |}];
          ProcessingState.errorMessage := None |}.
Proof.
  repeat split; vm_compute; reflexivity.
Qed.

(** C3. For a page [i] the loop reaches, whose extraction-quality image is
    rendered and whose extraction call throws: the failure is written on
    page [i] and the loop goes on to the preview of page [i+1]; and when no
    later preview is rejected the run ends with status completed, page [i]
    holding the text "Failed to extract content." with status error, and
    every page in a terminal status, whatever the other extractions did. *)
Theorem extraction_failure_is_local (env : Collaborators) (uploadedFile : File)
    (s0 : State) (count i : nat) (url base64Image : string) (e : exn) :
  getPageCount env uploadedFile = Returned count ->
  1 <= i <= count ->
  (forall j, 1 <= j < i -> previewUrl env uploadedFile j <> None) ->
  getPageAsDataUrl env uploadedFile i = Returned url ->
  getPageAsImage env uploadedFile i = Returned base64Image ->
  snd (extractContentFromPage env base64Image) = Thrown e ->
  In (SetState (MarkFailed i)) (trace (processFile env uploadedFile))
  /\ (i < count ->
      In (Await (call_getPageAsDataUrl uploadedFile (S i)))
         (trace (processFile env uploadedFile)))
  /\ ((forall j, i < j <= count -> previewUrl env uploadedFile j <> None) ->
      ProcessingState.status
        (run (updates (processFile env uploadedFile)) s0)
        = ProcessingState.completed
      /\ pageAt (run (updates (processFile env uploadedFile)) s0) i
         = Some {| PageExtraction.pageNumber := i;
                   PageExtraction.content := "Failed to extract content.";
                   PageExtraction.status := PageExtraction.error;
                   PageExtraction.imageUrl := Some url |}
      /\ (forall j, 1 <= j <= count ->
            exists r,
              pageAt (run (updates (processFile env uploadedFile)) s0) j
                = Some r
              /\ PageExtraction.isTerminal r = true)).
Proof.
  intros Hcount Hi Hbefore Hurl Himage Hthrown.
  pose proof (forLoop_loopTrace env uploadedFile count 1) as Hloop.
  assert (Hres : pageResult env uploadedFile i = MarkFailed i)
    by (unfold pageResult; now rewrite Himage, Hthrown).
  assert (Hsome : previewUrl env uploadedFile i = Some url)
    by (unfold previewUrl; now rewrite Hurl).
  split; [|split].
  - destruct (loopTrace_visits _ _ _ _ _ _ Hloop i) as (_ & Hvisit);
      [lia|intros j Hj; apply Hbefore; lia|].
    destruct (Hvisit url Hurl) as [_ Hin]. rewrite Hres in Hin.
    apply (in_trace_counted env uploadedFile count Hcount). auto.
  - intros Hlt.
    destruct (loopTrace_visits _ _ _ _ _ _ Hloop (S i)) as (Hin & _);
      [lia| |].
    + intros j Hj. destruct (Nat.eq_dec j i) as [->|Hne].
      * congruence.
      * apply Hbefore. lia.
    + apply (in_trace_counted env uploadedFile count Hcount). auto.
  - intros Hafter.
    destruct (ends_completed env uploadedFile count Hcount s0)
      as (Hst & Hpages).
    { intros j Hj. destruct (Nat.lt_trichotomy j i) as [H|[->|H]].
      - apply Hbefore. lia.
      - congruence.
      - apply Hafter. lia. }
    split; [exact Hst|]. split.
    + rewrite Hpages, expectedPage_finished by lia.
      unfold finishedPage. now rewrite Hres, Hsome.
    + intros j Hj. exists (finishedPage env uploadedFile j).
      split; [rewrite Hpages; now apply expectedPage_finished|].
      unfold finishedPage.
      now destruct (pageResult env uploadedFile j).
Qed.

Lemma extraction_failure_is_local_witness :
  getPageCount Samples.secondExtractionFails "scan.pdf" = Returned 3
  /\ snd (extractContentFromPage Samples.secondExtractionFails
            (Samples.imageOf 2)) = Thrown (Rejection "503")
  /\ In (Await (call_getPageAsDataUrl "scan.pdf" 3))
        (trace (processFile Samples.secondExtractionFails "scan.pdf"))
  /\ ProcessingState.status
       (run (updates (processFile Samples.secondExtractionFails "scan.pdf"))
            initialState)
     = ProcessingState.completed
  /\ pageAt (run (updates (processFile Samples.secondExtractionFails
                                       "scan.pdf")) initialState) 2
     = Some {| PageExtraction.pageNumber := 2;
               PageExtraction.content := "Failed to extract content.";
               PageExtraction.status := PageExtraction.error;
               PageExtraction.imageUrl := Some (Samples.previewOf 2) |}.
Proof.
  split; [reflexivity|]. split; [reflexivity|].
  destruct (extraction_failure_is_local Samples.secondExtractionFails
              "scan.pdf" initialState 3 2 (Samples.previewOf 2)
              (Samples.imageOf 2) (Rejection "503") eq_refl)
    as (_ & H2 & H3); try reflexivity.
  - lia.
  - intros j Hj. assert (j = 1) by lia. subst j. discriminate.
  - destruct H3 as (H4 & H5 & _).
    + intros j Hj. assert (j = 3) by lia. subst j. discriminate.
    + split; [apply H2; lia|]. exact (conj H4 H5).
Defined.

(** ** The combined transcript *)

Lemma mapPage_numbers (i : nat) (g : Page -> Page) (rs : list Page) :
  (forall r, PageExtraction.pageNumber (g r) = PageExtraction.pageNumber r) ->
  map PageExtraction.pageNumber (mapPage i g rs)
    = map PageExtraction.pageNumber rs.
Proof.
  intros Hg. unfold mapPage. rewrite map_map. apply map_ext.
  intros r. destruct (PageExtraction.pageNumber r =? i); auto.
Qed.

Lemma skeleton_numbers (count : nat) :
  map PageExtraction.pageNumber (skeleton count) = seq 1 count.
Proof.
  unfold skeleton. rewrite map_map. simpl.
  rewrite <- seq_shift. apply map_ext. intros i. lia.
Qed.

Lemma numbered_applyUpdate (u : Update) (s : State) :
  numbered s -> numbered (applyUpdate u s).
Proof.
  unfold numbered. destruct u; simpl; auto; intros H;
    try (rewrite mapPage_numbers; auto).
  apply skeleton_numbers.
Qed.

Lemma numbered_run (us : list Update) (s : State) :
  numbered s -> numbered (run us s).
Proof.
  revert s. induction us as [|u us IH]; intros s H; auto.
  apply (IH (applyUpdate u s)). now apply numbered_applyUpdate.
Qed.

Lemma find_skip (f : Page -> bool) (pre l : list Page) :
  (forall r, In r pre -> f r = false) ->
  find f (pre ++ l) = find f l.
Proof.
  induction pre as [|p pre IH]; intros H; simpl; auto.
  rewrite (H p) by now left. apply IH. intros r Hr. apply H. now right.
Qed.

(** Going through the page numbers of a numbered list finds its records in
    list order. *)
Lemma completed_in_page_order (l pre : list Page) (a : nat) :
  map PageExtraction.pageNumber l = seq a (length l) ->
  (forall r, In r pre -> PageExtraction.pageNumber r < a) ->
  flat_map
    (fun n =>
       completedText
         (find (fun r => PageExtraction.pageNumber r =? n) (pre ++ l)))
    (seq a (length l))
  = map PageExtraction.content (filter PageExtraction.isCompleted l).
Proof.
  revert pre a. induction l as [|r l IH]; intros pre a Hnum Hpre; auto.
  simpl in Hnum. injection Hnum as Hr Hl. subst a.
  cbn [length seq flat_map filter].
  rewrite find_skip.
  - simpl. rewrite Nat.eqb_refl. simpl.
    replace (pre ++ r :: l) with ((pre ++ [r]) ++ l)
      by now rewrite <- app_assoc.
    rewrite IH.
    + now destruct (PageExtraction.isCompleted r).
    + exact Hl.
    + intros x Hx. apply in_app_or in Hx. destruct Hx as [Hx|[<-|[]]].
      * apply Hpre in Hx. lia.
      * lia.
  - intros x Hx. apply Hpre in Hx. apply Nat.eqb_neq. lia.
Qed.

Lemma combinedContent_numbered (s : State) :
  numbered s -> combinedContent s = transcriptSpec s.
Proof.
  unfold numbered, combinedContent, transcriptSpec, pageAt. intros Hnum.
  assert (Hlen : ProcessingState.totalPages s
                 = length (ProcessingState.results s)).
  { apply (f_equal (@length nat)) in Hnum.
    now rewrite length_map, length_seq in Hnum. }
  rewrite Hlen in *.
  now rewrite <- (completed_in_page_order (ProcessingState.results s) [] 1 Hnum)
    by (intros r []).
Qed.

(** C4. In every state the pipeline can publish (the idle state followed by
    any sequence of the state updates of [processFile] and [reset]), the
    combined transcript computed by the code is the text obtained by going
    through the page numbers 1..totalPages in increasing order, taking the
    content of each page whose status is completed and of no other page,
    and joining these contents with a blank line. *)
Theorem combinedContent_is_transcript (us : list Update) :
  combinedContent (run us initialState) = transcriptSpec (run us initialState).
Proof.
  apply combinedContent_numbered, numbered_run. reflexivity.
Qed.

(** ** Text that ends up in the transcript *)

Lemma append_empty_r (s : string) : String.append s "" = s.
Proof. induction s as [|c s IH]; simpl; congruence. Qed.

Lemma append_associative (a b c : string) :
  String.append (String.append a b) c = String.append a (String.append b c).
Proof. induction a as [|x a IH]; simpl; congruence. Qed.

Lemma concat_occurs (sep x : string) (l : list string) :
  In x l -> occursIn x (String.concat sep l).
Proof.
  induction l as [|y l IH]; intros Hin; [destruct Hin|].
  destruct l as [|z l].
  - destruct Hin as [->|[]]. exists "", "". simpl.
    now rewrite append_empty_r.
  - change (String.concat sep (y :: z :: l))
      with (String.append y (String.append sep (String.concat sep (z :: l)))).
    destruct Hin as [->|Hin].
    + exists "", (String.append sep (String.concat sep (z :: l))).
      reflexivity.
    + destruct (IH Hin) as (before & after & ->).
      exists (String.append y (String.append sep before)), after.
      now rewrite !append_associative.
Qed.




(** ** The evaluation service *)

Lemma processAndEvaluate_keyed (env : Collaborators)
    (studentScript answerKey : Payload) (key : string) :
  API_KEY env = Some key ->
  processAndEvaluate env studentScript answerKey
  = ([Await (call_generateContent (evaluationRequest studentScript answerKey))],
     match generateContent env (API_KEY env)
                           (evaluationRequest studentScript answerKey) with
     | Returned response =>
         match JSON_parse env (orElse (text response) "{}") with
         | Some result => Returned result
         | None => Thrown (Error parseFailureMessage)
         end
     | Thrown e => Thrown e
     end).
Proof.
  intros Hkey.
  unfold processAndEvaluate, try_catch, bind, await. rewrite Hkey.
  cbn [fst snd newGoogleGenAI app].
  destruct (generateContent env (Some key)
              (evaluationRequest studentScript answerKey))
    as [response|e]; cbn [fst snd]; auto.
  destruct (JSON_parse env (orElse (text response) "{}")); reflexivity.
Qed.

Lemma processAndEvaluate_keyless (env : Collaborators)
    (studentScript answerKey : Payload) :
  API_KEY env = None ->
  processAndEvaluate env studentScript answerKey
  = ([], Thrown (Error "An API Key must be set when running in a browser")).
Proof.
  intros Hkey. unfold processAndEvaluate, bind. now rewrite Hkey.
Qed.




(** * Further properties of the code *)

(** ** How every run ends *)

Lemma onPage_keeps (u : Update) (s : State) (j : nat) :
  eventPage (SetState u) = Some j ->
  ProcessingState.status (applyUpdate u s) = ProcessingState.status s
  /\ ProcessingState.errorMessage (applyUpdate u s)
     = ProcessingState.errorMessage s
  /\ ProcessingState.totalPages (applyUpdate u s)
     = ProcessingState.totalPages s.
Proof. destruct u; simpl; try discriminate; auto. Qed.

Lemma loop_update_onPage (env : Collaborators) (uploadedFile : File)
    (n i : nat) (tr : list Event) (o : outcome unit) (u : Update) :
  loopTrace env uploadedFile n i tr o ->
  In (SetState u) tr ->
  exists j, eventPage (SetState u) = Some j.
Proof.
  intros Hloop Hin.
  destruct (loopTrace_updates env uploadedFile n i tr o Hloop u Hin)
    as [(j & url & ->)|(j & ->)].
  - now exists j.
  - exists j.
    destruct (pageResult_cases env uploadedFile j) as [(t & -> & _)| ->];
      reflexivity.
Qed.

Lemma run_onPage (us : list Update) (s : State) :
  Forall (fun u => exists j, eventPage (SetState u) = Some j) us ->
  ProcessingState.status (run us s) = ProcessingState.status s
  /\ ProcessingState.errorMessage (run us s) = ProcessingState.errorMessage s.
Proof.
  intros H. revert s. induction H as [|u us [j Hu] _ IH]; intros s; auto.
  change (run (u :: us) s) with (run us (applyUpdate u s)).
  destruct (IH (applyUpdate u s)) as [H1 H2].
  destruct (onPage_keeps u s j Hu) as (K1 & K2 & _).
  split; congruence.
Qed.

Lemma in_updatesOf (tr : list Event) (u : Update) :
  In u (updatesOf tr) <-> In (SetState u) tr.
Proof.
  induction tr as [|[c|v] tr IH]; simpl.
  - tauto.
  - rewrite IH. split; [auto|]. intros [H|H]; [discriminate|auto].
  - rewrite IH. split; intros [H|H]; auto; left; congruence.
Qed.

Lemma loop_keeps_status (env : Collaborators) (uploadedFile : File)
    (n i : nat) (s : State) :
  ProcessingState.status
    (run (updatesOf (fst (forLoop n i (pageBody env uploadedFile)))) s)
    = ProcessingState.status s
  /\ ProcessingState.errorMessage
       (run (updatesOf (fst (forLoop n i (pageBody env uploadedFile)))) s)
     = ProcessingState.errorMessage s.
Proof.
  apply run_onPage, Forall_forall. intros u Hu.
  apply in_updatesOf in Hu.
  eapply loop_update_onPage; [apply forLoop_loopTrace|exact Hu].
Qed.

(** X1. The promise of [processFile] never rejects, and every run ends either
    with status completed and no error message or with status error and the
    fixed user-facing message; it ends completed exactly when the page count
    is known and the preview of every page is rendered. *)
Theorem run_ends_terminal (env : Collaborators) (uploadedFile : File)
    (s0 : State) :
  snd (processFile env uploadedFile) = Returned tt
  /\ ((ProcessingState.status
         (run (updates (processFile env uploadedFile)) s0)
       = ProcessingState.completed
       /\ ProcessingState.errorMessage
            (run (updates (processFile env uploadedFile)) s0) = None)
      \/ (ProcessingState.status
            (run (updates (processFile env uploadedFile)) s0)
          = ProcessingState.error
          /\ ProcessingState.errorMessage
               (run (updates (processFile env uploadedFile)) s0)
             = Some fatalMessage))
  /\ (ProcessingState.status
        (run (updates (processFile env uploadedFile)) s0)
      = ProcessingState.completed
      <-> exists count,
            getPageCount env uploadedFile = Returned count
            /\ forall j, 1 <= j <= count ->
                         previewUrl env uploadedFile j <> None).
Proof.
  split; [apply processFile_returns|].
  destruct (getPageCount env uploadedFile) as [count|e] eqn:Hcount.
  - destruct (run_counted env uploadedFile count s0 Hcount)
      as (_ & m & Hm & _ & Hok & Hend).
    assert (Hmsg : ProcessingState.status
                     (run (updates (processFile env uploadedFile)) s0)
                   = ProcessingState.completed ->
                   ProcessingState.errorMessage
                     (run (updates (processFile env uploadedFile)) s0) = None).
    { rewrite (processFile_updates_counted env uploadedFile count Hcount).
      change (run (SetLoading :: Allocate count :: ?us) s0)
        with (run us (applyUpdate (Allocate count)
                        (applyUpdate SetLoading s0))).
      rewrite run_app.
      destruct (loop_keeps_status env uploadedFile count 1
                  (applyUpdate (Allocate count) (applyUpdate SetLoading s0)))
        as [_ Hkeep].
      destruct (snd (forLoop count 1 (pageBody env uploadedFile)));
        simpl; [|discriminate].
      intros _. exact Hkeep. }
    destruct Hend as [(-> & Hst)|(Hlt & Hnone & Hst & Hmsg')].
    + split; [left; auto|].
      split; [|auto]. intros _. exists count. split; auto.
      intros j Hj. apply Hok. lia.
    + split; [right; auto|].
      rewrite Hst. split; [discriminate|].
      intros (count' & Hc & Hall). inversion Hc. subst count'.
      exfalso. apply (Hall (1 + m)); [lia|exact Hnone].
  - rewrite (processFile_updates_uncounted env uploadedFile e Hcount). simpl.
    split; [right; auto|].
    split; [discriminate|]. intros (count & Hc & _). discriminate.
Qed.

(** X3. A document without pages: the run is the loading update, the page
    count query, the allocation and the completion, nothing else; whatever
    the state before, it ends completed with no page, [totalPages = 0] and
    [currentPage = 1], and the transcript shown is the placeholder. *)
Theorem empty_document (env : Collaborators) (uploadedFile : File)
    (s0 : State) :
  getPageCount env uploadedFile = Returned 0 ->
  processFile env uploadedFile
    = ([SetState SetLoading; Await (call_getPageCount uploadedFile);
        SetState (Allocate 0); SetState SetCompleted], Returned tt)
  /\ run (updates (processFile env uploadedFile)) s0
     = {| ProcessingState.status := ProcessingState.completed;
          ProcessingState.totalPages := 0;
          ProcessingState.currentPage := 1;
          ProcessingState.results := [];
          ProcessingState.errorMessage := None |}
  /\ shownTranscript (run (updates (processFile env uploadedFile)) s0)
     = "No text was extracted.".
Proof.
  intros Hcount.
  assert (Hrun : processFile env uploadedFile
                 = ([SetState SetLoading;
                     Await (call_getPageCount uploadedFile);
                     SetState (Allocate 0); SetState SetCompleted],
                    Returned tt)).
  { rewrite (surjective_pairing (processFile env uploadedFile)).
    now rewrite (processFile_trace_counted env uploadedFile 0 Hcount),
      processFile_returns. }
  split; [exact Hrun|]. unfold updates. rewrite Hrun. split; reflexivity.
Qed.

Lemma empty_document_witness :
  getPageCount (Samples.document (Returned 0) [] [] Samples.answerAll)
               "blank.pdf" = Returned 0
  /\ ProcessingState.currentPage
       (run (updates (processFile
                        (Samples.document (Returned 0) [] [] Samples.answerAll)
                        "blank.pdf"))
            (applyUpdate (Allocate 4) initialState)) = 1.
Proof.
  split; [reflexivity|].
  destruct (empty_document
              (Samples.document (Returned 0) [] [] Samples.answerAll)
              "blank.pdf" (applyUpdate (Allocate 4) initialState) eq_refl)
    as (_ & H & _).
  now rewrite H.
Defined.

(** X7. Once the page count is known, nothing of the state the run started
    from is left: from the allocation on, every published state is the same
    whatever the start state was. *)
Theorem allocation_forgets_start (env : Collaborators) (uploadedFile : File)
    (count k : nat) (s0 s0' : State) :
  getPageCount env uploadedFile = Returned count ->
  2 <= k ->
  nth_error (snapshots (updates (processFile env uploadedFile)) s0) k
  = nth_error (snapshots (updates (processFile env uploadedFile)) s0') k.
Proof.
  intros Hcount Hk.
  rewrite (processFile_updates_counted env uploadedFile count Hcount).
  destruct k as [|[|k]]; try lia. reflexivity.
Qed.

Lemma allocation_forgets_start_witness :
  getPageCount Samples.allGood "scan.pdf" = Returned 3
  /\ nth_error (snapshots (updates (processFile Samples.allGood "scan.pdf"))
                          initialState) 4
     = nth_error (snapshots (updates (processFile Samples.allGood "scan.pdf"))
                            (applyUpdate SetError
                               (applyUpdate (Allocate 7) initialState))) 4.
Proof.
  split; [reflexivity|].
  apply (allocation_forgets_start Samples.allGood "scan.pdf" 3 4);
    [reflexivity|lia].
Defined.

Lemma run_ends_terminal_witness :
  ProcessingState.status
    (run (updates (processFile Samples.secondPreviewFails "scan.pdf"))
         initialState)
  <> ProcessingState.completed.
Proof.
  intros H.
  apply (proj2 (proj2 (run_ends_terminal Samples.secondPreviewFails "scan.pdf"
                         initialState))) in H.
  destruct H as (count & Hc & Hall). inversion Hc. subst count.
  apply (Hall 2); [lia|reflexivity].
Defined.

(** ** The transcript of a whole run *)

Lemma flat_map_agree {A B : Type} (f g : A -> list B) (l : list A) :
  (forall a, In a l -> f a = g a) -> flat_map f l = flat_map g l.
Proof.
  induction l as [|a l IH]; intros H; simpl; auto.
  rewrite (H a) by now left. rewrite IH; auto.
  intros b Hb. apply H. now right.
Qed.

Lemma counted_run_numbered (env : Collaborators) (uploadedFile : File)
    (count : nat) (s0 : State) :
  getPageCount env uploadedFile = Returned count ->
  numbered (run (updates (processFile env uploadedFile)) s0)
  /\ ProcessingState.totalPages
       (run (updates (processFile env uploadedFile)) s0) = count.
Proof.
  intros Hcount.
  rewrite (processFile_updates_counted env uploadedFile count Hcount).
  change (run (SetLoading :: Allocate count :: ?us) s0)
    with (run us (applyUpdate (Allocate count) (applyUpdate SetLoading s0))).
  split.
  - apply numbered_run. apply skeleton_numbers.
  - match goal with
    | |- context [run ?us ?s] =>
        destruct (run_afterAllocation us s) as (H & _)
    end.
    + pose proof (processFile_late_counted env uploadedFile count) as Hlate.
      apply updatesOf_late in Hlate. now rewrite updatesOf_app in Hlate.
    + now rewrite H.
Qed.

Lemma completedText_finished (env : Collaborators) (uploadedFile : File)
    (j : nat) :
  completedText (Some (finishedPage env uploadedFile j))
  = extractedText env uploadedFile j.
Proof.
  unfold completedText, extractedText, finishedPage.
  now destruct (pageResult env uploadedFile j).
Qed.

(** X6. In a run in which no preview is rejected, the combined transcript of
    the final state is the texts of the pages whose extraction succeeded, in
    page order, joined by blank lines; a page whose extraction-quality
    rendering or backend call failed contributes nothing. *)
Theorem transcript_of_run (env : Collaborators) (uploadedFile : File)
    (count : nat) (s0 : State) :
  getPageCount env uploadedFile = Returned count ->
  (forall j, 1 <= j <= count -> previewUrl env uploadedFile j <> None) ->
  combinedContent (run (updates (processFile env uploadedFile)) s0)
  = String.concat blankLine
      (flat_map (extractedText env uploadedFile) (seq 1 count)).
Proof.
  intros Hcount Hall.
  destruct (counted_run_numbered env uploadedFile count s0 Hcount)
    as [Hnum Htotal].
  destruct (ends_completed env uploadedFile count Hcount s0 Hall)
    as [_ Hpages].
  rewrite (combinedContent_numbered _ Hnum).
  unfold transcriptSpec. rewrite Htotal. f_equal.
  apply flat_map_agree. intros j Hj. apply in_seq in Hj.
  rewrite Hpages, expectedPage_finished by lia.
  apply completedText_finished.
Qed.

Lemma transcript_of_run_witness :
  getPageCount Samples.secondExtractionFails "scan.pdf" = Returned 3
  /\ combinedContent
       (run (updates (processFile Samples.secondExtractionFails "scan.pdf"))
            initialState)
     = String.concat blankLine
         (flat_map (extractedText Samples.secondExtractionFails "scan.pdf")
                   (seq 1 3)).
Proof.
  split; [reflexivity|].
  apply (transcript_of_run Samples.secondExtractionFails "scan.pdf" 3
           initialState eq_refl).
  intros j Hj.
  assert (j = 1 \/ j = 2 \/ j = 3) as [->|[->| ->]] by lia; discriminate.
Defined.

Lemma occursIn_nonempty (needle s : string) :
  occursIn needle s -> needle <> "" -> s <> "".
Proof.
  intros (before & after & ->) Hne Hempty.
  destruct before; simpl in Hempty; [|discriminate].
  destruct needle; [now apply Hne|discriminate].
Qed.

Lemma concat_pieces_occur (sep x : string) (l : list string) :
  In x l -> x <> "" -> String.concat sep l <> "".
Proof.
  intros Hin Hne. eapply occursIn_nonempty; [|exact Hne].
  now apply concat_occurs.
Qed.

(** X8. What the result panel shows after a run in which no preview is
    rejected: the placeholder "No text was extracted." when no extraction
    succeeded, and otherwise the combined transcript itself, which then
    holds the text of every page whose extraction succeeded. *)
Theorem shown_transcript (env : Collaborators) (uploadedFile : File)
    (count : nat) (s0 : State) :
  getPageCount env uploadedFile = Returned count ->
  (forall j, 1 <= j <= count -> previewUrl env uploadedFile j <> None) ->
  ((forall j, 1 <= j <= count -> extractedText env uploadedFile j = []) ->
   shownTranscript (run (updates (processFile env uploadedFile)) s0)
   = "No text was extracted.")
  /\ (forall j t,
        1 <= j <= count ->
        extractedText env uploadedFile j = [t] ->
        shownTranscript (run (updates (processFile env uploadedFile)) s0)
        = combinedContent (run (updates (processFile env uploadedFile)) s0)
        /\ occursIn t
             (combinedContent
                (run (updates (processFile env uploadedFile)) s0))).
Proof.
  intros Hcount Hall. unfold shownTranscript.
  rewrite (transcript_of_run env uploadedFile count s0 Hcount Hall).
  split.
  - intros Hnone.
    rewrite (flat_map_agree (extractedText env uploadedFile) (fun _ => [])).
    + now replace (flat_map (fun _ : nat => @nil string) (seq 1 count))
        with (@nil string) by (induction (seq 1 count); auto).
    + intros j Hj. apply in_seq in Hj. apply Hnone. lia.
  - intros j t Hj Ht.
    assert (Hin : In t (flat_map (extractedText env uploadedFile)
                                 (seq 1 count))).
    { apply in_flat_map. exists j. split; [apply in_seq; lia|].
      rewrite Ht. now left. }
    assert (Hne : t <> "").
    { unfold extractedText in Ht.
      destruct (pageResult_cases env uploadedFile j) as [(t' & Hr & Hne)|Hr];
        rewrite Hr in Ht; [|discriminate].
      inversion Ht. now subst. }
    split; [|now apply concat_occurs].
    pose proof (concat_pieces_occur blankLine t _ Hin Hne) as Hfull.
    destruct (String.concat blankLine
                (flat_map (extractedText env uploadedFile) (seq 1 count)));
      [now elim Hfull|reflexivity].
Qed.

Lemma shown_transcript_witness :
  shownTranscript
    (run (updates (processFile
                     (Samples.document (Returned 2) [] []
                                       Samples.answerRejected) "scan.pdf"))
         initialState)
  = "No text was extracted.".
Proof.
  apply (shown_transcript
           (Samples.document (Returned 2) [] [] Samples.answerRejected)
           "scan.pdf" 2 initialState eq_refl).
  - intros j Hj. assert (j = 1 \/ j = 2) as [->| ->] by lia; discriminate.
  - intros j Hj. assert (j = 1 \/ j = 2) as [->| ->] by lia; reflexivity.
Defined.

(** ** The events of the loop, one by one *)

Section LoopEvents.

Variable env : Collaborators.
Variable uploadedFile : File.

Lemma extractPage_trace_exact (i : nat) :
  fst (extractPage env uploadedFile i)
  = Await (call_getPageAsImage uploadedFile i)
      :: match getPageAsImage env uploadedFile i with
         | Returned base64Image =>
             fst (extractContentFromPage env base64Image)
         | Thrown _ => []
         end
      ++ [SetState (pageResult env uploadedFile i)].
Proof.
  unfold extractPage, pageResult, try_catch, bind, await, setState. simpl.
  destruct (getPageAsImage env uploadedFile i) as [b|e]; simpl; auto.
  destruct (snd (extractContentFromPage env b)); simpl;
    now rewrite ?app_nil_r.
Qed.

Lemma pageBody_trace_exact (i : nat) :
  pageBody env uploadedFile i
  = match getPageAsDataUrl env uploadedFile i with
    | Returned url =>
        (Await (call_getPageAsDataUrl uploadedFile i)
           :: SetState (MarkProcessing i url)
           :: fst (extractPage env uploadedFile i), Returned tt)
    | Thrown e => ([Await (call_getPageAsDataUrl uploadedFile i)], Thrown e)
    end.
Proof.
  unfold pageBody, bind, await, setState. simpl.
  destruct (getPageAsDataUrl env uploadedFile i); simpl; auto.
  now rewrite extractPage_returns.
Qed.

Lemma forLoop_step (n i : nat) :
  forLoop (S n) i (pageBody env uploadedFile)
  = match getPageAsDataUrl env uploadedFile i with
    | Returned url =>
        (Await (call_getPageAsDataUrl uploadedFile i)
           :: SetState (MarkProcessing i url)
           :: fst (extractPage env uploadedFile i)
           ++ fst (forLoop n (S i) (pageBody env uploadedFile)),
         snd (forLoop n (S i) (pageBody env uploadedFile)))
    | Thrown e => ([Await (call_getPageAsDataUrl uploadedFile i)], Thrown e)
    end.
Proof.
  cbn [forLoop]. unfold bind at 1. rewrite pageBody_trace_exact.
  now destruct (getPageAsDataUrl env uploadedFile i).
Qed.

(** A property of events that holds of the four kinds of event of an
    iteration holds of every event of the loop. *)
Lemma forLoop_events (P : Event -> Prop) (n i : nat) :
  (forall j, P (Await (call_getPageAsDataUrl uploadedFile j))) ->
  (forall j, P (Await (call_getPageAsImage uploadedFile j))) ->
  (forall base64Image,
      Forall P (fst (extractContentFromPage env base64Image))) ->
  (forall u, P (SetState u)) ->
  Forall P (fst (forLoop n i (pageBody env uploadedFile))).
Proof.
  intros Hprev Himg Hext Hset. revert i.
  induction n as [|n IH]; intros i; [constructor|].
  rewrite forLoop_step.
  destruct (getPageAsDataUrl env uploadedFile i) as [url|e]; cbn [fst].
  - constructor; [apply Hprev|]. constructor; [apply Hset|].
    apply Forall_app. split; [|apply IH].
    rewrite extractPage_trace_exact.
    constructor; [apply Himg|]. apply Forall_app. split.
    + destruct (getPageAsImage env uploadedFile i); [apply Hext|constructor].
    + constructor; [apply Hset|constructor].
  - constructor; [apply Hprev|constructor].
Qed.

Lemma extractPage_requests (i : nat) :
  flat_map previewRequest (fst (extractPage env uploadedFile i)) = []
  /\ flat_map imageRequest (fst (extractPage env uploadedFile i)) = [i].
Proof.
  rewrite extractPage_trace_exact. cbn [flat_map previewRequest imageRequest].
  rewrite !flat_map_app. cbn [flat_map previewRequest imageRequest app].
  assert (H : forall tr : list Event,
             Forall (fun e => exists r, e = Await (call_generateContent r)) tr ->
             flat_map previewRequest tr = []
             /\ flat_map imageRequest tr = []).
  { induction 1 as [|e tr [r ->] _ [IH1 IH2]]; simpl; auto. }
  destruct (getPageAsImage env uploadedFile i) as [b|e].
  - destruct (H _ (extractContentFromPage_awaits env b)) as [-> ->].
    auto.
  - auto.
Qed.

(** The loop asks for the previews of consecutive pages, and for the
    extraction-quality image of exactly the pages whose preview came. *)
Lemma forLoop_requests (n i : nat) :
  exists m,
    m <= n
    /\ flat_map imageRequest (fst (forLoop n i (pageBody env uploadedFile)))
       = seq i m
    /\ ((m = n
         /\ flat_map previewRequest
              (fst (forLoop n i (pageBody env uploadedFile))) = seq i n
         /\ snd (forLoop n i (pageBody env uploadedFile)) = Returned tt)
        \/ (m < n
            /\ flat_map previewRequest
                 (fst (forLoop n i (pageBody env uploadedFile)))
               = seq i (S m)
            /\ previewUrl env uploadedFile (i + m) = None
            /\ exists e,
                 snd (forLoop n i (pageBody env uploadedFile)) = Thrown e)).
Proof.
  revert i. induction n as [|n IH]; intros i.
  - exists 0. split; [lia|]. split; [reflexivity|]. left. auto.
  - rewrite forLoop_step.
    destruct (getPageAsDataUrl env uploadedFile i) as [url|e] eqn:Hurl;
      cbn [fst snd].
    + destruct (IH (S i)) as (m & Hm & Himg & Hprev).
      destruct (extractPage_requests i) as [Hp Hi].
      exists (S m). split; [lia|].
      cbn [flat_map previewRequest imageRequest app].
      rewrite !flat_map_app, Hp, Hi, Himg. split; [reflexivity|].
      destruct Hprev as [(-> & Hpr & Ho)|(Hlt & Hpr & Hnone & Ho)];
        rewrite Hpr.
      * left. auto.
      * right. split; [lia|]. split; [reflexivity|].
        replace (i + S m) with (S i + m) by lia. auto.
    + exists 0. split; [lia|]. split; [reflexivity|]. right.
      split; [lia|]. split; [reflexivity|]. rewrite Nat.add_0_r.
      unfold previewUrl. rewrite Hurl. eauto.
Qed.

End LoopEvents.

(** X5. Pages are taken one at a time and in order: with [count] pages, the
    run asks for the extraction-quality image of the pages 1..m, each once
    and in this order, for some [m <= count]; if [m = count] it asked for
    the previews of exactly the pages 1..count, and otherwise for those of
    1..m+1, the preview of page m+1 being the one that was rejected. *)
Theorem pages_in_order (env : Collaborators) (uploadedFile : File)
    (count : nat) :
  getPageCount env uploadedFile = Returned count ->
  exists m,
    m <= count
    /\ flat_map imageRequest (trace (processFile env uploadedFile)) = seq 1 m
    /\ ((m = count
         /\ flat_map previewRequest (trace (processFile env uploadedFile))
            = seq 1 count)
        \/ (m < count
            /\ flat_map previewRequest (trace (processFile env uploadedFile))
               = seq 1 (S m)
            /\ previewUrl env uploadedFile (S m) = None)).
Proof.
  intros Hcount. unfold trace.
  rewrite (processFile_trace_counted env uploadedFile count Hcount).
  destruct (forLoop_requests env uploadedFile count 1)
    as (m & Hm & Himg & Hprev).
  exists m. split; [exact Hm|].
  rewrite !flat_map_app.
  assert (Hlast : forall o,
             flat_map imageRequest [SetState (lastUpdate o)] = []
             /\ flat_map previewRequest [SetState (lastUpdate o)] = [])
    by (intros [|]; auto).
  destruct (Hlast (snd (forLoop count 1 (pageBody env uploadedFile))))
    as [-> ->].
  cbn [flat_map imageRequest previewRequest app].
  rewrite !app_nil_r. split; [exact Himg|].
  destruct Hprev as [(-> & Hpr & _)|(Hlt & Hpr & Hnone & _)].
  - left. auto.
  - right. auto.
Qed.

Lemma pages_in_order_witness :
  getPageCount Samples.secondPreviewFails "scan.pdf" = Returned 3
  /\ exists m,
       m <= 3
       /\ flat_map imageRequest
            (trace (processFile Samples.secondPreviewFails "scan.pdf"))
          = seq 1 m
       /\ ((m = 3
            /\ flat_map previewRequest
                 (trace (processFile Samples.secondPreviewFails "scan.pdf"))
               = seq 1 3)
           \/ (m < 3
               /\ flat_map previewRequest
                    (trace (processFile Samples.secondPreviewFails "scan.pdf"))
                  = seq 1 (S m)
               /\ previewUrl Samples.secondPreviewFails "scan.pdf" (S m)
                  = None)).
Proof.
  split; [reflexivity|].
  exact (pages_in_order Samples.secondPreviewFails "scan.pdf" 3 eq_refl).
Defined.

(** ** Without an API key *)

Lemma keyless_extract (env : Collaborators) (base64Image : string) :
  API_KEY env = None \/ API_KEY env = Some "" ->
  extractContentFromPage env base64Image
  = ([], Thrown (Error "API Key is missing")).
Proof.
  unfold extractContentFromPage. intros [-> | ->]; reflexivity.
Qed.

(** X2. Without an API key (undefined or empty) [extractContentFromPage]
    throws "API Key is missing" before any backend call, so no run ever
    calls the backend; in a run in which no preview is rejected every page
    ends with status error and the failure text, the run still ends
    completed, and the result panel shows the placeholder. *)
Theorem missing_api_key (env : Collaborators) (uploadedFile : File)
    (s0 : State) :
  API_KEY env = None \/ API_KEY env = Some "" ->
  (forall base64Image,
      extractContentFromPage env base64Image
      = ([], Thrown (Error "API Key is missing")))
  /\ (forall e, In e (trace (processFile env uploadedFile)) ->
                isBackendCall e = false)
  /\ (forall count,
        getPageCount env uploadedFile = Returned count ->
        (forall j, 1 <= j <= count ->
                   previewUrl env uploadedFile j <> None) ->
        ProcessingState.status
          (run (updates (processFile env uploadedFile)) s0)
        = ProcessingState.completed
        /\ (forall j, 1 <= j <= count ->
              pageAt (run (updates (processFile env uploadedFile)) s0) j
              = Some {| PageExtraction.pageNumber := j;
                        PageExtraction.content := "Failed to extract content.";
                        PageExtraction.status := PageExtraction.error;
                        PageExtraction.imageUrl :=
                          previewUrl env uploadedFile j |})
        /\ shownTranscript (run (updates (processFile env uploadedFile)) s0)
           = "No text was extracted.").
Proof.
  intros Hkey.
  assert (Hres : forall j, pageResult env uploadedFile j = MarkFailed j).
  { intros j. unfold pageResult.
    destruct (getPageAsImage env uploadedFile j) as [b|e]; auto.
    now rewrite (keyless_extract env b Hkey). }
  split; [intros b; now apply keyless_extract|]. split.
  - intros e Hin. unfold trace in Hin.
    destruct (getPageCount env uploadedFile) as [count|err] eqn:Hcount.
    + rewrite (processFile_trace_counted env uploadedFile count Hcount) in Hin.
      apply in_app_or in Hin. destruct Hin as [Hin|Hin].
      * simpl in Hin. destruct Hin as [<-|[<-|[<-|[]]]]; reflexivity.
      * apply in_app_or in Hin. destruct Hin as [Hin|[<-|[]]].
        -- revert e Hin. apply Forall_forall.
           apply forLoop_events; try reflexivity.
           intros b. rewrite (keyless_extract env b Hkey). constructor.
        -- reflexivity.
    + rewrite (processFile_trace_uncounted env uploadedFile err Hcount) in Hin.
      simpl in Hin. destruct Hin as [<-|[<-|[<-|[]]]]; reflexivity.
  - intros count Hcount Hall.
    destruct (ends_completed env uploadedFile count Hcount s0 Hall)
      as [Hst Hpages].
    split; [exact Hst|]. split.
    + intros j Hj. rewrite Hpages, expectedPage_finished by lia.
      unfold finishedPage. now rewrite Hres.
    + apply (shown_transcript env uploadedFile count s0 Hcount Hall).
      intros j _. unfold extractedText. now rewrite Hres.
Qed.

Lemma missing_api_key_witness :
  API_KEY Fixtures.keyless = Some ""
  /\ ProcessingState.status
       (run (updates (processFile Fixtures.keyless "scan.pdf")) initialState)
     = ProcessingState.completed.
Proof.
  split; [reflexivity|].
  refine (proj1 (proj2 (proj2 (missing_api_key Fixtures.keyless "scan.pdf"
                                 initialState (or_intror eq_refl)))
                  3 eq_refl _)).
  intros j Hj.
  assert (j = 1 \/ j = 2 \/ j = 3) as [->|[->| ->]] by lia; discriminate.
Defined.

(** ** The progress figures *)

Lemma snapshots_snoc (P : State -> Prop) (us : list Update) (u : Update)
    (s : State) :
  Forall P (snapshots us s) ->
  P (applyUpdate u (run us s)) ->
  Forall P (snapshots (us ++ [u]) s).
Proof.
  revert s. induction us as [|v us IH]; intros s Hall Hlast.
  - simpl in *. inversion Hall. repeat constructor; auto.
  - cbn [app snapshots] in *. inversion Hall as [|x l Hs Hrest]. subst.
    constructor; [exact Hs|]. apply IH; auto.
Qed.

Lemma snapshots_final (us : list Update) (s : State) :
  In (run us s) (snapshots us s).
Proof.
  revert s. induction us as [|u us IH]; intros s; [now left|].
  right. apply (IH (applyUpdate u s)).
Qed.

Lemma loop_currentPage (env : Collaborators) (uploadedFile : File)
    (count n i : nat) (tr : list Event) (o : outcome unit) :
  loopTrace env uploadedFile n i tr o ->
  forall s,
    1 <= i -> i + n = S count ->
    1 <= ProcessingState.currentPage s <= count ->
    Forall (fun s' => 1 <= ProcessingState.currentPage s' <= count)
           (snapshots (updatesOf tr) s).
Proof.
  induction 1 as [i|n i e He|n i url aw tr o Hurl Haw Hloop IH];
    intros s Hi Hn Hs.
  - repeat constructor; lia.
  - repeat constructor; lia.
  - cbn [updatesOf]. rewrite updatesOf_app, (updatesOf_awaits i aw Haw).
    cbn [updatesOf app snapshots].
    constructor; [exact Hs|]. constructor; [simpl; lia|].
    apply IH; [lia|lia|].
    destruct (pageResult_cases env uploadedFile i) as [(t & -> & _)| ->];
      simpl; lia.
Qed.

Lemma counted_snapshot_total (env : Collaborators) (uploadedFile : File)
    (s0 : State) (count k : nat) (s : State) :
  getPageCount env uploadedFile = Returned count ->
  2 <= k ->
  nth_error (snapshots (updates (processFile env uploadedFile)) s0) k
    = Some s ->
  ProcessingState.totalPages s = count.
Proof.
  intros Hcount Hk Hs.
  apply snapshots_nth_inv in Hs. destruct Hs as [_ ->].
  rewrite (processFile_updates_counted env uploadedFile count Hcount).
  replace k with (2 + (k - 2)) by lia. cbn [firstn Nat.add].
  change (run (SetLoading :: Allocate count :: ?us) s0)
    with (run us (applyUpdate (Allocate count) (applyUpdate SetLoading s0))).
  match goal with
  | |- context [run ?us ?st] =>
      destruct (run_afterAllocation us st) as (H & _)
  end.
  - apply Forall_firstn_of.
    pose proof (processFile_late_counted env uploadedFile count) as Hlate.
    apply updatesOf_late in Hlate. now rewrite updatesOf_app in Hlate.
  - now rewrite H.
Qed.

(** X4. For a document with at least one page, in every published state
    from the allocation on the current page lies between 1 and the number of
    pages, so the progress shown, currentPage / totalPages, is at most 1. *)
Theorem currentPage_within_pages (env : Collaborators) (uploadedFile : File)
    (count k : nat) (s0 s : State) :
  getPageCount env uploadedFile = Returned count ->
  1 <= count ->
  2 <= k ->
  nth_error (snapshots (updates (processFile env uploadedFile)) s0) k
    = Some s ->
  1 <= ProcessingState.currentPage s <= ProcessingState.totalPages s
  /\ ProcessingState.totalPages s = count.
Proof.
  intros Hcount Hpos Hk Hs.
  rewrite (counted_snapshot_total env uploadedFile s0 count k s Hcount Hk Hs).
  split; [|reflexivity].
  rewrite (processFile_updates_counted env uploadedFile count Hcount) in Hs.
  destruct k as [|[|k]]; try lia.
  change (nth_error (snapshots (SetLoading :: Allocate count :: ?us) s0)
                    (S (S k)))
    with (nth_error (snapshots us (applyUpdate (Allocate count)
                                     (applyUpdate SetLoading s0))) k) in Hs.
  apply nth_error_In in Hs. revert s Hs. apply Forall_forall.
  apply snapshots_snoc.
  - eapply loop_currentPage; [apply forLoop_loopTrace|lia|lia|simpl; lia].
  - assert (H : Forall (fun s' => 1 <= ProcessingState.currentPage s' <= count)
                  (snapshots
                     (updatesOf (fst (forLoop count 1
                                        (pageBody env uploadedFile))))
                     (applyUpdate (Allocate count)
                        (applyUpdate SetLoading s0)))).
    { eapply loop_currentPage; [apply forLoop_loopTrace|lia|lia|simpl; lia]. }
    rewrite Forall_forall in H.
    match goal with
    | |- context [run ?us ?st] =>
        pose proof (H _ (snapshots_final us st)) as Hin
    end.
    now destruct (snd (forLoop count 1 (pageBody env uploadedFile))).
Qed.

Lemma currentPage_within_pages_witness :
  getPageCount Samples.allGood "scan.pdf" = Returned 3
  /\ 1 <= ProcessingState.currentPage
            (run (firstn 6 (updates (processFile Samples.allGood "scan.pdf")))
                 initialState)
       <= ProcessingState.totalPages
            (run (firstn 6 (updates (processFile Samples.allGood "scan.pdf")))
                 initialState).
Proof.
  split; [reflexivity|].
  apply (currentPage_within_pages Samples.allGood "scan.pdf" 3 6 initialState).
  - reflexivity.
  - lia.
  - lia.
  - vm_compute. reflexivity.
Defined.

(** ** The evaluation trigger *)

(** An evaluation, event by event. *)
Lemma handleEvaluate_trace (env : Collaborators) (b : Browser)
    (hooks : App.Hooks) (file answerKeyFile : File) :
  App.file hooks = Some file ->
  App.answerKeyFile hooks = Some answerKeyFile ->
  handleEvaluate env b hooks
  = ([Hook (setEvalLoading true); Hook (setEvalError None);
      AwaitRead file; AwaitRead answerKeyFile]
       ++ evaluationCalls env b file answerKeyFile
       ++ [Hook (verdict (evaluationOf env b file answerKeyFile));
           Hook (setEvalLoading false)],
     Returned tt).
Proof.
  intros Hf Hk. unfold handleEvaluate. rewrite Hf, Hk.
  unfold evaluationOf, evaluationCalls, hfinally, hcatch, hbind, hook,
    promiseAll2, lift.
  unfold toBase64. cbn [fst snd app].
  destruct (readAsDataURL b file) as [d1|];
    destruct (readAsDataURL b answerKeyFile) as [d2|];
    cbn [fst snd app]; try reflexivity.
  destruct (snd (processAndEvaluate env _ _)); cbn [fst snd app];
    now rewrite <- ?app_assoc.
Qed.

Lemma hooksOf_app (a c : list AppEvent) :
  hooksOf (a ++ c) = hooksOf a ++ hooksOf c.
Proof.
  induction a as [|[f|call|u] a IH]; simpl; auto. now rewrite IH.
Qed.

Lemma processAndEvaluate_awaits (env : Collaborators)
    (studentScript answerKey : Payload) :
  updatesOf (fst (processAndEvaluate env studentScript answerKey)) = [].
Proof.
  destruct (API_KEY env) as [key|] eqn:Hkey.
  - now rewrite (processAndEvaluate_keyed env _ _ key Hkey).
  - now rewrite (processAndEvaluate_keyless env _ _ Hkey).
Qed.

Lemma hooksOf_awaits (tr : list Event) :
  updatesOf tr = [] -> hooksOf (map liftEvent tr) = [].
Proof.
  induction tr as [|[c|u] tr IH]; simpl; auto. discriminate.
Qed.

Lemma hooksOf_evaluationCalls (env : Collaborators) (b : Browser)
    (file answerKeyFile : File) :
  hooksOf (evaluationCalls env b file answerKeyFile) = [].
Proof.
  unfold evaluationCalls.
  destruct (snd (toBase64 b file)); destruct (snd (toBase64 b answerKeyFile));
    try reflexivity.
  apply hooksOf_awaits, processAndEvaluate_awaits.
Qed.

Lemma handleEvaluate_hooks (env : Collaborators) (b : Browser)
    (hooks : App.Hooks) (file answerKeyFile : File) :
  App.file hooks = Some file ->
  App.answerKeyFile hooks = Some answerKeyFile ->
  hooksOf (fst (handleEvaluate env b hooks))
  = [setEvalLoading true; setEvalError None;
     verdict (evaluationOf env b file answerKeyFile);
     setEvalLoading false].
Proof.
  intros Hf Hk.
  rewrite (handleEvaluate_trace env b hooks file answerKeyFile Hf Hk).
  cbn [fst app hooksOf].
  now rewrite hooksOf_app, hooksOf_evaluationCalls.
Qed.

Lemma orElse_nonempty (s : option string) (fallback : string) :
  fallback <> "" -> orElse s fallback <> "".
Proof.
  intros Hne. destruct s as [[|c rest]|]; simpl; auto. discriminate.
Qed.

(** X9. Without a student file or without an answer key [handleEvaluate]
    does nothing at all: no read, no service call, no hook is set.  This is
    the case, in particular, right after [reset], whatever the hooks held
    before. *)
Theorem evaluation_needs_both_files (env : Collaborators) (b : Browser)
    (hooks : App.Hooks) :
  (App.file hooks = None \/ App.answerKeyFile hooks = None ->
   handleEvaluate env b hooks = ([], Returned tt))
  /\ handleEvaluate env b (after resetApp hooks) = ([], Returned tt)
  /\ after resetApp hooks = initialHooks.
Proof.
  split; [|split; reflexivity].
  unfold handleEvaluate. intros [-> | ->]; [reflexivity|].
  now destruct (App.file hooks).
Qed.

Lemma evaluation_needs_both_files_witness :
  handleEvaluate Samples.grading (Fixtures.browser true [])
    {| App.state := initialState; App.file := Some "script.pdf";
       App.copied := false; App.answerKeyFile := None; App.report := None;
       App.evalLoading := false; App.evalError := None |}
  = ([], Returned tt).
Proof.
  apply (proj1 (evaluation_needs_both_files Samples.grading
                  (Fixtures.browser true []) _)).
  now right.
Defined.

(** X10. With both files chosen, [handleEvaluate] never rejects; its first
    hook update raises [evalLoading], its last one lowers it, and in between
    it sets nothing but [evalError] and [report]: whatever the reads and the
    service do, the spinner is on during the evaluation and off at the end,
    and the pipeline state, the chosen files and [copied] are untouched. *)
Theorem evaluation_settles (env : Collaborators) (b : Browser)
    (hooks : App.Hooks) (file answerKeyFile : File) :
  App.file hooks = Some file ->
  App.answerKeyFile hooks = Some answerKeyFile ->
  snd (handleEvaluate env b hooks) = Returned tt
  /\ (forall k,
        1 <= k <= 3 ->
        App.evalLoading
          (runHooks (firstn k (hooksOf (fst (handleEvaluate env b hooks))))
                    hooks) = true)
  /\ App.evalLoading (after (handleEvaluate env b hooks) hooks) = false
  /\ App.state (after (handleEvaluate env b hooks) hooks) = App.state hooks
  /\ App.file (after (handleEvaluate env b hooks) hooks) = Some file
  /\ App.answerKeyFile (after (handleEvaluate env b hooks) hooks)
     = Some answerKeyFile
  /\ App.copied (after (handleEvaluate env b hooks) hooks)
     = App.copied hooks.
Proof.
  intros Hf Hk. unfold after.
  rewrite (handleEvaluate_hooks env b hooks file answerKeyFile Hf Hk).
  rewrite (handleEvaluate_trace env b hooks file answerKeyFile Hf Hk).
  split; [reflexivity|]. split.
  - intros k Hk3.
    assert (k = 1 \/ k = 2 \/ k = 3) as [->|[->| ->]] by lia;
      cbn [firstn runHooks fold_left]; try reflexivity.
    destruct (evaluationOf env b file answerKeyFile); reflexivity.
  - cbn [runHooks fold_left].
    destruct (evaluationOf env b file answerKeyFile); simpl; auto.
Qed.

Lemma evaluation_settles_witness :
  App.evalLoading
    (after (handleEvaluate Samples.gradingDown (Fixtures.browser true [])
              (Fixtures.bothChosen None))
           (Fixtures.bothChosen None)) = false.
Proof.
  exact (proj1 (proj2 (proj2
           (evaluation_settles Samples.gradingDown (Fixtures.browser true [])
              (Fixtures.bothChosen None) "script.pdf" "key.png"
              eq_refl eq_refl)))).
Defined.

(** X11. What an evaluation leaves behind.  If both files are read and the
    service returns a value, that value is the new report and [evalError]
    is null.  Otherwise [evalError] holds a message that is not empty (the
    error's own message, or the fixed text when it has none) and the report
    is the one from before the call, stale or null. *)
Theorem evaluation_verdict (env : Collaborators) (b : Browser)
    (hooks : App.Hooks) (file answerKeyFile : File) :
  App.file hooks = Some file ->
  App.answerKeyFile hooks = Some answerKeyFile ->
  (forall evaluation,
      evaluationOf env b file answerKeyFile = Returned evaluation ->
      App.report (after (handleEvaluate env b hooks) hooks) = Some evaluation
      /\ App.evalError (after (handleEvaluate env b hooks) hooks) = None)
  /\ (forall e,
        evaluationOf env b file answerKeyFile = Thrown e ->
        App.report (after (handleEvaluate env b hooks) hooks)
        = App.report hooks
        /\ exists message,
             App.evalError (after (handleEvaluate env b hooks) hooks)
             = Some message
             /\ message <> ""
             /\ (forall m, messageOf e = Some m -> m <> "" -> message = m)
             /\ (messageOf e = None \/ messageOf e = Some "" ->
                 message = evaluationFailedMessage)).
Proof.
  intros Hf Hk. unfold after.
  rewrite (handleEvaluate_hooks env b hooks file answerKeyFile Hf Hk).
  split.
  - intros evaluation ->. split; reflexivity.
  - intros e ->. split; [reflexivity|].
    exists (orElse (messageOf e) evaluationFailedMessage).
    split; [reflexivity|]. split; [|split].
    + apply orElse_nonempty. discriminate.
    + intros m -> Hne. destruct m; [now elim Hne|reflexivity].
    + intros [-> | ->]; reflexivity.
Qed.

Lemma evaluation_verdict_witness :
  App.report
    (after (handleEvaluate Samples.grading (Fixtures.browser true [])
              (Fixtures.bothChosen None))
           (Fixtures.bothChosen None)) = Some Samples.sampleReport
  /\ App.report
       (after (handleEvaluate Samples.gradingDown (Fixtures.browser true [])
                 (Fixtures.bothChosen (Some Samples.sampleReport)))
              (Fixtures.bothChosen (Some Samples.sampleReport)))
     = Some Samples.sampleReport.
Proof.
  split.
  - exact (proj1 (proj1 (evaluation_verdict Samples.grading
                           (Fixtures.browser true [])
                           (Fixtures.bothChosen None) "script.pdf" "key.png"
                           eq_refl eq_refl)
                    Samples.sampleReport eq_refl)).
  - exact (proj1 (proj2 (evaluation_verdict Samples.gradingDown
                           (Fixtures.browser true [])
                           (Fixtures.bothChosen (Some Samples.sampleReport))
                           "script.pdf" "key.png" eq_refl eq_refl)
                    (Rejection "503") eq_refl)).
Defined.

(** X12. Both files are handed to a reader before either result is looked
    at.  If one of them cannot be read, the service is never called, and
    [evalError] becomes the fixed text "Evaluation failed. Please check your
    files and try again.", the reader's error event having no message. *)
Theorem unreadable_file_skips_service (env : Collaborators) (b : Browser)
    (hooks : App.Hooks) (file answerKeyFile : File) :
  App.file hooks = Some file ->
  App.answerKeyFile hooks = Some answerKeyFile ->
  readAsDataURL b file = None \/ readAsDataURL b answerKeyFile = None ->
  fst (handleEvaluate env b hooks)
  = [Hook (setEvalLoading true); Hook (setEvalError None);
     AwaitRead file; AwaitRead answerKeyFile;
     Hook (setEvalError (Some evaluationFailedMessage));
     Hook (setEvalLoading false)]
  /\ App.evalError (after (handleEvaluate env b hooks) hooks)
     = Some "Evaluation failed. Please check your files and try again."
  /\ App.report (after (handleEvaluate env b hooks) hooks) = App.report hooks.
Proof.
  intros Hf Hk Hbad.
  assert (Htrace :
            fst (handleEvaluate env b hooks)
            = [Hook (setEvalLoading true); Hook (setEvalError None);
               AwaitRead file; AwaitRead answerKeyFile;
               Hook (setEvalError (Some evaluationFailedMessage));
               Hook (setEvalLoading false)]).
  { rewrite (handleEvaluate_trace env b hooks file answerKeyFile Hf Hk).
    unfold evaluationCalls, evaluationOf, toBase64. cbn [fst snd].
    destruct Hbad as [-> | ->]; [reflexivity|].
    now destruct (readAsDataURL b file). }
  split; [exact Htrace|]. unfold after. rewrite Htrace. split; reflexivity.
Qed.

Lemma unreadable_file_skips_service_witness :
  readAsDataURL (Fixtures.browser true ["key.png"]) "key.png" = None
  /\ App.evalError
       (after (handleEvaluate Samples.grading
                 (Fixtures.browser true ["key.png"])
                 (Fixtures.bothChosen None))
              (Fixtures.bothChosen None))
     = Some "Evaluation failed. Please check your files and try again.".
Proof.
  split; [reflexivity|].
  exact (proj1 (proj2 (unreadable_file_skips_service Samples.grading
                         (Fixtures.browser true ["key.png"])
                         (Fixtures.bothChosen None) "script.pdf" "key.png"
                         eq_refl eq_refl (or_intror eq_refl)))).
Defined.

(** X13. Trying again: when an evaluation has failed and [handleEvaluate]
    is called again on the hooks it left, and this time both reads and the
    service succeed, the new value is the report, [evalError] is null again
    and [evalLoading] is false: the second attempt replaces the first. *)
Theorem evaluation_retry (first second : Collaborators) (b b' : Browser)
    (hooks : App.Hooks) (file answerKeyFile : File) (e : exn)
    (evaluation : json) :
  App.file hooks = Some file ->
  App.answerKeyFile hooks = Some answerKeyFile ->
  evaluationOf first b file answerKeyFile = Thrown e ->
  evaluationOf second b' file answerKeyFile = Returned evaluation ->
  App.evalError (after (handleEvaluate first b hooks) hooks) <> None
  /\ App.report
       (after (handleEvaluate second b'
                 (after (handleEvaluate first b hooks) hooks))
              (after (handleEvaluate first b hooks) hooks))
     = Some evaluation
  /\ App.evalError
       (after (handleEvaluate second b'
                 (after (handleEvaluate first b hooks) hooks))
              (after (handleEvaluate first b hooks) hooks))
     = None
  /\ App.evalLoading
       (after (handleEvaluate second b'
                 (after (handleEvaluate first b hooks) hooks))
              (after (handleEvaluate first b hooks) hooks))
     = false.
Proof.
  intros Hf Hk Hfirst Hsecond.
  set (mid := after (handleEvaluate first b hooks) hooks).
  assert (Hmid : mid
                 = runHooks [setEvalLoading true; setEvalError None;
                             verdict (Thrown e); setEvalLoading false] hooks).
  { unfold mid, after.
    now rewrite (handleEvaluate_hooks first b hooks file answerKeyFile Hf Hk),
      Hfirst. }
  assert (Hf' : App.file mid = Some file) by (now rewrite Hmid).
  assert (Hk' : App.answerKeyFile mid = Some answerKeyFile)
    by (now rewrite Hmid).
  split; [rewrite Hmid; discriminate|].
  unfold after.
  rewrite (handleEvaluate_hooks second b' mid file answerKeyFile Hf' Hk'),
    Hsecond.
  repeat split.
Qed.

Lemma evaluation_retry_witness :
  App.report
    (after (handleEvaluate Samples.grading (Fixtures.browser true [])
              (after (handleEvaluate Samples.gradingDown
                        (Fixtures.browser true [])
                        (Fixtures.bothChosen None))
                     (Fixtures.bothChosen None)))
           (after (handleEvaluate Samples.gradingDown
                     (Fixtures.browser true [])
                     (Fixtures.bothChosen None))
                  (Fixtures.bothChosen None)))
  = Some Samples.sampleReport.
Proof.
  exact (proj1 (proj2 (evaluation_retry Samples.gradingDown Samples.grading
                         (Fixtures.browser true []) (Fixtures.browser true [])
                         (Fixtures.bothChosen None) "script.pdf" "key.png"
                         (Rejection "503") Samples.sampleReport
                         eq_refl eq_refl eq_refl eq_refl))).
Defined.

(** X14. [reset] does not cancel an evaluation in flight.  When [reset]
    runs while [handleEvaluate] is suspended (on the reads or on the service
    call) and the evaluation then succeeds, its value is stored after the
    reset: the hooks end with no file and no answer key, the idle pipeline
    state, and a report. *)
Theorem reset_keeps_late_report (env : Collaborators) (b : Browser)
    (hooks : App.Hooks) (file answerKeyFile : File) (evaluation : json)
    (k : nat) :
  App.file hooks = Some file ->
  App.answerKeyFile hooks = Some answerKeyFile ->
  evaluationOf env b file answerKeyFile = Returned evaluation ->
  4 <= k <= 5 ->
  runHooks (hooksOf (resetAppDuring k (fst (handleEvaluate env b hooks)))) hooks
  = {| App.state := initialState; App.file := None; App.copied := false;
       App.answerKeyFile := None; App.report := Some evaluation;
       App.evalLoading := false; App.evalError := None |}.
Proof.
  intros Hf Hk Heval Hrange.
  rewrite (handleEvaluate_trace env b hooks file answerKeyFile Hf Hk).
  rewrite Heval. cbn [fst].
  assert (Hcalls : exists c,
             evaluationCalls env b file answerKeyFile = [AwaitCall c]).
  { unfold evaluationCalls. unfold evaluationOf in Heval.
    destruct (snd (toBase64 b file)); [|discriminate].
    destruct (snd (toBase64 b answerKeyFile)); [|discriminate].
    destruct (API_KEY env) as [key|] eqn:Hkey.
    - rewrite (processAndEvaluate_keyed env _ _ key Hkey).
      eexists. reflexivity.
    - rewrite (processAndEvaluate_keyless env _ _ Hkey) in Heval.
      discriminate. }
  destruct Hcalls as (c & ->).
  assert (k = 4 \/ k = 5) as [->| ->] by lia; reflexivity.
Qed.

Lemma reset_keeps_late_report_witness :
  App.report
    (runHooks
       (hooksOf (resetAppDuring 5
                   (fst (handleEvaluate Samples.grading
                           (Fixtures.browser true [])
                           (Fixtures.bothChosen None)))))
       (Fixtures.bothChosen None))
  = Some Samples.sampleReport.
Proof.
  rewrite (reset_keeps_late_report Samples.grading (Fixtures.browser true [])
             (Fixtures.bothChosen None) "script.pdf" "key.png"
             Samples.sampleReport 5 eq_refl eq_refl eq_refl ltac:(lia)).
  reflexivity.
Defined.

(** ** Data URLs and pdfProcessor.ts *)

Lemma splitOn_nonempty (sep : ascii) (s : string) : splitOn sep s <> [].
Proof.
  destruct s as [|c rest]; simpl; [discriminate|].
  destruct (Ascii.eqb c sep); [discriminate|].
  destruct (splitOn sep rest); discriminate.
Qed.

Lemma splitOn_whole (s : string) :
  hasComma s = false -> splitOn "," s = [s].
Proof.
  induction s as [|c rest IH]; simpl; auto.
  destruct (Ascii.eqb c ","); simpl; [discriminate|].
  intros H. now rewrite (IH H).
Qed.

Lemma splitOn_header (h rest : string) :
  hasComma h = false ->
  splitOn "," (String.append h (String "," rest)) = h :: splitOn "," rest.
Proof.
  induction h as [|c h IH]; simpl; auto.
  destruct (Ascii.eqb c ","); simpl; [discriminate|].
  intros H. now rewrite (IH H).
Qed.

(** X15. Taking the payload of a data URL: when the part before the
    separating comma holds no comma, [url.split(',')[1]] is the data up to
    its first comma, hence the whole data when that holds none, as base64
    text does.  So [toBase64] resolves with exactly the base64 data of the
    file, and [getPageAsImage] with exactly the base64 data of the JPEG that
    [getPageAsDataUrl]'s kind of rendering would return with its header. *)
Theorem payload_of_data_url (d : DataUrl) :
  hasComma (header d) = false ->
  secondPiece (dataUrlString d) = hd "" (splitOn "," (payload d))
  /\ (hasComma (payload d) = false ->
      secondPiece (dataUrlString d) = payload d
      /\ (forall b f,
            readAsDataURL b f = Some d ->
            toBase64 b f = ([AwaitRead f], Returned (payload d)))
      /\ (forall b f i,
            renderPage b f i (15 # 10) (8 # 10) = Returned (dataUrlString d) ->
            pdf_getPageAsImage b f i = Returned (payload d))).
Proof.
  intros Hh.
  assert (H1 : secondPiece (dataUrlString d)
               = hd "" (splitOn "," (payload d))).
  { unfold secondPiece, dataUrlString. rewrite (splitOn_header _ _ Hh).
    pose proof (splitOn_nonempty "," (payload d)).
    now destruct (splitOn "," (payload d)). }
  split; [exact H1|]. intros Hp.
  assert (H2 : secondPiece (dataUrlString d) = payload d)
    by (now rewrite H1, (splitOn_whole _ Hp)).
  split; [exact H2|]. split.
  - intros b f Hread. unfold toBase64. now rewrite Hread, H2.
  - intros b f i Hrender. unfold pdf_getPageAsImage.
    rewrite Hrender. simpl. now rewrite H2.
Qed.

Lemma payload_of_data_url_witness :
  hasComma "data:image/jpeg;base64" = false
  /\ hasComma "/9j/4AAQ" = false
  /\ pdf_getPageAsImage (Fixtures.browser true []) "scan.pdf" 1
     = Returned "/9j/4AAQ".
Proof.
  split; [reflexivity|]. split; [reflexivity|].
  exact (proj2 (proj2 (proj2 (payload_of_data_url
                                {| header := "data:image/jpeg;base64";
                                   payload := "/9j/4AAQ" |} eq_refl)
                               eq_refl))
           (Fixtures.browser true []) "scan.pdf" 1 eq_refl).
Defined.

Lemma renderPage_without_context (b : Browser) (file : File)
    (pageNumber : nat) (scale quality : Q) :
  hasContext2d b = false ->
  exists e, renderPage b file pageNumber scale quality = Thrown e.
Proof.
  intros Hctx. unfold renderPage, andThen. rewrite Hctx. simpl.
  destruct (arrayBuffer b file) as [buffer|e1]; [|eauto].
  destruct (getDocument b buffer) as [pdf|e2]; [|eauto].
  destruct (getPage pdf pageNumber) as [page|e3]; eauto.
Qed.

Lemma renderPage_canvas_error (b : Browser) (file : File) (pageNumber : nat)
    (scale quality : Q) (buffer : string) (pdf : PDFDocumentProxy)
    (page : PDFPageProxy) :
  hasContext2d b = false ->
  arrayBuffer b file = Returned buffer ->
  getDocument b buffer = Returned pdf ->
  getPage pdf pageNumber = Returned page ->
  renderPage b file pageNumber scale quality
  = Thrown (Error "Could not create canvas context").
Proof.
  intros Hctx Hbuf Hdoc Hpage. unfold renderPage, andThen.
  now rewrite Hbuf, Hdoc, Hpage, Hctx.
Qed.

(** X16. On a browser that yields no 2D canvas context, neither
    [getPageAsDataUrl] nor [getPageAsImage] ever returns a page, for any
    file and page; where the document and the page load, the failure is
    "Could not create canvas context".  A run on such a browser over a
    document with at least one page therefore stops at the preview of page
    1: it ends with status error, all pages still pending, and the backend
    never called. *)
Theorem no_canvas_context (b : Browser) (services : Collaborators)
    (uploadedFile : File) (s0 : State) :
  hasContext2d b = false ->
  (forall file i,
      (exists e, pdf_getPageAsDataUrl b file i = Thrown e)
      /\ (exists e, pdf_getPageAsImage b file i = Thrown e))
  /\ (forall file i buffer pdf page,
        arrayBuffer b file = Returned buffer ->
        getDocument b buffer = Returned pdf ->
        getPage pdf i = Returned page ->
        pdf_getPageAsDataUrl b file i
        = Thrown (Error "Could not create canvas context")
        /\ pdf_getPageAsImage b file i
           = Thrown (Error "Could not create canvas context"))
  /\ (forall count,
        pdf_getPageCount b uploadedFile = Returned count ->
        1 <= count ->
        trace (processFile (onBrowser b services) uploadedFile)
        = [SetState SetLoading; Await (call_getPageCount uploadedFile);
           SetState (Allocate count);
           Await (call_getPageAsDataUrl uploadedFile 1);
           SetState SetError]
        /\ run (updates (processFile (onBrowser b services) uploadedFile)) s0
           = {| ProcessingState.status := ProcessingState.error;
                ProcessingState.totalPages := count;
                ProcessingState.currentPage := 1;
                ProcessingState.results := skeleton count;
                ProcessingState.errorMessage := Some fatalMessage |}).
Proof.
  intros Hctx. split; [|split].
  - intros file i. split.
    + apply renderPage_without_context, Hctx.
    + unfold pdf_getPageAsImage.
      destruct (renderPage_without_context b file i (15 # 10) (8 # 10) Hctx)
        as [e ->].
      now exists e.
  - intros file i buffer pdf page Hbuf Hdoc Hpage. split.
    + now apply (renderPage_canvas_error b file i _ _ buffer pdf page).
    + unfold pdf_getPageAsImage.
      now rewrite (renderPage_canvas_error b file i _ _ buffer pdf page).
  - intros count Hcount Hpos.
    destruct (renderPage_without_context b uploadedFile 1 (1 # 1) (6 # 10)
                Hctx) as [e He].
    assert (Htrace :
              trace (processFile (onBrowser b services) uploadedFile)
              = [SetState SetLoading; Await (call_getPageCount uploadedFile);
                 SetState (Allocate count);
                 Await (call_getPageAsDataUrl uploadedFile 1);
                 SetState SetError]).
    { unfold trace.
      rewrite (processFile_trace_counted (onBrowser b services) uploadedFile
                 count Hcount).
      destruct count as [|n]; [lia|].
      rewrite forLoop_step.
      change (getPageAsDataUrl (onBrowser b services) uploadedFile 1)
        with (renderPage b uploadedFile 1 (1 # 1) (6 # 10)).
      now rewrite He. }
    split; [exact Htrace|].
    unfold updates, trace in *. now rewrite Htrace.
Qed.

Lemma no_canvas_context_witness :
  hasContext2d (Fixtures.browser false []) = false
  /\ pdf_getPageCount (Fixtures.browser false []) "scan.pdf" = Returned 2
  /\ ProcessingState.status
       (run (updates (processFile
                        (onBrowser (Fixtures.browser false [])
                                   Samples.allGood) "scan.pdf"))
            initialState)
     = ProcessingState.error.
Proof.
  split; [reflexivity|]. split; [reflexivity|].
  destruct (proj2 (proj2 (no_canvas_context (Fixtures.browser false [])
                            Samples.allGood "scan.pdf" initialState eq_refl))
              2 eq_refl ltac:(lia)) as [_ H].
  now rewrite H.
Defined.

(** ** Handlers and the hooks they leave alone *)

Lemma hooksOf_lift (tr : list Event) :
  hooksOf (map liftEvent tr) = map setPipeline (updatesOf tr).
Proof.
  induction tr as [|[c|u] tr IH]; simpl; auto. now rewrite IH.
Qed.

Lemma runHooks_pipeline (us : list Update) (a : App.Hooks) :
  runHooks (map setPipeline us) a
  = {| App.state := run us (App.state a); App.file := App.file a;
       App.copied := App.copied a; App.answerKeyFile := App.answerKeyFile a;
       App.report := App.report a; App.evalLoading := App.evalLoading a;
       App.evalError := App.evalError a |}.
Proof.
  revert a. induction us as [|u us IH]; intros a.
  - now destruct a.
  - cbn [map runHooks fold_left]. fold (runHooks (map setPipeline us)).
    rewrite IH. reflexivity.
Qed.

(** X17. Choosing a file: [onFileChange] without a file does nothing; with
    a file it records the file and runs the pipeline on it, and the hooks
    it leaves are the pipeline's final state beside the untouched answer
    key, report, [evalLoading], [evalError] and [copied]. *)
Theorem file_chosen (env : Collaborators) (hooks : App.Hooks) :
  onFileChange env None = ([], Returned tt)
  /\ forall f,
       snd (onFileChange env (Some f)) = Returned tt
       /\ after (onFileChange env (Some f)) hooks
          = {| App.state :=
                 run (updates (processFile env f)) (App.state hooks);
               App.file := Some f;
               App.copied := App.copied hooks;
               App.answerKeyFile := App.answerKeyFile hooks;
               App.report := App.report hooks;
               App.evalLoading := App.evalLoading hooks;
               App.evalError := App.evalError hooks |}.
Proof.
  split; [reflexivity|]. intros f.
  unfold onFileChange, after, hbind, hook, lift. cbn [fst snd].
  rewrite processFile_returns. split; [reflexivity|].
  cbn [app hooksOf runHooks fold_left].
  fold (runHooks (hooksOf (map liftEvent (fst (processFile env f))))).
  now rewrite hooksOf_lift, runHooks_pipeline.
Qed.

(** ** One backend call per page at most *)

Lemma pages_in_order_bound (env : Collaborators) (uploadedFile : File)
    (count : nat) :
  getPageCount env uploadedFile = Returned count ->
  exists m,
    m <= count
    /\ flat_map imageRequest (trace (processFile env uploadedFile)) = seq 1 m.
Proof.
  intros Hcount. unfold trace.
  rewrite (processFile_trace_counted env uploadedFile count Hcount).
  destruct (forLoop_requests env uploadedFile count 1) as (m & Hm & Himg & _).
  exists m. split; [exact Hm|].
  rewrite !flat_map_app, Himg.
  destruct (snd (forLoop count 1 (pageBody env uploadedFile)));
    simpl; now rewrite app_nil_r.
Qed.

Lemma filter_flat_map {A B : Type} (p : B -> bool) (f : A -> list B)
    (l : list A) :
  filter p (flat_map f l) = flat_map (fun x => filter p (f x)) l.
Proof.
  induction l as [|x l IH]; [reflexivity|].
  cbn [flat_map]. now rewrite filter_app, IH.
Qed.

(** The events of the loop are the segments of consecutive pages, followed,
    when a preview fails, by the request for that preview alone. *)
Lemma forLoop_segments (env : Collaborators) (uploadedFile : File)
    (n i : nat) :
  exists m,
    m <= n
    /\ ((m = n
         /\ fst (forLoop n i (pageBody env uploadedFile))
            = flat_map (pageSegment env uploadedFile) (seq i m)
         /\ snd (forLoop n i (pageBody env uploadedFile)) = Returned tt)
        \/ (m < n
            /\ fst (forLoop n i (pageBody env uploadedFile))
               = flat_map (pageSegment env uploadedFile) (seq i m)
                 ++ [Await (call_getPageAsDataUrl uploadedFile (i + m))]
            /\ previewUrl env uploadedFile (i + m) = None
            /\ exists e,
                 snd (forLoop n i (pageBody env uploadedFile)) = Thrown e)).
Proof.
  revert i. induction n as [|n IH]; intros i.
  - exists 0. split; [lia|]. left. auto.
  - rewrite forLoop_step.
    destruct (getPageAsDataUrl env uploadedFile i) as [url|e] eqn:Hurl;
      cbn [fst snd].
    + destruct (IH (S i)) as (m & Hm & H).
      exists (S m). split; [lia|].
      cbn [seq flat_map]. unfold pageSegment at 1 3. rewrite Hurl.
      destruct H as [(-> & Htr & Hout)|(Hlt & Htr & Hnone & Hout)].
      * left. split; [reflexivity|]. split; [|exact Hout].
        rewrite Htr. reflexivity.
      * right. split; [lia|]. split; [|split].
        -- rewrite Htr. cbn [app]. rewrite <- app_assoc.
           now replace (i + S m) with (S i + m) by lia.
        -- now replace (i + S m) with (S i + m) by lia.
        -- exact Hout.
    + exists 0. split; [lia|]. right. split; [lia|].
      rewrite Nat.add_0_r. split; [reflexivity|].
      split; [unfold previewUrl; now rewrite Hurl|]. now exists e.
Qed.

(** The segment of a page holds no backend call, or the single one that
    carries the page's own extraction-quality image. *)
Lemma segment_calls (env : Collaborators) (uploadedFile : File) (j : nat) :
  filter isBackendCall (pageSegment env uploadedFile j) = []
  \/ exists base64Image,
       getPageAsImage env uploadedFile j = Returned base64Image
       /\ filter isBackendCall (pageSegment env uploadedFile j)
          = [Await (call_generateContent (extractionRequest base64Image))].
Proof.
  unfold pageSegment.
  destruct (getPageAsDataUrl env uploadedFile j) as [url|e]; [|now left].
  rewrite extractPage_trace_exact.
  cbn [filter isBackendCall]. rewrite filter_app.
  cbn [filter isBackendCall]. rewrite app_nil_r.
  destruct (getPageAsImage env uploadedFile j) as [b|e]; [|now left].
  unfold extractContentFromPage.
  destruct (API_KEY env) as [[|c rest]|]; try (now left).
  unfold try_catch, bind, await. cbn [fst snd app].
  right. exists b. split; [reflexivity|].
  destruct (generateContent env _ _); reflexivity.
Qed.

(** X18. No retry and no fan-out, page by page.  The events of a run on a
    document of [count] pages are its three opening events, then the
    segments of pages 1 to [m] in order, each page once, then the closing
    events: [m] is [count] and the run completes, or the preview of page
    [m + 1] fails and the run fails.  The segment of a page holds at most
    one backend call, and that call carries the page's own
    extraction-quality image; the backend calls of the run are those of the
    segments of pages 1 to [m], in order, and there is none for any other
    page. *)
Theorem one_backend_call_per_page (env : Collaborators) (uploadedFile : File)
    (count : nat) :
  getPageCount env uploadedFile = Returned count ->
  exists m closing,
    m <= count
    /\ trace (processFile env uploadedFile)
       = [SetState SetLoading; Await (call_getPageCount uploadedFile);
          SetState (Allocate count)]
         ++ flat_map (pageSegment env uploadedFile) (seq 1 m)
         ++ closing
    /\ ((m = count /\ closing = [SetState SetCompleted])
        \/ (m < count
            /\ closing = [Await (call_getPageAsDataUrl uploadedFile (S m));
                          SetState SetError]))
    /\ (forall j,
          filter isBackendCall (pageSegment env uploadedFile j) = []
          \/ exists base64Image,
               getPageAsImage env uploadedFile j = Returned base64Image
               /\ filter isBackendCall (pageSegment env uploadedFile j)
                  = [Await (call_generateContent
                              (extractionRequest base64Image))])
    /\ filter isBackendCall (trace (processFile env uploadedFile))
       = flat_map (fun j => filter isBackendCall
                              (pageSegment env uploadedFile j))
                  (seq 1 m).
Proof.
  intros Hcount.
  destruct (forLoop_segments env uploadedFile count 1)
    as (m & Hm & [(-> & Htr & Hout)|(Hlt & Htr & _ & e & Hout)]).
  - exists count, [SetState SetCompleted].
    assert (Htrace : trace (processFile env uploadedFile)
                     = [SetState SetLoading;
                        Await (call_getPageCount uploadedFile);
                        SetState (Allocate count)]
                       ++ flat_map (pageSegment env uploadedFile)
                                   (seq 1 count)
                       ++ [SetState SetCompleted]).
    { unfold trace.
      rewrite (processFile_trace_counted env uploadedFile count Hcount).
      now rewrite Htr, Hout. }
    split; [lia|]. split; [exact Htrace|]. split; [left; auto|].
    split; [apply segment_calls|].
    rewrite Htrace, !filter_app, filter_flat_map.
    cbn [filter isBackendCall app]. now rewrite app_nil_r.
  - exists m, [Await (call_getPageAsDataUrl uploadedFile (S m));
               SetState SetError].
    assert (Htrace : trace (processFile env uploadedFile)
                     = [SetState SetLoading;
                        Await (call_getPageCount uploadedFile);
                        SetState (Allocate count)]
                       ++ flat_map (pageSegment env uploadedFile) (seq 1 m)
                       ++ [Await (call_getPageAsDataUrl uploadedFile (S m));
                           SetState SetError]).
    { unfold trace.
      rewrite (processFile_trace_counted env uploadedFile count Hcount).
      rewrite Htr, Hout. cbn [lastUpdate]. now rewrite <- app_assoc. }
    split; [lia|]. split; [exact Htrace|]. split; [right; auto|].
    split; [apply segment_calls|].
    rewrite Htrace, !filter_app, filter_flat_map.
    cbn [filter isBackendCall app]. now rewrite app_nil_r.
Qed.

Lemma one_backend_call_per_page_witness :
  getPageCount Samples.firstImageFails "scan.pdf" = Returned 2
  /\ exists m closing,
       m <= 2
       /\ trace (processFile Samples.firstImageFails "scan.pdf")
          = [SetState SetLoading; Await (call_getPageCount "scan.pdf");
             SetState (Allocate 2)]
            ++ flat_map (pageSegment Samples.firstImageFails "scan.pdf")
                        (seq 1 m)
            ++ closing
       /\ filter isBackendCall
            (trace (processFile Samples.firstImageFails "scan.pdf"))
          = flat_map (fun j => filter isBackendCall
                                 (pageSegment Samples.firstImageFails
                                              "scan.pdf" j))
                     (seq 1 m).
Proof.
  split; [reflexivity|].
  destruct (one_backend_call_per_page Samples.firstImageFails "scan.pdf" 2
              eq_refl)
    as (m & closing & Hm & Htrace & _ & _ & Hcalls).
  exists m, closing. auto.
Defined.

(** ** Previews and page status *)

Lemma wellShown_results (s s' : State) :
  ProcessingState.results s' = ProcessingState.results s ->
  wellShown s -> wellShown s'.
Proof.
  intros Hres H j r Hr. apply (H j r). unfold pageAt in *. now rewrite <- Hres.
Qed.

Lemma wellShown_empty (s : State) :
  ProcessingState.results s = [] -> wellShown s.
Proof.
  intros Hres j r Hr. unfold pageAt in Hr. rewrite Hres in Hr. discriminate.
Qed.

Section Shown.

Variable env : Collaborators.
Variable uploadedFile : File.
Variable count : nat.

Lemma expected_wellShown (i : nat) (s : State) :
  (forall j, pageAt s j = expectedPage env uploadedFile count i j) ->
  (forall j, 1 <= j < i -> previewUrl env uploadedFile j <> None) ->
  wellShown s.
Proof.
  intros Hpages Hok j r Hr. rewrite Hpages in Hr. unfold expectedPage in Hr.
  destruct ((1 <=? j) && (j <=? count)) eqn:Hrange; [|discriminate].
  apply andb_true_iff in Hrange. destruct Hrange as [H1 _].
  destruct (j <? i) eqn:Hji; inversion Hr; subst r; reflect_comparisons.
  - unfold finishedPage.
    destruct (pageResult env uploadedFile j); simpl;
      (split; [discriminate|intros _; apply Hok; lia]).
  - split; [auto|]. intros H. now elim H.
Qed.

Lemma loop_wellShown (n i : nat) (tr : list Event) (o : outcome unit) :
  loopTrace env uploadedFile n i tr o ->
  forall s,
    loopInvariant env uploadedFile count i s ->
    (forall j, 1 <= j < i -> previewUrl env uploadedFile j <> None) ->
    Forall wellShown (snapshots (updatesOf tr) s).
Proof.
  induction 1 as [i|n i e He|n i url aw tr o Hurl Haw Hloop IH];
    intros s Hinv Hok.
  - constructor; [|constructor].
    destruct Hinv as [Hpages _]. now apply (expected_wellShown i).
  - constructor; [|constructor].
    destruct Hinv as [Hpages _]. now apply (expected_wellShown i).
  - destruct (page_iteration env uploadedFile count i url s Hurl Hinv)
      as (_ & _ & Hinv').
    assert (Hi : previewUrl env uploadedFile i = Some url)
      by (unfold previewUrl; now rewrite Hurl).
    cbn [updatesOf]. rewrite updatesOf_app, (updatesOf_awaits i aw Haw).
    cbn [updatesOf app snapshots].
    destruct Hinv as [Hpages _].
    constructor; [now apply (expected_wellShown i)|].
    constructor.
    + intros j r Hr. rewrite pageAt_MarkProcessing in Hr.
      destruct (j =? i) eqn:Hji.
      * destruct (pageAt s j) as [r0|]; [|discriminate].
        inversion Hr. subst r. simpl. split; discriminate.
      * exact (expected_wellShown i s Hpages Hok j r Hr).
    + apply IH; [exact Hinv'|].
      intros j Hj. destruct (Nat.eq_dec j i) as [->|Hne].
      * congruence.
      * apply Hok. lia.
Qed.

End Shown.

(** X19. In every published state of a run started without page records, a
    page that is pending has no preview and no content yet, and a page that
    is processing, completed or error has its preview attached. *)
Theorem preview_follows_status (env : Collaborators) (uploadedFile : File)
    (s0 s : State) (k : nat) :
  ProcessingState.results s0 = [] ->
  nth_error (snapshots (updates (processFile env uploadedFile)) s0) k
    = Some s ->
  wellShown s.
Proof.
  intros Hempty Hs.
  destruct (getPageCount env uploadedFile) as [count|e] eqn:Hcount.
  - rewrite (processFile_updates_counted env uploadedFile count Hcount) in Hs.
    destruct k as [|[|k]].
    + inversion Hs. subst s. now apply wellShown_empty.
    + inversion Hs. subst s. now apply wellShown_empty.
    + change (nth_error (snapshots (SetLoading :: Allocate count :: ?us) s0)
                        (S (S k)))
        with (nth_error (snapshots us (applyUpdate (Allocate count)
                                         (applyUpdate SetLoading s0))) k)
        in Hs.
      apply nth_error_In in Hs. revert s Hs. apply Forall_forall.
      assert (Hloop :
                Forall wellShown
                  (snapshots
                     (updatesOf (fst (forLoop count 1
                                        (pageBody env uploadedFile))))
                     (applyUpdate (Allocate count)
                        (applyUpdate SetLoading s0)))).
      { eapply (loop_wellShown env uploadedFile count);
          [apply forLoop_loopTrace|apply allocated_invariant|].
        intros j Hj. lia. }
      apply snapshots_snoc; [exact Hloop|].
      rewrite Forall_forall in Hloop.
      match goal with
      | |- context [run ?us ?st] =>
          pose proof (Hloop _ (snapshots_final us st)) as Hfinal
      end.
      eapply wellShown_results; [|exact Hfinal].
      now destruct (snd (forLoop count 1 (pageBody env uploadedFile))).
  - rewrite (processFile_updates_uncounted env uploadedFile e Hcount) in Hs.
    apply wellShown_empty.
    destruct k as [|[|[|k]]]; simpl in Hs;
      [inversion Hs; subst; auto..|destruct k; discriminate].
Qed.

Lemma preview_follows_status_witness :
  ProcessingState.results initialState = []
  /\ wellShown
       (run (firstn 3 (updates (processFile Samples.secondExtractionFails
                                            "scan.pdf"))) initialState).
Proof.
  split; [reflexivity|].
  apply (preview_follows_status Samples.secondExtractionFails "scan.pdf"
           initialState _ 3 eq_refl).
  vm_compute. reflexivity.
Defined.
